(** * open-observe: request tracing for Echo services and a traced MongoDB wrapper

    A shallow embedding of the Go packages [otel] (trace_data.go,
    helper_http.go, helper_grpc.go, middleware.go, model.go) and [mongo]
    (the traced collection wrapper), and the properties of their span
    lifecycle.

    The OpenTelemetry span, the tracer, the Echo context and the store driver
    are collaborators of these packages.  They are modelled by what the
    packages do to them: every call on the span API is appended to a log kept
    in the world, the Echo context is a record in the world, and the driver
    call and the downstream handler are arbitrary computations on the world. *)

From Stdlib Require Import ZArith Ascii String.
From stdpp Require Import gmap strings list fin_maps pretty.

Set Warnings "-register-all".

Local Open Scope Z_scope.
Local Open Scope string_scope.
Local Open Scope list_scope.

(** ** Go values used by the packages *)

(** A non-nil value of Go's [error] interface: [err_id] stands for the identity
    of the value (two errors with one text can be different values),
    [err_text] is what its [Error()] method returns. *)
Record ErrorValue := { err_id : nat; err_text : string }.

(** Go's [error]: [None] is [nil]. *)
Definition error := option ErrorValue.

(** A [time.Time] is only observed by these packages through [IsZero()] and
    [Format(time.RFC3339)]; it is represented by these two observations. *)
Module time.
Record Time := { IsZero : bool; FormatRFC3339 : string }.

(** The zero value of [time.Time]. *)
Definition zero : Time :=
  {| IsZero := true; FormatRFC3339 := "0001-01-01T00:00:00Z" |}.
End time.

(** [go.opentelemetry.io/otel/codes] *)
Module codes.
Inductive Code := Unset | Error | Ok.
End codes.

(** [go.opentelemetry.io/otel/attribute]: typed key/value pairs.  A [float64]
    is carried as its IEEE 754 bit pattern, the packages do no arithmetic
    on it. *)
Module attribute.
Inductive Value :=
| STRING (s : string)
| INT64 (n : Z)
| FLOAT64 (bits : Z).

Record KeyValue := { Key : string; Val : Value }.

Definition String (k v : string) : KeyValue := {| Key := k; Val := STRING v |}.
(** [attribute.Int] stores an [int] as an [int64] value. *)
Definition Int (k : string) (v : Z) : KeyValue := {| Key := k; Val := INT64 v |}.
Definition Int64 (k : string) (v : Z) : KeyValue := {| Key := k; Val := INT64 v |}.
Definition Float64 (k : string) (bits : Z) : KeyValue := {| Key := k; Val := FLOAT64 bits |}.

End attribute.

(** [net/http]: headers and the status code the enrichment compares against. *)
Module http.
Definition StatusOK : Z := 200.

Definition between (lo hi : nat) (c : ascii) : bool :=
  (lo <=? nat_of_ascii c)%nat && (nat_of_ascii c <=? hi)%nat.
Definition is_lower (c : ascii) : bool := between 97 122 c.
Definition is_upper (c : ascii) : bool := between 65 90 c.
Definition is_digit (c : ascii) : bool := between 48 57 c.

(** Bytes allowed in a header field name (RFC 7230 token characters). *)
Definition validHeaderFieldByte (c : ascii) : bool :=
  is_lower c || is_upper c || is_digit c
  || bool_decide (c ∈ list_ascii_of_string "!#$%&'*+-.^_`|~").

Definition to_upper (c : ascii) : ascii :=
  if is_lower c then ascii_of_nat (nat_of_ascii c - 32) else c.
Definition to_lower (c : ascii) : ascii :=
  if is_upper c then ascii_of_nat (nat_of_ascii c + 32) else c.

(** First letter and every letter after a hyphen in upper case, the rest in
    lower case. *)
Fixpoint canonical_from (upper : bool) (s : string) : string :=
  match s with
  | EmptyString => EmptyString
  | String.String c s' =>
      let c' := if upper then to_upper c else to_lower c in
      String.String c' (canonical_from (if decide (c' = "-"%char) then true else false) s')
  end.

(** [textproto.CanonicalMIMEHeaderKey]: a key with a byte that is not
    allowed in a field name is returned as it is. *)
Definition CanonicalMIMEHeaderKey (s : string) : string :=
  if forallb validHeaderFieldByte (list_ascii_of_string s)
  then canonical_from true s else s.

(** [http.Header] is [map[string][]string]. *)
Abbreviation Header := (gmap string (list string)).

(** [Header.Get]: the first value under the canonical key, or the empty string. *)
Definition Get (h : Header) (key : string) : string :=
  match h !! CanonicalMIMEHeaderKey key with
  | Some (v :: _) => v
  | _ => ""
  end.

(** [Header.Set]: replaces the values under the canonical key by the one value. *)
Definition Set_ (h : Header) (key value : string) : Header :=
  <[CanonicalMIMEHeaderKey key := [value]]> h.
End http.

(** [github.com/google/uuid]: a UUID is 16 bytes, kept here as a 128-bit
    number with byte 0 in the most significant position. *)
Module uuid.
Definition byte_at (u : Z) (i : Z) : Z := Z.land (Z.shiftr u (8 * (15 - i))) 255.

Definition hexdigit (n : Z) : ascii :=
  nth (Z.to_nat n) (list_ascii_of_string "0123456789abcdef") "0"%char.

Definition hexbyte (b : Z) (rest : string) : string :=
  String.String (hexdigit (Z.shiftr b 4)) (String.String (hexdigit (Z.land b 15)) rest).

(** [uuid.NewRandom] on 16 random bytes [r]: version 4 in byte 6, variant
    10 in byte 8. *)
Definition set_byte (u : Z) (i : Z) (b : Z) : Z :=
  Z.lor (Z.land u (Z.lnot (Z.shiftl 255 (8 * (15 - i))))) (Z.shiftl b (8 * (15 - i))).

Definition NewRandom (r : Z) : Z :=
  let u := Z.land r (Z.ones 128) in
  let u := set_byte u 6 (Z.lor (Z.land (byte_at u 6) 15) 64) in
  set_byte u 8 (Z.lor (Z.land (byte_at u 8) 63) 128).

Definition hexbytes (bs : list Z) (rest : string) : string := foldr hexbyte rest bs.

(** [UUID.String]: xxxxxxxx-xxxx-xxxx-xxxx-xxxxxxxxxxxx *)
Definition String (u : Z) : string :=
  let b := byte_at u in
  hexbytes [b 0; b 1; b 2; b 3] (String.String "-"%char
  (hexbytes [b 4; b 5] (String.String "-"%char
  (hexbytes [b 6; b 7] (String.String "-"%char
  (hexbytes [b 8; b 9] (String.String "-"%char
  (hexbytes [b 10; b 11; b 12; b 13; b 14; b 15] EmptyString)))))))).
End uuid.

(** [go.opentelemetry.io/otel/propagation]: the propagators the packages
    install and use.  [NoOp] is the process-wide default before one is set. *)
Module propagation.
Inductive TextMapPropagator :=
| NoOp
| TraceContext
| Baggage
| Composite (ps : list TextMapPropagator).
End propagation.

(** [context.Context] is opaque to the packages: they build contexts and pass
    them on.  A context is the chain of the steps that built it. *)
Module context.
Inductive Context :=
| Background
| Extracted (p : propagation.TextMapPropagator) (carrier : http.Header) (parent : Context)
| WithSpan (span : nat) (parent : Context).

Definition TODO : Context := Background.
End context.

(** [go.opentelemetry.io/otel/trace]: the span interface, as the calls made on it. *)
Module trace.
(** A span is named by the position of its start in the log. *)
Definition Span := nat.

(** [otel.Tracer(name)] *)
Record Tracer := { instrumentationName : string }.

Inductive SpanStartOption :=
| WithAttributes (kvs : list attribute.KeyValue).

Inductive Call :=
| SetStatus (code : codes.Code) (description : string)
| SetAttributes (kvs : list attribute.KeyValue)
| RecordError (err : error)
| End_.

Inductive Event :=
| Started (span : Span) (tracer : Tracer) (ctx : context.Context) (name : string)
          (opts : list SpanStartOption)
| Called (span : Span) (call : Call).
End trace.

(** model.go *)
Module Config.
Record t := {
  ServiceName : string;
  Endpoint : string;
  IsSecure : bool;
  BasicAuth : string;
  Environment : string;
  StreamName : string
}.

Definition set_ServiceName (v : string) (c : t) : t :=
  {| ServiceName := v; Endpoint := Endpoint c; IsSecure := IsSecure c;
     BasicAuth := BasicAuth c; Environment := Environment c; StreamName := StreamName c |}.
End Config.

Record TraceContext := {
  Tracer : trace.Tracer;
  RequestCtx : context.Context
}.

(** [github.com/labstack/echo/v4]: the request, the response and the
    per-request store of one [echo.Context]. *)
Module echo.
Definition HeaderContentType : string := "Content-Type".

(** [*http.Request] *)
Record Request := {
  Method : string;
  URL_Path : string;
  URL_Scheme : string;
  Host : string;
  Proto : string;
  Header : http.Header;
  ContentLength : Z;
  Ctx : context.Context
}.

(** [req.WithContext(ctx)] *)
Definition WithContext (req : Request) (ctx : context.Context) : Request :=
  {| Method := Method req; URL_Path := URL_Path req; URL_Scheme := URL_Scheme req;
     Host := Host req; Proto := Proto req; Header := Header req;
     ContentLength := ContentLength req; Ctx := ctx |}.

(** [req.UserAgent()] *)
Definition UserAgent (req : Request) : string := http.Get (Header req) "User-Agent".

(** [*echo.Response] *)
Record Response := {
  Status : Z;
  Size : Z;
  RespHeader : http.Header
}.

(** What [c.Set] stores is an [interface{}]. *)
Inductive Any :=
| OfTraceContext (tc : TraceContext)
| Other (tag : nat).

(** [c.Path()] is the route the router matched (empty when none),
    [c.RealIP()] is what Echo computes from the connection. *)
Record Context := {
  request : Request;
  response : Response;
  path : string;
  realIP : string;
  store : gmap string Any
}.
End echo.

(** OTLP exporters and the SDK's provider, as far as the initializers
    configure them. *)
Module otlptrace.
Inductive Transport := HTTP | GRPC.

Inductive Option_ :=
| WithEndpoint (endpoint : string)
| WithURLPath (urlPath : string)
| WithHeaders (headers : gmap string string)
| WithInsecure.

Record Exporter := { transport : Transport; options : list Option_ }.
End otlptrace.

Module sdktrace.
Inductive Sampler := AlwaysSample.

(** The batcher is [None] when the exporter could not be built (a nil
    exporter in the source). *)
Record TracerProvider := {
  sampler : Sampler;
  schemaURL : string;
  resource : list attribute.KeyValue;
  batcher : option otlptrace.Exporter
}.
End sdktrace.

Module semconv.
Definition SchemaURL : string := "https://opentelemetry.io/schemas/1.4.0".
Definition ServiceNameKey : string := "service.name".
Definition ServiceVersionKey : string := "service.version".
Definition HTTPMethodKey : string := "http.method".
Definition HTTPTargetKey : string := "http.target".
Definition HTTPRouteKey : string := "http.route".
Definition HTTPHostKey : string := "http.host".
Definition HTTPSchemeKey : string := "http.scheme".
End semconv.

(** ** The world and the computations on it *)

(** The state the packages act on: the log of span API calls, the Echo
    context of the request at hand, the process-wide OpenTelemetry settings,
    standard output, and what the environment answers (random bytes, the
    wall clock, whether an exporter can be built). *)
Record World := {
  log : list trace.Event;
  ectx : echo.Context;
  propagator : propagation.TextMapPropagator;
  provider : option sdktrace.TracerProvider;
  stdout : list string;
  entropy : nat -> Z;
  drawn : nat;
  clock : nat -> time.Time;
  ticks : nat;
  exporterError : otlptrace.Exporter -> error
}.

Definition set_log (f : list trace.Event -> list trace.Event) (w : World) : World :=
  {| log := f (log w); ectx := ectx w; propagator := propagator w; provider := provider w;
     stdout := stdout w; entropy := entropy w; drawn := drawn w; clock := clock w;
     ticks := ticks w; exporterError := exporterError w |}.

Definition set_ectx (f : echo.Context -> echo.Context) (w : World) : World :=
  {| log := log w; ectx := f (ectx w); propagator := propagator w; provider := provider w;
     stdout := stdout w; entropy := entropy w; drawn := drawn w; clock := clock w;
     ticks := ticks w; exporterError := exporterError w |}.

Definition set_propagator (p : propagation.TextMapPropagator) (w : World) : World :=
  {| log := log w; ectx := ectx w; propagator := p; provider := provider w;
     stdout := stdout w; entropy := entropy w; drawn := drawn w; clock := clock w;
     ticks := ticks w; exporterError := exporterError w |}.

Definition set_provider (tp : sdktrace.TracerProvider) (w : World) : World :=
  {| log := log w; ectx := ectx w; propagator := propagator w; provider := Some tp;
     stdout := stdout w; entropy := entropy w; drawn := drawn w; clock := clock w;
     ticks := ticks w; exporterError := exporterError w |}.

Definition set_stdout (f : list string -> list string) (w : World) : World :=
  {| log := log w; ectx := ectx w; propagator := propagator w; provider := provider w;
     stdout := f (stdout w); entropy := entropy w; drawn := drawn w; clock := clock w;
     ticks := ticks w; exporterError := exporterError w |}.

Definition set_drawn (n : nat) (w : World) : World :=
  {| log := log w; ectx := ectx w; propagator := propagator w; provider := provider w;
     stdout := stdout w; entropy := entropy w; drawn := n; clock := clock w;
     ticks := ticks w; exporterError := exporterError w |}.

Definition set_ticks (n : nat) (w : World) : World :=
  {| log := log w; ectx := ectx w; propagator := propagator w; provider := provider w;
     stdout := stdout w; entropy := entropy w; drawn := drawn w; clock := clock w;
     ticks := n; exporterError := exporterError w |}.

(** A Go call either returns or panics. *)
Inductive Outcome (A : Type) :=
| Return (a : A)
| Panic (v : string).
Arguments Return {A} a.
Arguments Panic {A} v.

Definition M (A : Type) : Type := World -> Outcome A * World.

#[global] Instance M_ret : MRet M := fun A a w => (Return a, w).

#[global] Instance M_bind : MBind M := fun A B f m w =>
  match m w with
  | (Return a, w') => f a w'
  | (Panic v, w') => (Panic v, w')
  end.

(** [defer d] before [body]: [d] runs when [body] returns and when it panics;
    the outcome is that of [body] unless [d] itself panics. *)
Definition defer {A} (d : M unit) (body : M A) : M A := fun w =>
  let '(o, w') := body w in
  match d w' with
  | (Return _, w'') => (o, w'')
  | (Panic v, w'') => (Panic v, w'')
  end.

Definition gets {A} (f : World -> A) : M A := fun w => (Return (f w), w).
Definition modify (f : World -> World) : M unit := fun w => (Return tt, f w).
Definition panic {A} (v : string) : M A := fun w => (Panic v, w).

(** [fmt.Println]: the operands separated by a space. *)
Module fmt.
Definition Println (args : list string) : M unit :=
  modify (set_stdout (fun out => out ++ [String.concat " " args])).
End fmt.

(** [time.Now()]: the next reading of the wall clock. *)
Definition time_Now : M time.Time := fun w =>
  (Return (clock w (ticks w)), set_ticks (S (ticks w)) w).

(** [uuid.New()]: a version 4 UUID from the next 16 random bytes.  (It panics
    only when the system's random source fails, which is left out.) *)
Definition uuid_New : M Z := fun w =>
  (Return (uuid.NewRandom (entropy w (drawn w))), set_drawn (S (drawn w)) w).

(** [otel.Tracer(name)], [otel.GetTextMapPropagator()], [otel.SetTextMapPropagator],
    [otel.SetTracerProvider] *)
Module otel.
Definition Tracer (name : string) : trace.Tracer := {| trace.instrumentationName := name |}.
Definition GetTextMapPropagator : M propagation.TextMapPropagator := gets propagator.
Definition SetTextMapPropagator (p : propagation.TextMapPropagator) : M unit :=
  modify (set_propagator p).
Definition SetTracerProvider (tp : sdktrace.TracerProvider) : M unit :=
  modify (set_provider tp).
End otel.

(** [tracer.Start(ctx, name, opts...)]: a new span, and the context that carries it. *)
Module tracer.
Definition Start (t : trace.Tracer) (ctx : context.Context) (name : string)
    (opts : list trace.SpanStartOption) : M (context.Context * trace.Span) := fun w =>
  let span : trace.Span := length (log w) in
  (Return (context.WithSpan span ctx, span),
   set_log (fun l => l ++ [trace.Started span t ctx name opts]) w).
End tracer.

(** The methods of [trace.Span] that the packages call. *)
Module span.
Definition call (s : trace.Span) (c : trace.Call) : M unit :=
  modify (set_log (fun l => l ++ [trace.Called s c])).

Definition SetStatus (s : trace.Span) (code : codes.Code) (description : string) : M unit :=
  call s (trace.SetStatus code description).
Definition SetAttributes (s : trace.Span) (kvs : list attribute.KeyValue) : M unit :=
  call s (trace.SetAttributes kvs).
Definition RecordError (s : trace.Span) (err : error) : M unit :=
  call s (trace.RecordError err).
Definition End_ (s : trace.Span) : M unit :=
  call s trace.End_.
End span.

(** The methods of the request's [echo.Context] that the middleware calls. *)
Module c.
Definition Request : M echo.Request := gets (fun w => echo.request (ectx w)).
Definition Response : M echo.Response := gets (fun w => echo.response (ectx w)).
Definition Path : M string := gets (fun w => echo.path (ectx w)).
Definition RealIP : M string := gets (fun w => echo.realIP (ectx w)).

Definition SetRequest (r : echo.Request) : M unit :=
  modify (set_ectx (fun e =>
    {| echo.request := r; echo.response := echo.response e; echo.path := echo.path e;
       echo.realIP := echo.realIP e; echo.store := echo.store e |})).

Definition Set_ (key : string) (val : echo.Any) : M unit :=
  modify (set_ectx (fun e =>
    {| echo.request := echo.request e; echo.response := echo.response e;
       echo.path := echo.path e; echo.realIP := echo.realIP e;
       echo.store := <[key := val]> (echo.store e) |})).

(** [c.Response().Header().Set(key, value)] *)
Definition ResponseHeaderSet (key value : string) : M unit :=
  modify (set_ectx (fun e =>
    {| echo.request := echo.request e;
       echo.response :=
         {| echo.Status := echo.Status (echo.response e);
            echo.Size := echo.Size (echo.response e);
            echo.RespHeader := http.Set_ (echo.RespHeader (echo.response e)) key value |};
       echo.path := echo.path e; echo.realIP := echo.realIP e;
       echo.store := echo.store e |})).
(** [c.Get(key)]: what was stored under the key, nil when nothing was. *)
Definition Get (key : string) : M (option echo.Any) :=
  gets (fun w => echo.store (ectx w) !! key).
End c.

(** [echo.HandlerFunc]: [func(c echo.Context) error], on the context of the world. *)
Definition HandlerFunc : Type := M error.

(** ** What a log says about a span *)

(** The calls made on span [s], oldest first. *)
Fixpoint calls_on (s : trace.Span) (l : list trace.Event) : list trace.Call :=
  match l with
  | [] => []
  | trace.Called s' call :: l' =>
      if decide (s' = s) then call :: calls_on s l' else calls_on s l'
  | trace.Started _ _ _ _ _ :: l' => calls_on s l'
  end.

(** The attributes given to span [s] when it was started. *)
Fixpoint start_attributes (s : trace.Span) (l : list trace.Event) : list attribute.KeyValue :=
  match l with
  | [] => []
  | trace.Started s' _ _ _ opts :: l' =>
      if decide (s' = s)
      then concat (map (fun o => match o with trace.WithAttributes kvs => kvs end) opts)
             ++ start_attributes s l'
      else start_attributes s l'
  | trace.Called _ _ :: l' => start_attributes s l'
  end.

(** The name span [s] was started with. *)
Fixpoint span_name (s : trace.Span) (l : list trace.Event) : option string :=
  match l with
  | [] => None
  | trace.Started s' _ _ name _ :: l' =>
      if decide (s' = s) then Some name else span_name s l'
  | trace.Called _ _ :: l' => span_name s l'
  end.

Definition put (m : gmap string attribute.Value) (kv : attribute.KeyValue)
  : gmap string attribute.Value :=
  <[attribute.Key kv := attribute.Val kv]> m.

Definition attributes_after (m : gmap string attribute.Value) (call : trace.Call)
  : gmap string attribute.Value :=
  match call with
  | trace.SetAttributes kvs => foldl put m kvs
  | _ => m
  end.

(** The attribute set of span [s]: for each key the value set last. *)
Definition span_attributes (s : trace.Span) (l : list trace.Event)
  : gmap string attribute.Value :=
  foldl attributes_after (foldl put ∅ (start_attributes s l)) (calls_on s l).

Definition status_after (st : codes.Code * string) (call : trace.Call) : codes.Code * string :=
  match call with
  | trace.SetStatus code description => (code, description)
  | _ => st
  end.

(** The status last asked of span [s]: the code and the description of the
    last [SetStatus] call made on it, [Unset] when none was made.  This reads
    what the code asked for; what the span of the SDK then holds is
    [sdk_span_status] below. *)
Definition span_status (s : trace.Span) (l : list trace.Event) : codes.Code * string :=
  foldl status_after (codes.Unset, "") (calls_on s l).

(** The status the span of the OpenTelemetry SDK holds, under the precedence
    the SDK gives to statuses (Ok over Error over Unset; a description is kept
    for Error only): a [SetStatus] with a lower code than the current one is
    ignored. *)
Definition code_rank (code : codes.Code) : nat :=
  match code with codes.Unset => 0 | codes.Error => 1 | codes.Ok => 2 end.

Definition sdk_status_after (st : codes.Code * string) (call : trace.Call)
  : codes.Code * string :=
  match call with
  | trace.SetStatus code description =>
      if (code_rank code <? code_rank st.1)%nat then st
      else (code, match code with codes.Error => description | _ => "" end)
  | _ => st
  end.

Definition sdk_span_status (s : trace.Span) (l : list trace.Event) : codes.Code * string :=
  foldl sdk_status_after (codes.Unset, "") (calls_on s l).

(** The non-nil errors given in the [RecordError] calls of a list of calls. *)
Definition error_calls (calls : list trace.Call) : list ErrorValue :=
  omap (fun call => match call with trace.RecordError err => err | _ => None end) calls.

(** The errors recorded on span [s]. *)
Definition recorded_errors (s : trace.Span) (l : list trace.Event) : list ErrorValue :=
  error_calls (calls_on s l).

Definition is_End (call : trace.Call) : bool :=
  match call with trace.End_ => true | _ => false end.

(** How many times span [s] was ended. *)
Definition times_ended (s : trace.Span) (l : list trace.Event) : nat :=
  length (List.filter is_End (calls_on s l)).

(** The [SetStatus] calls in a list of calls. *)
Definition status_calls (calls : list trace.Call) : list (codes.Code * string) :=
  omap (fun call => match call with
                    | trace.SetStatus code description => Some (code, description)
                    | _ => None
                    end) calls.

(** The attributes given in the [SetAttributes] calls of a list of calls. *)
Definition attribute_calls (calls : list trace.Call) : list attribute.KeyValue :=
  concat (omap (fun call => match call with
                            | trace.SetAttributes kvs => Some kvs
                            | _ => None
                            end) calls).

(** ** trace_data.go *)

Module TraceData.
Record t := {
  UserID : string;
  RequestID : string;
  ServiceName : string;
  Environment : string;
  Version : string;
  Region : string;
  Action : string;
  Resource : string;
  StatusCode : Z;
  Error : error;
  ClientIP : string;
  UserAgent : string;
  RequestSize : Z;
  ResponseSize : Z;
  Duration : Z;
  StartTime : time.Time;
  EndTime : time.Time
}.

(** The zero value [TraceData{}]. *)
Definition zero : t :=
  {| UserID := ""; RequestID := ""; ServiceName := ""; Environment := ""; Version := "";
     Region := ""; Action := ""; Resource := ""; StatusCode := 0; Error := None;
     ClientIP := ""; UserAgent := ""; RequestSize := 0; ResponseSize := 0; Duration := 0;
     StartTime := time.zero; EndTime := time.zero |}.

Definition set_RequestID (v : string) (d : t) : t :=
  {| UserID := UserID d; RequestID := v; ServiceName := ServiceName d;
     Environment := Environment d; Version := Version d; Region := Region d;
     Action := Action d; Resource := Resource d; StatusCode := StatusCode d;
     Error := Error d; ClientIP := ClientIP d; UserAgent := UserAgent d;
     RequestSize := RequestSize d; ResponseSize := ResponseSize d; Duration := Duration d;
     StartTime := StartTime d; EndTime := EndTime d |}.

Definition set_Environment (v : string) (d : t) : t :=
  {| UserID := UserID d; RequestID := RequestID d; ServiceName := ServiceName d;
     Environment := v; Version := Version d; Region := Region d;
     Action := Action d; Resource := Resource d; StatusCode := StatusCode d;
     Error := Error d; ClientIP := ClientIP d; UserAgent := UserAgent d;
     RequestSize := RequestSize d; ResponseSize := ResponseSize d; Duration := Duration d;
     StartTime := StartTime d; EndTime := EndTime d |}.

Definition set_Action (v : string) (d : t) : t :=
  {| UserID := UserID d; RequestID := RequestID d; ServiceName := ServiceName d;
     Environment := Environment d; Version := Version d; Region := Region d;
     Action := v; Resource := Resource d; StatusCode := StatusCode d;
     Error := Error d; ClientIP := ClientIP d; UserAgent := UserAgent d;
     RequestSize := RequestSize d; ResponseSize := ResponseSize d; Duration := Duration d;
     StartTime := StartTime d; EndTime := EndTime d |}.

Definition set_Resource (v : string) (d : t) : t :=
  {| UserID := UserID d; RequestID := RequestID d; ServiceName := ServiceName d;
     Environment := Environment d; Version := Version d; Region := Region d;
     Action := Action d; Resource := v; StatusCode := StatusCode d;
     Error := Error d; ClientIP := ClientIP d; UserAgent := UserAgent d;
     RequestSize := RequestSize d; ResponseSize := ResponseSize d; Duration := Duration d;
     StartTime := StartTime d; EndTime := EndTime d |}.

Definition set_StatusCode (v : Z) (d : t) : t :=
  {| UserID := UserID d; RequestID := RequestID d; ServiceName := ServiceName d;
     Environment := Environment d; Version := Version d; Region := Region d;
     Action := Action d; Resource := Resource d; StatusCode := v;
     Error := Error d; ClientIP := ClientIP d; UserAgent := UserAgent d;
     RequestSize := RequestSize d; ResponseSize := ResponseSize d; Duration := Duration d;
     StartTime := StartTime d; EndTime := EndTime d |}.

Definition set_Error (v : error) (d : t) : t :=
  {| UserID := UserID d; RequestID := RequestID d; ServiceName := ServiceName d;
     Environment := Environment d; Version := Version d; Region := Region d;
     Action := Action d; Resource := Resource d; StatusCode := StatusCode d;
     Error := v; ClientIP := ClientIP d; UserAgent := UserAgent d;
     RequestSize := RequestSize d; ResponseSize := ResponseSize d; Duration := Duration d;
     StartTime := StartTime d; EndTime := EndTime d |}.

Definition set_EndTime (v : time.Time) (d : t) : t :=
  {| UserID := UserID d; RequestID := RequestID d; ServiceName := ServiceName d;
     Environment := Environment d; Version := Version d; Region := Region d;
     Action := Action d; Resource := Resource d; StatusCode := StatusCode d;
     Error := Error d; ClientIP := ClientIP d; UserAgent := UserAgent d;
     RequestSize := RequestSize d; ResponseSize := ResponseSize d; Duration := Duration d;
     StartTime := StartTime d; EndTime := v |}.
End TraceData.

(** The attribute slice [AddTraceAttributes] builds before it touches the span. *)
Definition attributes_of (data : TraceData.t) : list attribute.KeyValue :=
  let attributes := [
    attribute.String "user.id" (TraceData.UserID data);
    attribute.String "request.id" (TraceData.RequestID data);
    attribute.String "service.name" (TraceData.ServiceName data);
    attribute.String "environment" (TraceData.Environment data);
    attribute.String "version" (TraceData.Version data);
    attribute.String "region" (TraceData.Region data);
    attribute.String "action" (TraceData.Action data);
    attribute.String "resource" (TraceData.Resource data);
    attribute.Int "status.code" (TraceData.StatusCode data);
    attribute.String "client.ip" (TraceData.ClientIP data);
    attribute.String "user.agent" (TraceData.UserAgent data);
    attribute.Int64 "request.size" (TraceData.RequestSize data);
    attribute.Int64 "response.size" (TraceData.ResponseSize data);
    attribute.Float64 "duration.ms" (TraceData.Duration data)
  ] in
  let attributes :=
    if negb (time.IsZero (TraceData.StartTime data))
    then attributes ++ [attribute.String "start_time"
                          (time.FormatRFC3339 (TraceData.StartTime data))]
    else attributes in
  let attributes :=
    if negb (time.IsZero (TraceData.EndTime data))
    then attributes ++ [attribute.String "end_time"
                          (time.FormatRFC3339 (TraceData.EndTime data))]
    else attributes in
  match TraceData.Error data with
  | Some e => attributes ++ [attribute.String "error.message" (err_text e)]
  | None => attributes
  end.

(** AddTraceAttributes adds custom attributes to a span *)
Definition AddTraceAttributes (span : trace.Span) (data : TraceData.t) : M unit :=
  let attributes := attributes_of data in
  (if decide (TraceData.StatusCode data ≠ 0) then
     if decide (TraceData.StatusCode data = http.StatusOK) then
       span.SetStatus span codes.Ok "Success"
     else
       match TraceData.Error data with
       | Some e => span.SetStatus span codes.Error (err_text e)
       | None => span.SetStatus span codes.Error "Unknown error"
       end
   else mret tt) ;;
  span.SetAttributes span attributes.

(** NewTraceData creates a new TraceData instance with default values *)
Definition NewTraceData : M TraceData.t :=
  now ← time_Now;
  mret {| TraceData.UserID := ""; TraceData.RequestID := "";
          TraceData.ServiceName := "echo-server";
          TraceData.Environment := "development";
          TraceData.Version := "1.0.0";
          TraceData.Region := "local";
          TraceData.Action := ""; TraceData.Resource := "";
          TraceData.StatusCode := 0; TraceData.Error := None;
          TraceData.ClientIP := ""; TraceData.UserAgent := "";
          TraceData.RequestSize := 0; TraceData.ResponseSize := 0;
          TraceData.Duration := 0;
          TraceData.StartTime := now; TraceData.EndTime := time.zero |}.

(** NewTracer returns a new tracer for the given service name *)
Definition NewTracer (serviceName : string) : trace.Tracer := otel.Tracer serviceName.

(** TraceError traces an error and records it in the span.  [err.Error()] on
    a nil error is a nil dereference. *)
Definition TraceError (span : trace.Span) (err : error) : M unit :=
  now ← time_Now;
  AddTraceAttributes span
    (TraceData.set_EndTime now
      (TraceData.set_Error err (TraceData.set_StatusCode 400 TraceData.zero))) ;;
  span.RecordError span err ;;
  match err with
  | Some e => span.SetStatus span codes.Error (err_text e)
  | None => panic "runtime error: invalid memory address or nil pointer dereference"
  end.

(** TraceSuccess traces a success and records it in the span *)
Definition TraceSuccess (span : trace.Span) : M unit :=
  now ← time_Now;
  AddTraceAttributes span
    (TraceData.set_EndTime now (TraceData.set_StatusCode 200 TraceData.zero)) ;;
  span.SetStatus span codes.Ok "Success".

(** ** helper_http.go, helper_grpc.go *)

(** [otlptracehttp.New] and [otlptracegrpc.New]: the exporter for the options,
    or the error the environment answers.  (The initializers also call
    [NewClient()] and drop its result; that call leaves no trace here.) *)
Definition otlptrace_New (tr : otlptrace.Transport) (opts : list otlptrace.Option_)
  : M (option otlptrace.Exporter * error) :=
  gets (fun w =>
    let e := {| otlptrace.transport := tr; otlptrace.options := opts |} in
    match exporterError w e with
    | Some err => (None, Some err)
    | None => (Some e, None)
    end).

Definition InitTracerHTTP (config : Config.t) : M sdktrace.TracerProvider :=
  otel.SetTextMapPropagator
    (propagation.Composite [propagation.TraceContext; propagation.Baggage]) ;;
  let httpEndpoint := "127.0.0.1:5081" in
  let httpEndpoint :=
    if decide (Config.Endpoint config ≠ "") then Config.Endpoint config else httpEndpoint in
  let path := "/api/default/v1/traces" in
  let streamName := "default" in
  let streamName :=
    if decide (Config.StreamName config ≠ "") then Config.StreamName config else streamName in
  fmt.Println ["path"; path] ;;
  let opts := [
    otlptrace.WithEndpoint httpEndpoint;
    otlptrace.WithURLPath path;
    otlptrace.WithHeaders {[
      "Authorization" := "Basic " +:+ Config.BasicAuth config;
      "stream-name" := streamName ]}
  ] in
  let opts := if negb (Config.IsSecure config) then opts ++ [otlptrace.WithInsecure] else opts in
  '(otlpHTTPExporter, err) ← otlptrace_New otlptrace.HTTP opts;
  match err with
  | Some e => fmt.Println ["Error creating HTTP OTLP exporter: "; err_text e]
  | None => mret tt
  end ;;
  let res := [
    attribute.String semconv.ServiceNameKey (Config.ServiceName config);
    attribute.String semconv.ServiceVersionKey "0.0.1";
    attribute.String "environment" (Config.Environment config)
  ] in
  let tp := {| sdktrace.sampler := sdktrace.AlwaysSample;
               sdktrace.schemaURL := semconv.SchemaURL;
               sdktrace.resource := res;
               sdktrace.batcher := otlpHTTPExporter |} in
  otel.SetTracerProvider tp ;;
  mret tp.

Definition InitTracerGRPC (config : Config.t) : M sdktrace.TracerProvider :=
  let gprcEndpoint := "127.0.0.1:5081" in
  let gprcEndpoint :=
    if decide (Config.Endpoint config ≠ "") then Config.Endpoint config else gprcEndpoint in
  let streamName := "default" in
  let streamName :=
    if decide (Config.StreamName config ≠ "") then Config.StreamName config else streamName in
  let opts := [
    otlptrace.WithEndpoint gprcEndpoint;
    otlptrace.WithHeaders {[
      "Authorization" := "Basic " +:+ Config.BasicAuth config;
      "stream-name" := streamName ]}
  ] in
  let opts := if negb (Config.IsSecure config) then opts ++ [otlptrace.WithInsecure] else opts in
  '(otlpGRPCExporter, err) ← otlptrace_New otlptrace.GRPC opts;
  match err with
  | Some e => fmt.Println ["Error creating HTTP OTLP exporter: "; err_text e]
  | None => mret tt
  end ;;
  let res := [
    attribute.String semconv.ServiceNameKey (Config.ServiceName config)
  ] in
  let tp := {| sdktrace.sampler := sdktrace.AlwaysSample;
               sdktrace.schemaURL := semconv.SchemaURL;
               sdktrace.resource := res;
               sdktrace.batcher := otlpGRPCExporter |} in
  otel.SetTracerProvider tp ;;
  otel.SetTextMapPropagator
    (propagation.Composite [propagation.TraceContext; propagation.Baggage]) ;;
  mret tp.

(** StartSpan ... *)
Definition StartSpan (tracerCtx : TraceContext) (operation : string)
    (fn : context.Context -> trace.Span -> M error) : M error :=
  let tracer := Tracer tracerCtx in
  let ctx := RequestCtx tracerCtx in
  '(ctx, span) ← tracer.Start tracer ctx operation [];
  defer (span.End_ span)
    (fn ctx span).

(** ** middleware.go *)

Section Middleware.
(** constants.go is not part of the sources at hand: the key under which
    the carrier is published is a parameter. *)
Variable TraceContextKey : string.

(** The handler the middleware puts in front of [next]. *)
Definition tracedHandler (config : Config.t) (tracer : trace.Tracer)
    (propagator : propagation.TextMapPropagator) (next : HandlerFunc) : HandlerFunc :=
  req ← c.Request;
  let ctx := echo.Ctx req in

  (* Extract trace information from the incoming request *)
  let ctx := context.Extracted propagator (echo.Header req) ctx in

  path ← c.Path;
  let route := path in
  let route :=
    if decide (route = "") then "HTTP " +:+ echo.Method req +:+ " route not found"
    else route in

  (* Generate request ID if not exists *)
  let requestID := http.Get (echo.Header req) "X-Request-ID" in
  requestID ←
    (if decide (requestID = "") then
       u ← uuid_New;
       let requestID := uuid.String u in
       c.ResponseHeaderSet "X-Request-ID" requestID ;;
       mret requestID
     else mret requestID);

  (* Create trace data *)
  traceData ← NewTraceData;
  let traceData := TraceData.set_RequestID requestID traceData in
  let traceData := TraceData.set_Action (echo.Method req) traceData in
  let traceData := TraceData.set_Resource route traceData in
  let traceData := TraceData.set_Environment (Config.Environment config) traceData in

  (* Enhanced attributes for better tracing *)
  realIP ← c.RealIP;
  let opts := [
    trace.WithAttributes [attribute.String semconv.HTTPMethodKey (echo.Method req)];
    trace.WithAttributes [attribute.String semconv.HTTPTargetKey (echo.URL_Path req)];
    trace.WithAttributes [attribute.String semconv.HTTPRouteKey route];
    trace.WithAttributes [attribute.String semconv.HTTPHostKey (echo.Host req)];
    trace.WithAttributes [attribute.String semconv.HTTPSchemeKey (echo.URL_Scheme req)];
    trace.WithAttributes [attribute.String "http.flavor" (echo.Proto req)];
    trace.WithAttributes [attribute.String "http.client_ip" realIP];
    trace.WithAttributes [attribute.String "http.user_agent" (echo.UserAgent req)];
    trace.WithAttributes [attribute.Int64 "http.request_content_length"
                            (echo.ContentLength req)];
    trace.WithAttributes [attribute.String "http.request_id" requestID]
  ] in

  let spanName := route in
  let spanName :=
    if decide (spanName = "") then "HTTP " +:+ echo.Method req else spanName in

  '(ctx, span) ← tracer.Start tracer ctx spanName opts;
  defer (span.End_ span)
    ((* Add trace data attributes *)
     AddTraceAttributes span traceData ;;

     (* Pass the span through the request context *)
     c.SetRequest (echo.WithContext req ctx) ;;
     c.Set_ TraceContextKey
       (echo.OfTraceContext {| Tracer := tracer; RequestCtx := ctx |}) ;;

     err ← next;
     match err with
     | Some _ =>
         let traceData := TraceData.set_Error err traceData in
         resp ← c.Response;
         let traceData := TraceData.set_StatusCode (echo.Status resp) traceData in
         AddTraceAttributes span traceData ;;
         span.RecordError span err ;;
         mret err
     | None =>
         (* Update status code and response size in trace data *)
         resp ← c.Response;
         let traceData := TraceData.set_StatusCode (echo.Status resp) traceData in
         AddTraceAttributes span traceData ;;

         (* Add response attributes *)
         resp ← c.Response;
         span.SetAttributes span [
           attribute.Int "http.response_content_length" (echo.Size resp);
           attribute.String "http.response_content_type"
             (http.Get (echo.RespHeader resp) echo.HeaderContentType)
         ] ;;
         mret None
     end).

(** OtelMiddleware returns a middleware that will trace incoming requests. *)
Definition OtelMiddleware (config : Config.t) : M (HandlerFunc -> HandlerFunc) :=
  let config :=
    if decide (Config.ServiceName config = "") then Config.set_ServiceName "default" config
    else config in
  let tracer := otel.Tracer (Config.ServiceName config) in
  propagator ← otel.GetTextMapPropagator;
  mret (tracedHandler config tracer propagator).
End Middleware.

(** ** The traced MongoDB wrapper *)

Module mongo.
Section Wrapper.
(** The driver's types are opaque to the wrapper: [Any] stands for the
    [interface{}] documents, filters and updates, the others for the
    driver's option and result types. *)
Context {Any InsertOneOptions FindOneOptions FindOptions UpdateOptions DeleteOptions : Type}.
Context {InsertOneResult SingleResult Cursor UpdateResult DeleteResult : Type}.

(** The [Err()] method of the driver's single result. *)
Variable Err : SingleResult -> error.

(** [*mongo.Collection] of the driver: its names and its five operations. *)
Record DriverCollection := {
  Name : string;
  DatabaseName : string;
  coll_InsertOne : context.Context -> Any -> list InsertOneOptions ->
                   M (InsertOneResult * error);
  coll_FindOne : context.Context -> Any -> list FindOneOptions -> M SingleResult;
  coll_Find : context.Context -> Any -> list FindOptions -> M (Cursor * error);
  coll_UpdateOne : context.Context -> Any -> Any -> list UpdateOptions ->
                   M (UpdateResult * error);
  coll_DeleteOne : context.Context -> Any -> list DeleteOptions ->
                   M (DeleteResult * error)
}.

(** Collection wraps MongoDB collection with tracing *)
Record Collection := {
  coll : DriverCollection;
  tracer : trace.Tracer
}.

(** startSpan starts a new span for MongoDB operation *)
Definition startSpan (c : Collection) (ctx : context.Context) (operation : string)
  : M (context.Context * trace.Span) :=
  tracer.Start (tracer c) ctx ("MongoDB." +:+ operation) [
    trace.WithAttributes [
      attribute.String "db.system" "mongodb";
      attribute.String "db.name" (DatabaseName (coll c));
      attribute.String "db.collection" (Name (coll c));
      attribute.String "db.operation" operation
    ]
  ].

(** handleError handles error and sets span status *)
Definition handleError (span : trace.Span) (err : error) : M unit :=
  match err with
  | Some e =>
      span.SetStatus span codes.Error (err_text e) ;;
      span.RecordError span err
  | None =>
      span.SetStatus span codes.Ok ""
  end.

(** InsertOne inserts a document with automatic span creation *)
Definition InsertOne (c : Collection) (ctx : context.Context) (document : Any)
    (opts : list InsertOneOptions) : M (InsertOneResult * error) :=
  '(ctx, span) ← startSpan c ctx "InsertOne";
  defer (span.End_ span)
    ('(result, err) ← coll_InsertOne (coll c) ctx document opts;
     handleError span err ;;
     mret (result, err)).

(** FindOne finds a single document with automatic span creation *)
Definition FindOne (c : Collection) (ctx : context.Context) (filter : Any)
    (opts : list FindOneOptions) : M SingleResult :=
  '(ctx, span) ← startSpan c ctx "FindOne";
  defer (span.End_ span)
    (result ← coll_FindOne (coll c) ctx filter opts;
     handleError span (Err result) ;;
     mret result).

(** Find finds multiple documents with automatic span creation *)
Definition Find (c : Collection) (ctx : context.Context) (filter : Any)
    (opts : list FindOptions) : M (Cursor * error) :=
  '(ctx, span) ← startSpan c ctx "Find";
  defer (span.End_ span)
    ('(cursor, err) ← coll_Find (coll c) ctx filter opts;
     handleError span err ;;
     mret (cursor, err)).

(** UpdateOne updates a single document with automatic span creation *)
Definition UpdateOne (c : Collection) (ctx : context.Context) (filter update : Any)
    (opts : list UpdateOptions) : M (UpdateResult * error) :=
  '(ctx, span) ← startSpan c ctx "UpdateOne";
  defer (span.End_ span)
    ('(result, err) ← coll_UpdateOne (coll c) ctx filter update opts;
     handleError span err ;;
     mret (result, err)).

(** DeleteOne deletes a single document with automatic span creation *)
Definition DeleteOne (c : Collection) (ctx : context.Context) (filter : Any)
    (opts : list DeleteOptions) : M (DeleteResult * error) :=
  '(ctx, span) ← startSpan c ctx "DeleteOne";
  defer (span.End_ span)
    ('(result, err) ← coll_DeleteOne (coll c) ctx filter opts;
     handleError span err ;;
     mret (result, err)).
End Wrapper.

(** Config represents MongoDB configuration.  A [time.Duration] is a number
    of nanoseconds. *)
Module APMConfig.
Record t := {
  SlowOperationThreshold : Z;
  EnableCommandMonitor : bool;
  EnablePoolMonitor : bool
}.
End APMConfig.

Module Config.
Record t := {
  URI : string;
  Database : string;
  Username : string;
  Password : string;
  MinPoolSize : Z;
  MaxPoolSize : Z;
  MaxConnIdleTime : Z;
  Timeout : Z;
  APMConfig : APMConfig.t
}.
End Config.



(** [go.mongodb.org/mongo-driver/event]: what the monitors read of the
    driver's events.  [Command] is the text [evt.Command.String()] gives. *)
Module event.
Record CommandStartedEvent := {
  CommandName : string;
  Command : string;
  ConnectionID : string
}.
Record CommandSucceededEvent := { DurationNanos : Z }.
Record CommandFailedEvent := { Failure : string }.
Record PoolEvent := { Type_ : string; Address : string; PoolConnectionID : Z }.

Record CommandMonitor := {
  Started : context.Context -> CommandStartedEvent -> M unit;
  Succeeded : context.Context -> CommandSucceededEvent -> M unit;
  Failed : context.Context -> CommandFailedEvent -> M unit
}.
Record PoolMonitor := { Event : PoolEvent -> M unit }.
End event.

(** [go.mongodb.org/mongo-driver/mongo/options]: the client options, by the
    setters called on them. *)
Module options.
Record Credential := { Username : string; Password : string }.

Record ClientOptions := {
  URI : option string;
  MinPoolSize : option Z;
  MaxPoolSize : option Z;
  MaxConnIdleTime : option Z;
  Auth : option Credential;
  Monitor : option event.CommandMonitor;
  PoolMonitor : option event.PoolMonitor
}.

(** [options.Client()] *)
Definition Client : ClientOptions :=
  {| URI := None; MinPoolSize := None; MaxPoolSize := None; MaxConnIdleTime := None;
     Auth := None; Monitor := None; PoolMonitor := None |}.

Definition ApplyURI (uri : string) (o : ClientOptions) : ClientOptions :=
  {| URI := Some uri; MinPoolSize := MinPoolSize o; MaxPoolSize := MaxPoolSize o;
     MaxConnIdleTime := MaxConnIdleTime o; Auth := Auth o; Monitor := Monitor o;
     PoolMonitor := PoolMonitor o |}.
Definition SetMinPoolSize (n : Z) (o : ClientOptions) : ClientOptions :=
  {| URI := URI o; MinPoolSize := Some n; MaxPoolSize := MaxPoolSize o;
     MaxConnIdleTime := MaxConnIdleTime o; Auth := Auth o; Monitor := Monitor o;
     PoolMonitor := PoolMonitor o |}.
Definition SetMaxPoolSize (n : Z) (o : ClientOptions) : ClientOptions :=
  {| URI := URI o; MinPoolSize := MinPoolSize o; MaxPoolSize := Some n;
     MaxConnIdleTime := MaxConnIdleTime o; Auth := Auth o; Monitor := Monitor o;
     PoolMonitor := PoolMonitor o |}.
Definition SetMaxConnIdleTime (d : Z) (o : ClientOptions) : ClientOptions :=
  {| URI := URI o; MinPoolSize := MinPoolSize o; MaxPoolSize := MaxPoolSize o;
     MaxConnIdleTime := Some d; Auth := Auth o; Monitor := Monitor o;
     PoolMonitor := PoolMonitor o |}.
Definition SetAuth (a : Credential) (o : ClientOptions) : ClientOptions :=
  {| URI := URI o; MinPoolSize := MinPoolSize o; MaxPoolSize := MaxPoolSize o;
     MaxConnIdleTime := MaxConnIdleTime o; Auth := Some a; Monitor := Monitor o;
     PoolMonitor := PoolMonitor o |}.
Definition SetMonitor (m : event.CommandMonitor) (o : ClientOptions) : ClientOptions :=
  {| URI := URI o; MinPoolSize := MinPoolSize o; MaxPoolSize := MaxPoolSize o;
     MaxConnIdleTime := MaxConnIdleTime o; Auth := Auth o; Monitor := Some m;
     PoolMonitor := PoolMonitor o |}.
Definition SetPoolMonitor (m : event.PoolMonitor) (o : ClientOptions) : ClientOptions :=
  {| URI := URI o; MinPoolSize := MinPoolSize o; MaxPoolSize := MaxPoolSize o;
     MaxConnIdleTime := MaxConnIdleTime o; Auth := Auth o; Monitor := Monitor o;
     PoolMonitor := Some m |}.
End options.

(** What [fmt.Errorf] with a [%w] verb returns: the formatted text and the
    error it wraps. *)
Record WrapError := { msg : string; cause : ErrorValue }.

Section Client.
(** Whether a propagator finds a valid remote span context in a carrier is
    the propagator's business: a parameter. *)
Variable remote : propagation.TextMapPropagator -> http.Header -> bool.

(** The identity of the error value [fmt.Errorf] makes for a text. *)
Variable newErrorId : string -> nat.

(** The driver's client, and its [mongo.Connect] and [Ping], which get the
    context with its timeout. *)
Context {DriverClient : Type}.
Variable Connect : context.Context -> Z -> options.ClientOptions ->
                   M (option DriverClient * error).
Variable Ping : DriverClient -> context.Context -> Z -> M error.
Variable Disconnect : DriverClient -> context.Context -> M error.

(** [trace.SpanFromContext]: the span the context carries.  [None] stands
    for the spans that record nothing: the no-op span of a context without
    span, and the span of a remote parent. *)
Fixpoint SpanFromContext (ctx : context.Context) : option trace.Span :=
  match ctx with
  | context.Background => None
  | context.Extracted p carrier parent =>
      if remote p carrier then None else SpanFromContext parent
  | context.WithSpan span _ => Some span
  end.

(** A call on what [SpanFromContext] gave. *)
Definition on (span : option trace.Span) (call : trace.Call) : M unit :=
  match span with
  | Some s => span.call s call
  | None => mret tt
  end.

Definition fmt_Errorf (text : string) : ErrorValue :=
  {| err_id := newErrorId text; err_text := text |}.

(** The command monitor of [NewClient]. *)
Definition commandMonitor : event.CommandMonitor :=
  {| event.Started := fun ctx evt =>
       let span := SpanFromContext ctx in
       on span (trace.SetAttributes [
         attribute.String "db.operation" (event.CommandName evt);
         attribute.String "db.statement" (event.Command evt);
         attribute.String "db.connection_id" (event.ConnectionID evt)]);
     event.Succeeded := fun ctx evt =>
       let span := SpanFromContext ctx in
       on span (trace.SetAttributes [
         attribute.Int64 "db.duration_ms" (event.DurationNanos evt ÷ 1000000)]);
     event.Failed := fun ctx evt =>
       let span := SpanFromContext ctx in
       on span (trace.SetStatus codes.Error (event.Failure evt)) ;;
       on span (trace.RecordError
                  (Some (fmt_Errorf ("mongodb command failed: " +:+ event.Failure evt)))) |}.

(** The pool monitor of [NewClient]: one line on standard output per event. *)
Definition poolMonitor : event.PoolMonitor :=
  {| event.Event := fun evt =>
       modify (set_stdout (fun out => out ++ [
         "MongoDB Pool Event: Type=" +:+ event.Type_ evt
         +:+ ", Address=" +:+ event.Address evt
         +:+ ", ConnectionID=" +:+ pretty (event.PoolConnectionID evt)])) |}.

(** Client wraps the MongoDB client with tracing capabilities *)
Record Client := {
  client : DriverClient;
  database : string;
  clientTracer : trace.Tracer
}.

(** NewClient creates a new MongoDB client with tracing and monitoring *)
Definition NewClient (ctx : context.Context) (cfg : Config.t)
  : M (option Client * option WrapError) :=
  (* Create MongoDB client options *)
  let clientOptions :=
    options.SetMaxConnIdleTime (Config.MaxConnIdleTime cfg)
      (options.SetMaxPoolSize (Config.MaxPoolSize cfg)
        (options.SetMinPoolSize (Config.MinPoolSize cfg)
          (options.ApplyURI (Config.URI cfg) options.Client))) in
  let clientOptions :=
    if decide (Config.Username cfg ≠ "" /\ Config.Password cfg ≠ "")
    then options.SetAuth {| options.Username := Config.Username cfg;
                            options.Password := Config.Password cfg |} clientOptions
    else clientOptions in
  (* Configure command monitoring if enabled *)
  let clientOptions :=
    if APMConfig.EnableCommandMonitor (Config.APMConfig cfg)
    then options.SetMonitor commandMonitor clientOptions
    else clientOptions in
  (* Configure connection pool monitoring if enabled *)
  let clientOptions :=
    if APMConfig.EnablePoolMonitor (Config.APMConfig cfg)
    then options.SetPoolMonitor poolMonitor clientOptions
    else clientOptions in
  (* Connect to MongoDB with timeout *)
  '(client, err) ← Connect ctx (Config.Timeout cfg) clientOptions;
  match client, err with
  | _, Some e =>
      mret (None, Some {| msg := "failed to connect to MongoDB: " +:+ err_text e;
                          cause := e |})
  | None, None => panic "runtime error: invalid memory address or nil pointer dereference"
  | Some client, None =>
      (* Ping the database to verify connection *)
      err ← Ping client ctx (Config.Timeout cfg);
      match err with
      | Some e =>
          mret (None, Some {| msg := "failed to ping MongoDB: " +:+ err_text e;
                              cause := e |})
      | None =>
          mret (Some {| client := client;
                        database := Config.Database cfg;
                        clientTracer := otel.Tracer "mongodb" |}, None)
      end
  end.


End Client.
End mongo.

(** ** The example handlers *)

Section Handlers.
Variable TraceContextKey : string.

(** The driver's types, the users of the example and what the handlers call
    outside these packages: the empty filter [bson.M{}], the cursor's [Close]
    and [All], [echo.NewHTTPError] and [c.JSON]. *)
Context {Any InsertOneOptions FindOneOptions FindOptions UpdateOptions DeleteOptions : Type}.
Context {InsertOneResult SingleResult Cursor UpdateResult DeleteResult : Type}.
Context {User : Type}.
Variable bsonM_empty : Any.
Variable cursor_Close : Cursor -> context.Context -> M error.
Variable cursor_All : Cursor -> context.Context -> M (list User * error).
Variable NewHTTPError : Z -> string -> ErrorValue.
Variable JSON : Z -> list User -> M error.

(** UserHandler handles user-related HTTP requests *)
Record UserHandler := {
  collection : @mongo.Collection Any InsertOneOptions FindOneOptions FindOptions
                 UpdateOptions DeleteOptions InsertOneResult SingleResult Cursor
                 UpdateResult DeleteResult
}.

(** The type assertion [v.(TraceContext)]: it panics on nil and on a value
    of another type. *)
Definition asTraceContext (v : option echo.Any) : M TraceContext :=
  match v with
  | Some (echo.OfTraceContext tc) => mret tc
  | Some (echo.Other _) =>
      panic "interface conversion: interface {} is not otel.TraceContext"
  | None =>
      panic "interface conversion: interface {} is nil, not otel.TraceContext"
  end.

(** How [CreateUser] wraps its work: the carrier out of the Echo context,
    then the work in a span of its own. *)
Definition inCarrierSpan (operation : string)
    (fn : context.Context -> trace.Span -> M error) : HandlerFunc :=
  v ← c.Get TraceContextKey;
  tracerCtx ← asTraceContext v;
  StartSpan tracerCtx operation fn.

(** ListUsers lists all users.  ([time.Sleep] leaves nothing to see here.) *)
Definition ListUsers (h : UserHandler) : HandlerFunc :=
  req ← c.Request;
  '(cursor, err) ← mongo.Find (collection h) (echo.Ctx req) bsonM_empty [];
  match err with
  | Some e => mret (Some (NewHTTPError 500 (err_text e)))
  | None =>
      req ← c.Request;
      defer (cursor_Close cursor (echo.Ctx req) ;; mret tt)
        (req ← c.Request;
         '(users, err) ← cursor_All cursor (echo.Ctx req);
         match err with
         | Some e => mret (Some (NewHTTPError 500 (err_text e)))
         | None => JSON 200 users
         end)
  end.
End Handlers.

(** ** Descriptions used in the statements *)

(** The status [AddTraceAttributes] derives from a record: the outcome of
    its tests on the status code and the error. *)
Definition status_of (data : TraceData.t) : option (codes.Code * string) :=
  if decide (TraceData.StatusCode data ≠ 0) then
    if decide (TraceData.StatusCode data = http.StatusOK) then Some (codes.Ok, "Success")
    else match TraceData.Error data with
         | Some e => Some (codes.Error, err_text e)
         | None => Some (codes.Error, "Unknown error")
         end
  else None.

(** The calls [AddTraceAttributes] makes for a record, in order. *)
Definition calls_of (data : TraceData.t) : list trace.Call :=
  match status_of data with
  | Some (code, description) => [trace.SetStatus code description]
  | None => []
  end ++ [trace.SetAttributes (attributes_of data)].

(** The world after a computation, and what it returned. *)
Definition after {A} (m : M A) (w : World) : World := (m w).2.
Definition outcome {A} (m : M A) (w : World) : Outcome A := (m w).1.

(** The events a computation added to the log. *)
Definition added {A} (m : M A) (w : World) : list trace.Event :=
  drop (length (log w)) (log (after m w)).

(** The value the last pair with key [k] gives, if there is one. *)
Fixpoint last_value (k : string) (kvs : list attribute.KeyValue) : option attribute.Value :=
  match kvs with
  | [] => None
  | kv :: kvs' =>
      match last_value k kvs' with
      | Some v => Some v
      | None => if decide (attribute.Key kv = k) then Some (attribute.Val kv) else None
      end
  end.

(** The request id the middleware settles on in world [w]: the
    [X-Request-ID] header of the request, or a new UUID when that is empty. *)
Definition request_id (w : World) : string :=
  let supplied := http.Get (echo.Header (echo.request (ectx w))) "X-Request-ID" in
  if decide (supplied = "") then uuid.String (uuid.NewRandom (entropy w (drawn w)))
  else supplied.

(** Two draws agree on the 122 bits that [uuid.NewRandom] keeps of a draw:
    the low 128 bits but for the version (bits 76 to 79) and the variant
    (bits 62 and 63). *)
Definition same_random_bits (x y : Z) : Prop :=
  forall n : Z, 0 <= n < 128 -> n <> 62 -> n <> 63 -> ~ (76 <= n <= 79) ->
    Z.testbit x n = Z.testbit y n.

(** The route the middleware names the request by. *)
Definition route_of (w : World) : string :=
  if decide (echo.path (ectx w) = "")
  then "HTTP " +:+ echo.Method (echo.request (ectx w)) +:+ " route not found"
  else echo.path (ectx w).

(** The record the middleware builds before it starts the span. *)
Definition first_record (config : Config.t) (w : World) : TraceData.t :=
  {| TraceData.UserID := ""; TraceData.RequestID := request_id w;
     TraceData.ServiceName := "echo-server";
     TraceData.Environment := Config.Environment config;
     TraceData.Version := "1.0.0"; TraceData.Region := "local";
     TraceData.Action := echo.Method (echo.request (ectx w));
     TraceData.Resource := route_of w;
     TraceData.StatusCode := 0; TraceData.Error := None;
     TraceData.ClientIP := ""; TraceData.UserAgent := "";
     TraceData.RequestSize := 0; TraceData.ResponseSize := 0;
     TraceData.Duration := 0;
     TraceData.StartTime := clock w (ticks w); TraceData.EndTime := time.zero |}.

(** The tracer [OtelMiddleware] asks for: named after the service, or
    "default" when the config names none. *)
Definition service_tracer (config : Config.t) : trace.Tracer :=
  otel.Tracer (if decide (Config.ServiceName config = "") then "default"
               else Config.ServiceName config).

(** The world the middleware calls [next] in: the request span is started
    and enriched, the request carries the span's context, the carrier is in
    the store, and a generated request id is in the response headers. *)
Definition handed_over (key : string) (config : Config.t) (tr : trace.Tracer)
    (pr : propagation.TextMapPropagator) (w : World) : World :=
  let req := echo.request (ectx w) in
  let supplied := http.Get (echo.Header req) "X-Request-ID" in
  let span : trace.Span := length (log w) in
  let extracted := context.Extracted pr (echo.Header req) (echo.Ctx req) in
  let ctx := context.WithSpan span extracted in
  let started :=
    trace.Started span tr extracted (route_of w) [
      trace.WithAttributes [attribute.String semconv.HTTPMethodKey (echo.Method req)];
      trace.WithAttributes [attribute.String semconv.HTTPTargetKey (echo.URL_Path req)];
      trace.WithAttributes [attribute.String semconv.HTTPRouteKey (route_of w)];
      trace.WithAttributes [attribute.String semconv.HTTPHostKey (echo.Host req)];
      trace.WithAttributes [attribute.String semconv.HTTPSchemeKey (echo.URL_Scheme req)];
      trace.WithAttributes [attribute.String "http.flavor" (echo.Proto req)];
      trace.WithAttributes [attribute.String "http.client_ip" (echo.realIP (ectx w))];
      trace.WithAttributes [attribute.String "http.user_agent" (echo.UserAgent req)];
      trace.WithAttributes [attribute.Int64 "http.request_content_length"
                              (echo.ContentLength req)];
      trace.WithAttributes [attribute.String "http.request_id" (request_id w)]] in
  {| log := log w ++ started :: map (trace.Called span) (calls_of (first_record config w));
     ectx :=
       {| echo.request := echo.WithContext req ctx;
          echo.response :=
            if decide (supplied = "")
            then {| echo.Status := echo.Status (echo.response (ectx w));
                    echo.Size := echo.Size (echo.response (ectx w));
                    echo.RespHeader :=
                      http.Set_ (echo.RespHeader (echo.response (ectx w)))
                        "X-Request-ID" (request_id w) |}
            else echo.response (ectx w);
          echo.path := echo.path (ectx w);
          echo.realIP := echo.realIP (ectx w);
          echo.store :=
            <[key := echo.OfTraceContext {| Tracer := tr; RequestCtx := ctx |}]>
              (echo.store (ectx w)) |};
     propagator := propagator w;
     provider := provider w;
     stdout := stdout w;
     entropy := entropy w;
     drawn := if decide (supplied = "") then S (drawn w) else drawn w;
     clock := clock w;
     ticks := S (ticks w);
     exporterError := exporterError w |}.

(** The calls the middleware makes on the request span once [next] is done,
    by what [next] did: returned an error, returned nil, or panicked.  [resp]
    is the response as [next] left it. *)
Definition final_calls (traceData : TraceData.t) (o : Outcome error) (resp : echo.Response)
  : list trace.Call :=
  match o with
  | Return (Some e) =>
      calls_of (TraceData.set_StatusCode (echo.Status resp)
                  (TraceData.set_Error (Some e) traceData))
      ++ [trace.RecordError (Some e); trace.End_]
  | Return None =>
      calls_of (TraceData.set_StatusCode (echo.Status resp) traceData)
      ++ [trace.SetAttributes [
            attribute.Int "http.response_content_length" (echo.Size resp);
            attribute.String "http.response_content_type"
              (http.Get (echo.RespHeader resp) echo.HeaderContentType)];
          trace.End_]
  | Panic _ => [trace.End_]
  end.

(** The calls a traced store operation makes on its span once the driver is
    done, by the error the driver's answer holds (none of them when the driver
    panicked, but for the end of the span). *)
Definition wrapper_calls (o : Outcome error) : list trace.Call :=
  match o with
  | Return (Some e) =>
      [trace.SetStatus codes.Error (err_text e); trace.RecordError (Some e); trace.End_]
  | Return None => [trace.SetStatus codes.Ok ""; trace.End_]
  | Panic _ => [trace.End_]
  end.

Definition outcome_map {A B} (f : A -> B) (o : Outcome A) : Outcome B :=
  match o with
  | Return a => Return (f a)
  | Panic v => Panic v
  end.

(** A world at rest, for examples: an empty log, a GET request for [/users]
    without headers, a response not yet written. *)
Definition idle : World :=
  {| log := [];
     ectx := {| echo.request :=
                  {| echo.Method := "GET"; echo.URL_Path := "/users"; echo.URL_Scheme := "http";
                     echo.Host := "localhost:8081"; echo.Proto := "HTTP/1.1";
                     echo.Header := ∅; echo.ContentLength := 0;
                     echo.Ctx := context.Background |};
                echo.response := {| echo.Status := 200; echo.Size := 0; echo.RespHeader := ∅ |};
                echo.path := "/users";
                echo.realIP := "127.0.0.1";
                echo.store := ∅ |};
     propagator := propagation.NoOp;
     provider := None;
     stdout := [];
     entropy := fun _ => 0;
     drawn := 0;
     clock := fun _ => {| time.IsZero := false; time.FormatRFC3339 := "2025-01-01T00:00:00Z" |};
     ticks := 0;
     exporterError := fun _ => None |}.

(** What the middleware makes of the answer [r] of [next]: the same outcome,
    and its last calls on the request span added to the log. *)
Definition finished (span : trace.Span) (traceData : TraceData.t)
    (r : Outcome error * World) : Outcome error * World :=
  (r.1,
   set_log (fun l => l ++ map (trace.Called span)
              (final_calls traceData r.1 (echo.response (ectx r.2)))) r.2).

(** The same world when the request brings its own [X-Request-ID]. *)
Definition with_request_id (id : string) (w : World) : World :=
  set_ectx (fun e =>
    {| echo.request :=
         {| echo.Method := echo.Method (echo.request e);
            echo.URL_Path := echo.URL_Path (echo.request e);
            echo.URL_Scheme := echo.URL_Scheme (echo.request e);
            echo.Host := echo.Host (echo.request e);
            echo.Proto := echo.Proto (echo.request e);
            echo.Header := http.Set_ (echo.Header (echo.request e)) "X-Request-ID" id;
            echo.ContentLength := echo.ContentLength (echo.request e);
            echo.Ctx := echo.Ctx (echo.request e) |};
       echo.response := echo.response e; echo.path := echo.path e;
       echo.realIP := echo.realIP e; echo.store := echo.store e |}) w.

(** A config with only the service name set. *)
Definition bare_config : Config.t :=
  {| Config.ServiceName := "users"; Config.Endpoint := ""; Config.IsSecure := false;
     Config.BasicAuth := ""; Config.Environment := ""; Config.StreamName := "" |}.

(** A handler that writes nothing and returns the error it is given. *)
Definition returning (err : error) : HandlerFunc := mret err.

(** A store whose every operation fails with a duplicate key error; its
    documents are strings, its single result is the error it holds. *)
Definition duplicate_key : ErrorValue := {| err_id := 7; err_text := "duplicate key" |}.

Definition failing_store : mongo.Collection :=
  {| mongo.coll :=
       {| mongo.Name := "users"; mongo.DatabaseName := "userdb";
          mongo.coll_InsertOne := fun _ (_ : string) (_ : list unit) =>
            mret (0%nat, Some duplicate_key);
          mongo.coll_FindOne := fun _ _ (_ : list unit) => mret (Some duplicate_key);
          mongo.coll_Find := fun _ _ (_ : list unit) => mret (0%nat, Some duplicate_key);
          mongo.coll_UpdateOne := fun _ _ _ (_ : list unit) =>
            mret (0%nat, Some duplicate_key);
          mongo.coll_DeleteOne := fun _ _ (_ : list unit) =>
            mret (0%nat, Some duplicate_key) |};
     mongo.tracer := otel.Tracer "mongodb" |}.

(** A store whose [Find] gives the cursor [0] and no error (the other
    operations fail as above). *)
Definition listing_store : mongo.Collection :=
  {| mongo.coll :=
       {| mongo.Name := "users"; mongo.DatabaseName := "userdb";
          mongo.coll_InsertOne := fun _ (_ : string) (_ : list unit) =>
            mret (0%nat, Some duplicate_key);
          mongo.coll_FindOne := fun _ _ (_ : list unit) => mret (Some duplicate_key);
          mongo.coll_Find := fun _ _ (_ : list unit) => mret (0%nat, None);
          mongo.coll_UpdateOne := fun _ _ _ (_ : list unit) =>
            mret (0%nat, Some duplicate_key);
          mongo.coll_DeleteOne := fun _ _ (_ : list unit) =>
            mret (0%nat, Some duplicate_key) |};
     mongo.tracer := otel.Tracer "mongodb" |}.



(** ** Properties *)

(** *** Reading a log *)

Lemma calls_on_app s l1 l2 : calls_on s (l1 ++ l2) = calls_on s l1 ++ calls_on s l2.
Proof.
  induction l1 as [|[s' t ctx n o|s' call] l1 IH]; simpl; [done|done|].
  case_decide; simpl; by rewrite IH.
Qed.

Lemma calls_on_called s calls : calls_on s (map (trace.Called s) calls) = calls.
Proof.
  induction calls as [|call calls IH]; simpl; [done|].
  rewrite decide_True by done. by rewrite IH.
Qed.

Lemma start_attributes_app s l1 l2 :
  start_attributes s (l1 ++ l2) = start_attributes s l1 ++ start_attributes s l2.
Proof.
  induction l1 as [|[s' t ctx n o|s' call] l1 IH]; simpl; [done| |done].
  case_decide; [|done]. by rewrite IH, app_assoc.
Qed.

Lemma start_attributes_called s s' calls :
  start_attributes s (map (trace.Called s') calls) = [].
Proof. induction calls; simpl; done. Qed.

Lemma span_attributes_called s l calls :
  span_attributes s (l ++ map (trace.Called s) calls)
  = foldl attributes_after (span_attributes s l) calls.
Proof.
  unfold span_attributes.
  rewrite start_attributes_app, start_attributes_called, app_nil_r.
  by rewrite calls_on_app, calls_on_called, foldl_app.
Qed.

Lemma span_status_called s l calls :
  span_status s (l ++ map (trace.Called s) calls)
  = foldl status_after (span_status s l) calls.
Proof.
  unfold span_status. by rewrite calls_on_app, calls_on_called, foldl_app.
Qed.

(** What a span carries that was started and then only called on. *)
Lemma span_attributes_started s t ctx n opts calls :
  span_attributes s (trace.Started s t ctx n opts :: map (trace.Called s) calls)
  = foldl attributes_after
      (foldl put ∅
         (concat (map (fun o => match o with trace.WithAttributes kvs => kvs end) opts)))
      calls.
Proof.
  change (?e :: map ?f ?l) with ([e] ++ map f l).
  rewrite span_attributes_called. unfold span_attributes. simpl.
  rewrite decide_True by done. by rewrite app_nil_r.
Qed.

(** *** Attribute maps *)

Lemma foldl_put_lookup kvs (m : gmap string attribute.Value) k :
  foldl put m kvs !! k = match last_value k kvs with Some v => Some v | None => m !! k end.
Proof.
  revert m. induction kvs as [|kv kvs IH]; intros m; simpl; [done|].
  rewrite IH. destruct (last_value k kvs); [done|].
  unfold put. rewrite lookup_insert. by case_decide.
Qed.

Lemma last_value_None k kvs :
  k ∉ map attribute.Key kvs -> last_value k kvs = None.
Proof.
  induction kvs as [|kv kvs IH]; simpl; [done|].
  intros [Hne Hrest]%not_elem_of_cons.
  rewrite IH by done. by rewrite decide_False.
Qed.

Lemma foldl_put_idemp kvs (m : gmap string attribute.Value) :
  foldl put (foldl put m kvs) kvs = foldl put m kvs.
Proof.
  apply map_eq; intros k. rewrite !foldl_put_lookup.
  by destruct (last_value k kvs).
Qed.

Lemma foldl_put_dom kvs (m : gmap string attribute.Value) :
  dom m ⊆ dom (foldl put m kvs).
Proof.
  revert m. induction kvs as [|kv kvs IH]; intros m; simpl; [done|].
  etrans; [|apply IH]. unfold put. rewrite dom_insert. set_solver.
Qed.

Lemma attributes_after_dom calls (m : gmap string attribute.Value) :
  dom m ⊆ dom (foldl attributes_after m calls).
Proof.
  revert m. induction calls as [|call calls IH]; intros m; simpl; [done|].
  etrans; [|apply IH]. destruct call; simpl; try done. apply foldl_put_dom.
Qed.

(** *** What AddTraceAttributes does *)

Lemma AddTraceAttributes_run span data w :
  AddTraceAttributes span data w
  = (Return tt, set_log (fun l => l ++ map (trace.Called span) (calls_of data)) w).
Proof.
  unfold AddTraceAttributes, calls_of, status_of.
  destruct w as [l e p tp out en dr cl ti ex].
  repeat case_decide; destruct (TraceData.Error data);
    cbv [mbind M_bind mret M_ret span.SetStatus span.SetAttributes span.call modify set_log log
         ectx propagator provider stdout entropy drawn clock ticks exporterError];
    simpl; by rewrite <- ?app_assoc.
Qed.

Lemma AddTraceAttributes_log span data w :
  log (after (AddTraceAttributes span data) w)
  = log w ++ map (trace.Called span) (calls_of data).
Proof. unfold after. by rewrite AddTraceAttributes_run. Qed.

(** C1: for every record, span and world, [AddTraceAttributes] makes on the
    span: for status code 200 exactly one [SetStatus(Ok, "Success")]; for a
    status code that is neither 0 nor 200 exactly one [SetStatus(Error, msg)]
    where [msg] is the text of the attached error, or ["Unknown error"] when
    none is attached; for status code 0 no [SetStatus] at all, whatever the
    error, and the status of the span stays what it was. *)
Theorem AddTraceAttributes_status (span : trace.Span) (data : TraceData.t) (w : World) :
  let w' := after (AddTraceAttributes span data) w in
  exists calls,
    log w' = log w ++ map (trace.Called span) calls /\
    (TraceData.StatusCode data = 200 ->
       status_calls calls = [(codes.Ok, "Success")] /\
       span_status span (log w') = (codes.Ok, "Success")) /\
    (TraceData.StatusCode data ≠ 0 -> TraceData.StatusCode data ≠ 200 ->
       forall e, TraceData.Error data = Some e ->
       status_calls calls = [(codes.Error, err_text e)] /\
       span_status span (log w') = (codes.Error, err_text e)) /\
    (TraceData.StatusCode data ≠ 0 -> TraceData.StatusCode data ≠ 200 ->
       TraceData.Error data = None ->
       status_calls calls = [(codes.Error, "Unknown error")] /\
       span_status span (log w') = (codes.Error, "Unknown error")) /\
    (TraceData.StatusCode data = 0 ->
       status_calls calls = [] /\
       span_status span (log w') = span_status span (log w)).
Proof.
  intros w'. exists (calls_of data). subst w'.
  rewrite AddTraceAttributes_log. split; [done|].
  rewrite span_status_called. unfold calls_of, status_of, http.StatusOK.
  repeat split; intros; repeat case_decide; try lia; simplify_eq; try done.
  - destruct (TraceData.Error data); simplify_eq. done.
  - destruct (TraceData.Error data); simplify_eq. done.
  - destruct (TraceData.Error data); simplify_eq. done.
  - destruct (TraceData.Error data); simplify_eq. done.
Qed.

Example AddTraceAttributes_404 :
  log (after (AddTraceAttributes 0%nat
                (TraceData.set_Error (Some {| err_id := 1; err_text := "not found" |})
                   (TraceData.set_StatusCode 404 TraceData.zero))) idle)
  = [trace.Called 0%nat (trace.SetStatus codes.Error "not found");
     trace.Called 0%nat (trace.SetAttributes [
       attribute.String "user.id" ""; attribute.String "request.id" "";
       attribute.String "service.name" ""; attribute.String "environment" "";
       attribute.String "version" ""; attribute.String "region" "";
       attribute.String "action" ""; attribute.String "resource" "";
       attribute.Int "status.code" 404; attribute.String "client.ip" "";
       attribute.String "user.agent" ""; attribute.Int64 "request.size" 0;
       attribute.Int64 "response.size" 0; attribute.Float64 "duration.ms" 0;
       attribute.String "error.message" "not found"])].
Proof. reflexivity. Qed.

Example AddTraceAttributes_error_without_status :
  status_calls (calls_on 0%nat
    (log (after (AddTraceAttributes 0%nat
                   (TraceData.set_Error (Some {| err_id := 1; err_text := "boom" |})
                      TraceData.zero)) idle)))
  = [].
Proof. reflexivity. Qed.




Lemma AddTraceAttributes_added span data w :
  added (AddTraceAttributes span data) w = map (trace.Called span) (calls_of data).
Proof. unfold added. rewrite AddTraceAttributes_log. apply drop_app_length. Qed.

Lemma attributes_after_calls_of data (m : gmap string attribute.Value) :
  foldl attributes_after m (calls_of data) = foldl put m (attributes_of data).
Proof. unfold calls_of. by destruct (status_of data) as [[code d]|]. Qed.

Lemma status_after_calls_of data st :
  foldl status_after st (calls_of data)
  = match status_of data with Some s => s | None => st end.
Proof. unfold calls_of. by destruct (status_of data) as [[code d]|]. Qed.

Lemma sdk_span_status_called s l calls :
  sdk_span_status s (l ++ map (trace.Called s) calls)
  = foldl sdk_status_after (sdk_span_status s l) calls.
Proof.
  unfold sdk_span_status. by rewrite calls_on_app, calls_on_called, foldl_app.
Qed.

Lemma sdk_status_after_idemp st call :
  sdk_status_after (sdk_status_after st call) call = sdk_status_after st call.
Proof.
  destruct call as [code d| | |]; simpl; try done.
  destruct (code_rank code <? code_rank st.1)%nat eqn:Hlt; simpl.
  - by rewrite Hlt.
  - by rewrite Nat.ltb_irrefl.
Qed.

Lemma sdk_status_after_calls_of data st :
  foldl sdk_status_after st (calls_of data)
  = match status_of data with
    | Some (code, d) => sdk_status_after st (trace.SetStatus code d)
    | None => st
    end.
Proof. unfold calls_of. by destruct (status_of data) as [[code d]|]. Qed.

(** C7: [AddTraceAttributes] makes the same calls for the same record in
    every world; applied a second time with the record unchanged it leaves
    the attribute set and the status of the span as they were after the
    first time; and applied with any record it removes no attribute: the keys
    set before are still set, and a key the record does not carry keeps its
    value.  The status is also unchanged by the second application when it
    is read with the SDK's precedence of statuses. *)
Theorem AddTraceAttributes_idempotent
    (span : trace.Span) (data data' : TraceData.t) (w w' : World) :
  let w1 := after (AddTraceAttributes span data) w in
  let w2 := after (AddTraceAttributes span data) w1 in
  let u := after (AddTraceAttributes span data') w in
  added (AddTraceAttributes span data) w' = added (AddTraceAttributes span data) w /\
  span_attributes span (log w2) = span_attributes span (log w1) /\
  span_status span (log w2) = span_status span (log w1) /\
  sdk_span_status span (log w2) = sdk_span_status span (log w1) /\
  dom (span_attributes span (log w)) ⊆ dom (span_attributes span (log u)) /\
  (forall k, k ∉ map attribute.Key (attributes_of data') ->
     span_attributes span (log u) !! k = span_attributes span (log w) !! k).
Proof.
  intros w1 w2 u. subst w1 w2 u.
  rewrite !AddTraceAttributes_added, !AddTraceAttributes_log.
  rewrite !span_attributes_called, !span_status_called.
  rewrite !sdk_span_status_called, !sdk_status_after_calls_of.
  rewrite !attributes_after_calls_of, !status_after_calls_of.
  split; [done|]. split; [apply foldl_put_idemp|].
  split; [by destruct (status_of data)|].
  split; [destruct (status_of data) as [[code d]|]; [apply sdk_status_after_idemp|done]|].
  split; [apply foldl_put_dom|].
  intros k Hk. rewrite foldl_put_lookup.
  by rewrite last_value_None.
Qed.

Example AddTraceAttributes_twice :
  let d := TraceData.set_StatusCode 200 TraceData.zero in
  let w1 := after (AddTraceAttributes 0%nat d) idle in
  let w2 := after (AddTraceAttributes 0%nat d) w1 in
  span_attributes 0%nat (log w2) !! "status.code" = Some (attribute.INT64 200) /\
  span_status 0%nat (log w2) = (codes.Ok, "Success") /\
  length (log w1) = 2%nat /\ length (log w2) = 4%nat.
Proof. vm_compute. done. Qed.

(** *** StartSpan *)

Lemma calls_on_cons_called s call l :
  calls_on s (trace.Called s call :: l) = call :: calls_on s l.
Proof. simpl. by rewrite decide_True. Qed.

Lemma times_ended_app s l1 l2 :
  times_ended s (l1 ++ l2) = (times_ended s l1 + times_ended s l2)%nat.
Proof. unfold times_ended. by rewrite calls_on_app, List.filter_app, length_app. Qed.

Lemma StartSpan_run tracerCtx operation fn w :
  let span : trace.Span := length (log w) in
  let started :=
    trace.Started span (Tracer tracerCtx) (RequestCtx tracerCtx) operation [] in
  let body := fn (context.WithSpan span (RequestCtx tracerCtx)) span
                 (set_log (fun l => l ++ [started]) w) in
  StartSpan tracerCtx operation fn w
  = (body.1, set_log (fun l => l ++ [trace.Called span trace.End_]) body.2).
Proof.
  intros span started body. subst body.
  unfold StartSpan, mbind, M_bind, tracer.Start, defer, span.End_, span.call, modify. simpl.
  fold span. fold started.
  by destruct (fn _ _ _) as [o w1].
Qed.

(** C3: whatever the carrier, the operation name and the work, [StartSpan]
    starts one span (named after the operation, under the carrier's context,
    without attributes), hands it to the work, and when the work returns or
    panics ends that span once; its outcome is the outcome of the work, the
    returned error unchanged.  The only events [StartSpan] itself adds are
    that start and that end: it sets no status. *)
Theorem StartSpan_one_span_error_unchanged
    (tracerCtx : TraceContext) (operation : string)
    (fn : context.Context -> trace.Span -> M error) (w : World) :
  let span : trace.Span := length (log w) in
  let started :=
    trace.Started span (Tracer tracerCtx) (RequestCtx tracerCtx) operation [] in
  let w1 := set_log (fun l => l ++ [started]) w in
  let body := fn (context.WithSpan span (RequestCtx tracerCtx)) span w1 in
  outcome (StartSpan tracerCtx operation fn) w = body.1 /\
  after (StartSpan tracerCtx operation fn) w
    = set_log (fun l => l ++ [trace.Called span trace.End_]) body.2 /\
  (forall evs, log body.2 = log w1 ++ evs ->
     let mine := added (StartSpan tracerCtx operation fn) w in
     mine = [started] ++ evs ++ [trace.Called span trace.End_] /\
     times_ended span mine = S (times_ended span evs) /\
     status_calls (calls_on span mine) = status_calls (calls_on span evs)).
Proof.
  intros span started w1 body.
  pose proof (StartSpan_run tracerCtx operation fn w) as Hrun. simpl in Hrun.
  fold span started w1 body in Hrun.
  unfold outcome, after, added. rewrite Hrun. simpl.
  split; [done|]. split; [done|].
  intros evs Hevs. unfold after. rewrite Hrun. simpl. rewrite Hevs.
  rewrite <- !app_assoc, drop_app_length.
  change ([started] ++ evs ++ [trace.Called span trace.End_])
    with (started :: (evs ++ [trace.Called span trace.End_])).
  split; [done|]. split.
  - unfold times_ended. simpl calls_on.
    rewrite calls_on_app, calls_on_cons_called, List.filter_app, length_app. simpl. lia.
  - simpl calls_on. rewrite calls_on_app, calls_on_cons_called. simpl.
    unfold status_calls. rewrite omap_app. simpl. by rewrite app_nil_r.
Qed.

Lemma log_set_log f w : log (set_log f w) = f (log w).
Proof. by destruct w. Qed.

Lemma ectx_set_log f w : ectx (set_log f w) = ectx w.
Proof. by destruct w. Qed.

(** *** Attributes of a record *)

Lemma attribute_calls_calls_of data : attribute_calls (calls_of data) = attributes_of data.
Proof.
  unfold calls_of, attribute_calls.
  destruct (status_of data) as [[code d]|]; simpl; by rewrite app_nil_r.
Qed.

Lemma attribute_calls_app calls1 calls2 :
  attribute_calls (calls1 ++ calls2) = attribute_calls calls1 ++ attribute_calls calls2.
Proof. unfold attribute_calls. by rewrite omap_app, concat_app. Qed.

Lemma error_calls_app calls1 calls2 :
  error_calls (calls1 ++ calls2) = error_calls calls1 ++ error_calls calls2.
Proof. unfold error_calls. by rewrite omap_app. Qed.

Lemma error_calls_calls_of data : error_calls (calls_of data) = [].
Proof. unfold calls_of. by destruct (status_of data) as [[code d]|]. Qed.

Lemma end_calls_calls_of data : List.filter is_End (calls_of data) = [].
Proof. unfold calls_of. by destruct (status_of data) as [[code d]|]. Qed.

(** The values [attributes_of] gives to the keys the middleware relies on. *)
Lemma attributes_of_last_value data :
  last_value "request.id" (attributes_of data)
    = Some (attribute.STRING (TraceData.RequestID data)) /\
  last_value "environment" (attributes_of data)
    = Some (attribute.STRING (TraceData.Environment data)) /\
  last_value "status.code" (attributes_of data)
    = Some (attribute.INT64 (TraceData.StatusCode data)) /\
  last_value "error.message" (attributes_of data)
    = (fun e => attribute.STRING (err_text e)) <$> TraceData.Error data /\
  last_value "http.response_content_length" (attributes_of data) = None /\
  last_value "http.response_content_type" (attributes_of data) = None.
Proof.
  unfold attributes_of.
  destruct (time.IsZero (TraceData.StartTime data)),
           (time.IsZero (TraceData.EndTime data)),
           (TraceData.Error data); by repeat split.
Qed.

Lemma environment_of_attributes_of data v :
  attribute.String "environment" v ∈ attributes_of data -> v = TraceData.Environment data.
Proof.
  intros H. apply list_elem_of_In in H. unfold attributes_of in H.
  destruct (time.IsZero (TraceData.StartTime data)),
           (time.IsZero (TraceData.EndTime data)),
           (TraceData.Error data); simpl in H;
    repeat (destruct H as [H|H]; [try discriminate H|]); try done;
    by injection H.
Qed.

Lemma environment_in_attributes_of data :
  attribute.String "environment" (TraceData.Environment data) ∈ attributes_of data.
Proof.
  apply list_elem_of_In. unfold attributes_of.
  destruct (time.IsZero (TraceData.StartTime data)),
           (time.IsZero (TraceData.EndTime data)),
           (TraceData.Error data); simpl; tauto.
Qed.

Lemma Get_Set_ h key value : http.Get (http.Set_ h key value) key = value.
Proof. unfold http.Get, http.Set_. by rewrite lookup_insert_eq. Qed.

Lemma uuid_String_length u : String.length (uuid.String u) = 36%nat.
Proof. reflexivity. Qed.

(** *** The UUID of a draw *)

Lemma hexdigit_inj a b :
  0 <= a < 16 -> 0 <= b < 16 -> uuid.hexdigit a = uuid.hexdigit b -> a = b.
Proof.
  intros Ha Hb.
  assert (Hcases : forall x, 0 <= x < 16 ->
            x = 0 \/ x = 1 \/ x = 2 \/ x = 3 \/ x = 4 \/ x = 5 \/ x = 6 \/ x = 7 \/
            x = 8 \/ x = 9 \/ x = 10 \/ x = 11 \/ x = 12 \/ x = 13 \/ x = 14 \/ x = 15)
    by (intros; lia).
  destruct (Hcases a Ha) as [->|[->|[->|[->|[->|[->|[->|[->|[->|[->|[->|[->|[->|[->|[->| ->]]]]]]]]]]]]]]];
    destruct (Hcases b Hb) as [->|[->|[->|[->|[->|[->|[->|[->|[->|[->|[->|[->|[->|[->|[->| ->]]]]]]]]]]]]]]];
    intros H; first [reflexivity | discriminate H].
Qed.

Lemma byte_at_range u i : 0 <= uuid.byte_at u i < 256.
Proof.
  unfold uuid.byte_at. change 255 with (Z.ones 8). rewrite Z.land_ones by lia.
  apply Z.mod_pos_bound. lia.
Qed.

Lemma byte_of_nibbles b b' :
  0 <= b < 256 -> 0 <= b' < 256 ->
  uuid.hexdigit (Z.shiftr b 4) = uuid.hexdigit (Z.shiftr b' 4) ->
  uuid.hexdigit (Z.land b 15) = uuid.hexdigit (Z.land b' 15) ->
  b = b'.
Proof.
  intros Hb Hb'. change 15 with (Z.ones 4).
  rewrite !Z.shiftr_div_pow2, !Z.land_ones by lia. change (2 ^ 4) with 16.
  intros Hhi Hlo.
  apply hexdigit_inj in Hhi; [|Z.div_mod_to_equations; lia..].
  apply hexdigit_inj in Hlo; [|Z.div_mod_to_equations; lia..].
  Z.div_mod_to_equations. lia.
Qed.

Lemma String_bytes u v i :
  uuid.String u = uuid.String v -> 0 <= i <= 15 -> uuid.byte_at u i = uuid.byte_at v i.
Proof.
  unfold uuid.String, uuid.hexbytes. cbn [foldr]. unfold uuid.hexbyte.
  intros H Hi. injection H as H0 H0' H1 H1' H2 H2' H3 H3' H4 H4' H5 H5' H6 H6' H7 H7'
    H8 H8' H9 H9' H10 H10' H11 H11' H12 H12' H13 H13' H14 H14' H15 H15'.
  assert (i = 0 \/ i = 1 \/ i = 2 \/ i = 3 \/ i = 4 \/ i = 5 \/ i = 6 \/ i = 7 \/
          i = 8 \/ i = 9 \/ i = 10 \/ i = 11 \/ i = 12 \/ i = 13 \/ i = 14 \/ i = 15)
    as [->|[->|[->|[->|[->|[->|[->|[->|[->|[->|[->|[->|[->|[->|[->| ->]]]]]]]]]]]]]]] by lia;
    apply byte_of_nibbles; auto using byte_at_range.
Qed.

Lemma testbit_byte_at u i k :
  0 <= i <= 15 -> 0 <= k < 8 ->
  Z.testbit (uuid.byte_at u i) k = Z.testbit u (k + 8 * (15 - i)).
Proof.
  intros Hi Hk. unfold uuid.byte_at. change 255 with (Z.ones 8).
  rewrite Z.land_spec, Z.shiftr_spec, Z.ones_spec_low by lia. apply andb_true_r.
Qed.

Lemma testbit_above u n : 0 <= u < 2 ^ 128 -> 128 <= n -> Z.testbit u n = false.
Proof.
  intros Hu Hn. rewrite <- (Z.mod_small u (2 ^ 128)) by lia.
  rewrite <- Z.land_ones by lia. rewrite Z.land_spec, Z.ones_spec_high by lia.
  apply andb_false_r.
Qed.

Lemma String_bits u v n :
  uuid.String u = uuid.String v -> 0 <= n < 128 -> Z.testbit u n = Z.testbit v n.
Proof.
  intros H Hn.
  assert (Hi : 0 <= 15 - n / 8 <= 15) by (Z.div_mod_to_equations; lia).
  assert (Hk : 0 <= n mod 8 < 8) by (Z.div_mod_to_equations; lia).
  pose proof (String_bytes u v (15 - n / 8) H Hi) as Hb.
  apply (f_equal (fun b => Z.testbit b (n mod 8))) in Hb.
  rewrite !testbit_byte_at in Hb by assumption.
  replace (n mod 8 + 8 * (15 - (15 - n / 8))) with n in Hb
    by (Z.div_mod_to_equations; lia).
  exact Hb.
Qed.

Lemma testbit_small b k n : 0 <= b < 2 ^ k -> 0 <= k <= n -> Z.testbit b n = false.
Proof.
  intros Hb Hn. rewrite <- (Z.mod_small b (2 ^ k)) by lia.
  rewrite <- Z.land_ones by lia. rewrite Z.land_spec, Z.ones_spec_high by lia.
  apply andb_false_r.
Qed.

Lemma bits_String u v :
  (forall n, 0 <= n < 128 -> Z.testbit u n = Z.testbit v n) ->
  uuid.String u = uuid.String v.
Proof.
  intros H.
  assert (Hb : forall i, 0 <= i <= 15 -> uuid.byte_at u i = uuid.byte_at v i).
  { intros i Hi. apply Z.bits_inj'. intros k Hk.
    destruct (Z.lt_ge_cases k 8) as [Hlt|Hge].
    - rewrite !testbit_byte_at by lia. apply H. lia.
    - rewrite !(testbit_small _ 8 k); auto using byte_at_range with lia. }
  unfold uuid.String. cbv zeta.
  rewrite !Hb by lia. reflexivity.
Qed.

Lemma testbit_set_byte u i b n :
  0 <= i <= 15 -> 0 <= b < 256 -> 0 <= n ->
  Z.testbit (uuid.set_byte u i b) n
  = if decide (8 * (15 - i) <= n < 8 * (15 - i) + 8)
    then Z.testbit b (n - 8 * (15 - i)) else Z.testbit u n.
Proof.
  intros Hi Hb Hn. unfold uuid.set_byte. change 255 with (Z.ones 8).
  rewrite Z.lor_spec, Z.land_spec, Z.lnot_spec, !Z.shiftl_spec by lia.
  case_decide as Hin.
  - rewrite Z.ones_spec_low by lia. cbn [negb]. by rewrite andb_false_r.
  - destruct (Z.lt_ge_cases n (8 * (15 - i))) as [Hlt|Hge].
    + rewrite (Z.testbit_neg_r _ (n - 8 * (15 - i))) by lia.
      rewrite (Z.testbit_neg_r b) by lia. cbn [negb]. by rewrite andb_true_r, orb_false_r.
    + rewrite Z.ones_spec_high by lia.
      rewrite (testbit_small b 8) by lia.
      cbn [negb]. by rewrite andb_true_r, orb_false_r.
Qed.

Lemma lor_byte a b : 0 <= a < 256 -> 0 <= b < 256 -> 0 <= Z.lor a b < 256.
Proof.
  intros Ha Hb. split; [apply Z.lor_nonneg; lia|].
  destruct (decide (Z.lor a b = 0)) as [->|Hz]; [lia|].
  assert (Hpos : 0 < Z.lor a b) by (pose proof (proj2 (Z.lor_nonneg a b)); lia).
  change 256 with (2 ^ 8). apply Z.log2_lt_pow2; [exact Hpos|].
  rewrite Z.log2_lor by lia.
  assert (Hlog : forall x, 0 <= x < 256 -> Z.log2 x < 8).
  { intros x Hx. destruct (decide (x = 0)) as [->|Hx0]; [done|].
    apply Z.log2_lt_pow2; lia. }
  pose proof (Hlog a Ha). pose proof (Hlog b Hb). lia.
Qed.

Lemma land_byte a m : 0 <= a -> 0 <= m < 256 -> 0 <= Z.land a m < 256.
Proof.
  intros Ha Hm. split; [apply Z.land_nonneg; lia|].
  destruct (decide (Z.land a m = 0)) as [->|Hz]; [lia|].
  assert (Hpos : 0 < Z.land a m) by (pose proof (proj2 (Z.land_nonneg a m)); lia).
  change 256 with (2 ^ 8). apply Z.log2_lt_pow2; [exact Hpos|].
  pose proof (Z.log2_land a m Ha ltac:(lia)) as Hl.
  assert (Z.log2 m < 8).
  { destruct (decide (m = 0)) as [->|Hm0]; [done|]. apply Z.log2_lt_pow2; lia. }
  lia.
Qed.

(** The bits of the UUID made from the draw [r]: the version and the variant
    are fixed, the other bits are those of the draw. *)
Lemma testbit_NewRandom r n :
  0 <= n < 128 ->
  Z.testbit (uuid.NewRandom r) n
  = if decide (n = 63 \/ n = 78) then true
    else if decide (n = 62 \/ 76 <= n <= 79) then false
    else Z.testbit r n.
Proof.
  intros Hn. unfold uuid.NewRandom. cbv zeta.
  set (u0 := Z.land r (Z.ones 128)).
  set (b6 := Z.lor (Z.land (uuid.byte_at u0 6) 15) 64).
  set (u1 := uuid.set_byte u0 6 b6).
  set (b8 := Z.lor (Z.land (uuid.byte_at u1 8) 63) 128).
  assert (Hb6 : 0 <= b6 < 256).
  { apply lor_byte; [|lia]. apply land_byte; [apply byte_at_range|lia]. }
  assert (Hb8 : 0 <= b8 < 256).
  { apply lor_byte; [|lia]. apply land_byte; [apply byte_at_range|lia]. }
  assert (Hu0 : forall k, 0 <= k < 128 -> Z.testbit u0 k = Z.testbit r k).
  { intros k Hk. unfold u0. rewrite Z.land_spec, Z.ones_spec_low by lia.
    apply andb_true_r. }
  rewrite testbit_set_byte by lia.
  case_decide as H8.
  - unfold b8. rewrite Z.lor_spec, Z.land_spec, testbit_byte_at by lia.
    replace (n - 8 * (15 - 8) + 8 * (15 - 8)) with n by lia.
    unfold u1. rewrite testbit_set_byte by lia. rewrite decide_False by lia.
    rewrite Hu0 by lia.
    assert (n = 56 \/ n = 57 \/ n = 58 \/ n = 59 \/ n = 60 \/ n = 61 \/ n = 62 \/ n = 63)
      as [->|[->|[->|[->|[->|[->|[->| ->]]]]]]] by lia;
      cbn [Z.sub Z.mul Z.add Z.opp Z.pos_sub Pos.mul Pos.add Pos.succ Pos.pred_double
           Z.double Z.succ_double Z.pred_double];
      repeat case_decide; try lia;
      change (Z.testbit 63 ?k) with (Z.testbit 63 k);
      rewrite ?andb_true_r, ?andb_false_r, ?orb_false_r, ?orb_true_r; try reflexivity.
  - unfold u1. rewrite testbit_set_byte by lia.
    case_decide as H6.
    + unfold b6. rewrite Z.lor_spec, Z.land_spec, testbit_byte_at by lia.
      replace (n - 8 * (15 - 6) + 8 * (15 - 6)) with n by lia.
      rewrite Hu0 by lia.
      assert (n = 72 \/ n = 73 \/ n = 74 \/ n = 75 \/ n = 76 \/ n = 77 \/ n = 78 \/ n = 79)
        as [->|[->|[->|[->|[->|[->|[->| ->]]]]]]] by lia;
        repeat case_decide; try lia;
        rewrite ?andb_true_r, ?andb_false_r, ?orb_false_r, ?orb_true_r; try reflexivity.
    + rewrite Hu0 by lia. by repeat (case_decide; try lia).
Qed.

(** Two draws give the same UUID string exactly when they agree on the bits
    the UUID keeps. *)
Lemma uuid_of_draw_inj x y :
  uuid.String (uuid.NewRandom x) = uuid.String (uuid.NewRandom y) <-> same_random_bits x y.
Proof.
  split.
  - intros H n Hn H62 H63 H76.
    pose proof (String_bits _ _ n H Hn) as Hb.
    rewrite !testbit_NewRandom in Hb by lia.
    rewrite !(decide_False (P := n = 63 \/ n = 78)) in Hb by lia.
    rewrite !(decide_False (P := n = 62 \/ 76 <= n <= 79)) in Hb by lia.
    exact Hb.
  - intros H. apply bits_String. intros n Hn.
    rewrite !testbit_NewRandom by lia.
    repeat case_decide; try reflexivity. apply H; lia.
Qed.

(** *** The world the handler is called in *)

Lemma world_ext (w1 w2 : World) :
  log w1 = log w2 -> ectx w1 = ectx w2 -> propagator w1 = propagator w2 ->
  provider w1 = provider w2 -> stdout w1 = stdout w2 -> entropy w1 = entropy w2 ->
  drawn w1 = drawn w2 -> clock w1 = clock w2 -> ticks w1 = ticks w2 ->
  exporterError w1 = exporterError w2 -> w1 = w2.
Proof. destruct w1, w2; simpl; intros; by subst. Qed.

Lemma tracedHandler_handed_over key config tr pr (next : HandlerFunc) w :
  tracedHandler key config tr pr next w
  = ((next (handed_over key config tr pr w)).1,
     set_log (fun l => l ++ map (trace.Called (length (log w)))
                (final_calls (first_record config w)
                   (next (handed_over key config tr pr w)).1
                   (echo.response (ectx (next (handed_over key config tr pr w)).2))))
       (next (handed_over key config tr pr w)).2).
Proof.
  assert (Hroute : route_of w ≠ "").
  { unfold route_of. by case_decide. }
  unfold tracedHandler, NewTraceData.
  unfold mbind, M_bind, c.Request, c.Path, c.RealIP, c.Response, gets, time_Now, uuid_New,
    c.ResponseHeaderSet, c.SetRequest, c.Set_, span.SetAttributes, span.RecordError,
    span.End_, span.call, modify, mret, M_ret, tracer.Start, defer.
  cbn beta iota. fold (route_of w).
  rewrite (decide_False (P := route_of w = "")) by exact Hroute.
  destruct (decide (http.Get (echo.Header (echo.request (ectx w))) "X-Request-ID" = ""))
    as [Hs|Hs]; cbn beta iota; rewrite AddTraceAttributes_run; cbn beta iota.
  - match goal with
    | |- ?L = _ =>
      match L with
      | context [next ?x] =>
        assert (Hx : x = handed_over key config tr pr w)
      end
    end.
    { apply world_ext; unfold handed_over, first_record, request_id;
        rewrite ?(decide_True (P := http.Get _ _ = "")) by exact Hs;
        cbn [log ectx propagator provider stdout entropy drawn clock ticks exporterError
             set_log set_ectx set_ticks set_drawn];
        rewrite <- ?app_assoc; reflexivity. }
    rewrite Hx. clear Hx.
    destruct (next _) as [[[er|]|v] w_h]; rewrite ?AddTraceAttributes_run; cbn beta iota;
    cbn [fst snd final_calls];
    (apply (f_equal (pair _)); apply world_ext;
     cbn [log ectx propagator provider stdout entropy drawn clock ticks exporterError
          set_log set_ectx set_ticks set_drawn];
     unfold first_record, request_id;
     rewrite ?(decide_True (P := http.Get _ _ = "")) by exact Hs;
     rewrite ?map_app, <- ?app_assoc; reflexivity).
  - match goal with
    | |- ?L = _ =>
      match L with
      | context [next ?x] =>
        assert (Hx : x = handed_over key config tr pr w)
      end
    end.
    { apply world_ext; unfold handed_over, first_record, request_id;
        rewrite ?(decide_False (P := http.Get _ _ = "")) by exact Hs;
        cbn [log ectx propagator provider stdout entropy drawn clock ticks exporterError
             set_log set_ectx set_ticks set_drawn];
        rewrite <- ?app_assoc; reflexivity. }
    rewrite Hx. clear Hx.
    destruct (next _) as [[[er|]|v] w_h]; rewrite ?AddTraceAttributes_run; cbn beta iota;
    cbn [fst snd final_calls];
    (apply (f_equal (pair _)); apply world_ext;
     cbn [log ectx propagator provider stdout entropy drawn clock ticks exporterError
          set_log set_ectx set_ticks set_drawn];
     unfold first_record, request_id;
     rewrite ?(decide_False (P := http.Get _ _ = "")) by exact Hs;
     rewrite ?map_app, <- ?app_assoc; reflexivity).
Qed.

Lemma log_handed_over key config tr pr w :
  exists ctx opts,
    log (handed_over key config tr pr w)
    = log w ++ trace.Started (length (log w)) tr ctx (route_of w) opts
               :: map (trace.Called (length (log w))) (calls_of (first_record config w)) /\
    concat (map (fun o => match o with trace.WithAttributes kvs => kvs end) opts) = [
      attribute.String semconv.HTTPMethodKey (echo.Method (echo.request (ectx w)));
      attribute.String semconv.HTTPTargetKey (echo.URL_Path (echo.request (ectx w)));
      attribute.String semconv.HTTPRouteKey (route_of w);
      attribute.String semconv.HTTPHostKey (echo.Host (echo.request (ectx w)));
      attribute.String semconv.HTTPSchemeKey (echo.URL_Scheme (echo.request (ectx w)));
      attribute.String "http.flavor" (echo.Proto (echo.request (ectx w)));
      attribute.String "http.client_ip" (echo.realIP (ectx w));
      attribute.String "http.user_agent" (echo.UserAgent (echo.request (ectx w)));
      attribute.Int64 "http.request_content_length"
        (echo.ContentLength (echo.request (ectx w)));
      attribute.String "http.request_id" (request_id w)].
Proof. eexists _, _. split; reflexivity. Qed.

(** *** The middleware *)

Section MiddlewareProperties.
Variable TraceContextKey : string.

Lemma OtelMiddleware_run config w0 :
  exists name,
    OtelMiddleware TraceContextKey config w0
    = (Return (tracedHandler TraceContextKey (Config.set_ServiceName name config)
                 (otel.Tracer name) (propagator w0)), w0) /\
    name = (if decide (Config.ServiceName config = "") then "default"
            else Config.ServiceName config).
Proof.
  unfold OtelMiddleware. case_decide as Hname; eexists; (split; [|reflexivity]).
  - reflexivity.
  - by destruct config.
Qed.

(** One request through the handler the middleware builds: the world
    [next] is called in, and what happens once it is done. *)
Lemma tracedHandler_run config tr pr next w :
  let span : trace.Span := length (log w) in
  let traceData := first_record config w in
  let supplied := http.Get (echo.Header (echo.request (ectx w))) "X-Request-ID" in
  exists w_next started,
    log w_next = log w ++ started :: map (trace.Called span) (calls_of traceData) /\
    span_name span [started] = Some (route_of w) /\
    attribute.String "http.request_id" (request_id w) ∈ start_attributes span [started] /\
    echo.response (ectx w_next)
      = (if decide (supplied = "")
         then {| echo.Status := echo.Status (echo.response (ectx w));
                 echo.Size := echo.Size (echo.response (ectx w));
                 echo.RespHeader :=
                   http.Set_ (echo.RespHeader (echo.response (ectx w)))
                     "X-Request-ID" (request_id w) |}
         else echo.response (ectx w)) /\
    drawn w_next = (if decide (supplied = "") then S (drawn w) else drawn w) /\
    tracedHandler TraceContextKey config tr pr next w
    = ((next w_next).1,
       set_log (fun l => l ++ map (trace.Called span)
                  (final_calls traceData (next w_next).1
                     (echo.response (ectx (next w_next).2))))
         (next w_next).2).
Proof.
  intros span traceData supplied.
  assert (Hroute : route_of w ≠ "").
  { unfold route_of. by case_decide. }
  subst traceData. unfold first_record, request_id. fold supplied.
  unfold tracedHandler, NewTraceData.
  unfold mbind, M_bind, c.Request, c.Path, c.RealIP, c.Response, gets, time_Now, uuid_New,
    c.ResponseHeaderSet, c.SetRequest, c.Set_, span.SetAttributes, span.RecordError,
    span.End_, span.call, modify, mret, M_ret, tracer.Start, defer.
  cbn beta iota. fold supplied. fold (route_of w).
  destruct (decide (supplied = "")) as [Hs|Hs]; cbn beta iota;
    rewrite (decide_False (P := route_of w = "")) by done;
    rewrite AddTraceAttributes_run; cbn beta iota;
    unfold route_of in *;
    destruct w as [l e p tp out en dr cl ti ex];
    cbn [log ectx propagator provider stdout entropy drawn clock ticks exporterError
         set_log set_ectx set_ticks set_drawn] in *;
    (eexists _, _; split; [|split; [|split; [|split; [|split]]]]; cycle 5;
     [ lazymatch goal with
       | |- ?L = ((next ?ev).1, _) =>
           lazymatch L with context [next ?x] => unify ev x end
       end;
       destruct (next _) as [[[er|]|v] w_h]; rewrite ?AddTraceAttributes_run; cbn beta iota;
       destruct w_h; unfold set_log, final_calls;
       cbn [fst snd log ectx propagator provider stdout entropy drawn clock ticks
            exporterError];
       do 2 f_equal; rewrite ?map_app, <- ?app_assoc; reflexivity
     | cbn [log ectx set_log set_ectx]; rewrite <- app_assoc; reflexivity
     | cbn [span_name]; rewrite decide_True by done; reflexivity
     | cbn [start_attributes]; rewrite decide_True by done;
       apply list_elem_of_In; simpl; tauto
     | reflexivity
     | reflexivity ]).
Qed.
(** The same, with the attributes the span starts with spelled out. *)
Lemma tracedHandler_run_started config tr pr next w :
  let span : trace.Span := length (log w) in
  let traceData := first_record config w in
  exists w_next started,
    log w_next = log w ++ started :: map (trace.Called span) (calls_of traceData) /\
    ("environment" ∉ map attribute.Key (start_attributes span [started])) /\
    tracedHandler TraceContextKey config tr pr next w
    = ((next w_next).1,
       set_log (fun l => l ++ map (trace.Called span)
                  (final_calls traceData (next w_next).1
                     (echo.response (ectx (next w_next).2))))
         (next w_next).2).
Proof.
  intros span traceData.
  assert (Hroute : route_of w ≠ "").
  { unfold route_of. by case_decide. }
  subst traceData. unfold first_record, request_id.
  unfold tracedHandler, NewTraceData.
  unfold mbind, M_bind, c.Request, c.Path, c.RealIP, c.Response, gets, time_Now, uuid_New,
    c.ResponseHeaderSet, c.SetRequest, c.Set_, span.SetAttributes, span.RecordError,
    span.End_, span.call, modify, mret, M_ret, tracer.Start, defer.
  cbn beta iota. fold (route_of w).
  destruct (decide (http.Get (echo.Header (echo.request (ectx w))) "X-Request-ID" = ""))
    as [Hs|Hs]; cbn beta iota;
    rewrite (decide_False (P := route_of w = "")) by done;
    rewrite AddTraceAttributes_run; cbn beta iota;
    unfold route_of in *;
    destruct w as [l e p tp out en dr cl ti ex];
    cbn [log ectx propagator provider stdout entropy drawn clock ticks exporterError
         set_log set_ectx set_ticks set_drawn] in *;
    (eexists _, _; split; [|split]; cycle 2;
     [ lazymatch goal with
       | |- ?L = ((next ?ev).1, _) =>
           lazymatch L with context [next ?x] => unify ev x end
       end;
       destruct (next _) as [[[er|]|v] w_h]; rewrite ?AddTraceAttributes_run; cbn beta iota;
       destruct w_h; unfold set_log, final_calls;
       cbn [fst snd log ectx propagator provider stdout entropy drawn clock ticks
            exporterError];
       do 2 f_equal; rewrite ?map_app, <- ?app_assoc; reflexivity
     | cbn [log ectx set_log set_ectx]; rewrite <- app_assoc; reflexivity
     | cbn [start_attributes]; rewrite decide_True by done;
       let H := fresh "H" in
       intros H; apply list_elem_of_In in H; simpl in H; intuition discriminate ]).
Qed.

(** What the request span carries once [next] is done. *)
Lemma span_attributes_final span l data rest :
  span_attributes span (l ++ map (trace.Called span) (calls_of data ++ rest))
  = foldl attributes_after (foldl put (span_attributes span l) (attributes_of data)) rest.
Proof.
  by rewrite span_attributes_called, foldl_app, attributes_after_calls_of.
Qed.

(** C4, amended: the request id is the [X-Request-ID] header of the request
    when that is not empty, and then the middleware leaves the response as
    it is; otherwise it is generated: the UUID string (36 characters) of
    the next unread draw of the random source, which the middleware sets as
    [X-Request-ID] of the response before it calls the handler.  A generated
    id is as unique as the draws are: it equals the UUID string of another
    draw exactly when the two draws agree on the 122 bits a UUID keeps of a
    draw, and generating it uses the draw up, so the next id comes from the
    next draw.  In both cases the id is the one value of [http.request_id]
    the span starts with and the [request.id] of the record applied to it,
    and the middleware does not touch the Echo context after the handler. *)
Theorem request_id_settled (config : Config.t) (w0 : World) :
  exists mw,
    OtelMiddleware TraceContextKey config w0 = (Return mw, w0) /\
    forall (next : HandlerFunc) (w : World),
      let supplied := http.Get (echo.Header (echo.request (ectx w))) "X-Request-ID" in
      let span : trace.Span := length (log w) in
      exists w_next requestID,
      (exists started,
         log w_next
         = log w ++ started :: map (trace.Called span) (calls_of (first_record config w)) /\
         List.filter (fun kv => bool_decide (attribute.Key kv = "http.request_id"))
           (start_attributes span [started])
         = [attribute.String "http.request_id" requestID] /\
         span_attributes span
           (started :: map (trace.Called span) (calls_of (first_record config w)))
           !! "http.request_id"
         = Some (attribute.STRING requestID)) /\
      outcome (mw next) w = (next w_next).1 /\
        ectx (after (mw next) w) = ectx (next w_next).2 /\
        attribute.String "http.request_id" requestID ∈ start_attributes span (log w_next) /\
        span_attributes span (log w_next) !! "request.id"
          = Some (attribute.STRING requestID) /\
        (supplied ≠ "" ->
           requestID = supplied /\
           echo.response (ectx w_next) = echo.response (ectx w) /\
           drawn w_next = drawn w) /\
        (supplied = "" ->
           requestID = uuid.String (uuid.NewRandom (entropy w (drawn w))) /\
           String.length requestID = 36%nat /\
           http.Get (echo.RespHeader (echo.response (ectx w_next))) "X-Request-ID"
             = requestID /\
           drawn w_next = S (drawn w) /\
           (forall r, requestID = uuid.String (uuid.NewRandom r) <->
                      same_random_bits (entropy w (drawn w)) r)).
Proof.
  destruct (OtelMiddleware_run config w0) as (name & Hmw & _).
  eexists. split; [exact Hmw|]. intros next w supplied span.
  set (config' := Config.set_ServiceName name config).
  set (W := handed_over TraceContextKey config' (otel.Tracer name) (propagator w0) w).
  exists W, (request_id w).
  assert (Htd : first_record config w = first_record config' w) by reflexivity.
  destruct (log_handed_over TraceContextKey config' (otel.Tracer name) (propagator w0) w)
    as (ctx & opts & Hlog & Hattrs).
  fold W span in Hlog. rewrite <- Htd in Hlog.
  assert (Hnone : forall data, last_value "http.request_id" (attributes_of data) = None).
  { intros data. apply last_value_None. intros Hin.
    apply list_elem_of_In in Hin. unfold attributes_of in Hin.
    destruct (time.IsZero (TraceData.StartTime data)),
             (time.IsZero (TraceData.EndTime data)),
             (TraceData.Error data); simpl in Hin; intuition discriminate. }
  unfold outcome, after. rewrite tracedHandler_handed_over. fold W. cbn [fst snd].
  split.
  { eexists. split; [exact Hlog|]. split.
    - cbn [start_attributes]. rewrite decide_True by done. rewrite app_nil_r, Hattrs.
      reflexivity.
    - rewrite span_attributes_started, attributes_after_calls_of, foldl_put_lookup, Hnone,
        Hattrs.
      reflexivity. }
  split; [done|]. split; [by rewrite ectx_set_log|].
  split.
  { rewrite Hlog, start_attributes_app. apply elem_of_app. right.
    cbn [start_attributes]. rewrite decide_True by done. rewrite Hattrs.
    apply list_elem_of_In. simpl. tauto. }
  split.
  { rewrite Hlog. change (?e :: map ?f ?l) with ([e] ++ map f l).
    rewrite app_assoc, span_attributes_called, attributes_after_calls_of, foldl_put_lookup.
    by destruct (attributes_of_last_value (first_record config w)) as (-> & _). }
  unfold request_id. fold supplied.
  split; intros Hs.
  - rewrite decide_False by done. split; [done|].
    unfold W, handed_over. cbn [ectx echo.response drawn]. fold supplied.
    by rewrite !decide_False by done.
  - rewrite decide_True by done.
    split; [done|]. split; [apply uuid_String_length|].
    unfold W, handed_over. cbn [ectx echo.response drawn]. fold supplied.
    rewrite !decide_True by done. cbn [echo.RespHeader].
    split; [|split; [done|]].
    + unfold request_id. fold supplied. rewrite decide_True by done. apply Get_Set_.
    + intros r. apply uuid_of_draw_inj.
Qed.

(** C8, amended: once the handler has returned, the middleware applies the
    record again with the status code of the response (and with the error,
    when there is one), and ends the request span, once, as its last call.
    When the handler returned an error, the calls are those of the record,
    then [RecordError] with the handler's error, then [End]: the error is
    recorded once, and neither [http.response_content_length] nor
    [http.response_content_type] is set.  When the handler returned nil, the
    calls are those of the record, then one [SetAttributes] with the two
    response attributes read off the response, then [End]: no error is
    recorded. *)
Theorem finalize_after_handler (config : Config.t) (w0 : World) :
  exists mw,
    OtelMiddleware TraceContextKey config w0 = (Return mw, w0) /\
    forall (next : HandlerFunc) (w : World),
      let span : trace.Span := length (log w) in
      exists w_next calls,
        let o := (next w_next).1 in
        let resp := echo.response (ectx (next w_next).2) in
        let w' := after (mw next) w in
        (exists started,
           log w_next
           = log w ++ started :: map (trace.Called span) (calls_of (first_record config w))) /\
        log w' = log (next w_next).2 ++ map (trace.Called span) calls /\
        last calls = Some trace.End_ /\
        length (List.filter is_End calls) = 1%nat /\
        (forall e, o = Return (Some e) ->
           calls = calls_of (TraceData.set_StatusCode (echo.Status resp)
                               (TraceData.set_Error (Some e) (first_record config w)))
                   ++ [trace.RecordError (Some e); trace.End_] /\
           error_calls calls = [e] /\
           recorded_errors span (log w') = recorded_errors span (log (next w_next).2) ++ [e] /\
           span_attributes span (log w') !! "status.code"
             = Some (attribute.INT64 (echo.Status resp)) /\
           span_attributes span (log w') !! "error.message"
             = Some (attribute.STRING (err_text e)) /\
           ("http.response_content_length" ∉ map attribute.Key (attribute_calls calls)) /\
           ("http.response_content_type" ∉ map attribute.Key (attribute_calls calls))) /\
        (o = Return None ->
           calls = calls_of (TraceData.set_StatusCode (echo.Status resp)
                               (first_record config w))
                   ++ [trace.SetAttributes [
                         attribute.Int "http.response_content_length" (echo.Size resp);
                         attribute.String "http.response_content_type"
                           (http.Get (echo.RespHeader resp) echo.HeaderContentType)];
                       trace.End_] /\
           error_calls calls = [] /\
           span_attributes span (log w') !! "status.code"
             = Some (attribute.INT64 (echo.Status resp)) /\
           span_attributes span (log w') !! "http.response_content_length"
             = Some (attribute.INT64 (echo.Size resp)) /\
           span_attributes span (log w') !! "http.response_content_type"
             = Some (attribute.STRING
                       (http.Get (echo.RespHeader resp) echo.HeaderContentType))).
Proof.
  destruct (OtelMiddleware_run config w0) as (name & Hmw & _).
  eexists. split; [exact Hmw|]. intros next w span.
  destruct (tracedHandler_run (Config.set_ServiceName name config)
              (otel.Tracer name) (propagator w0) next w)
    as (w_next & started & Hlog & _ & _ & _ & _ & Hrun).
    fold span in Hrun, Hlog.
    set (td := first_record (Config.set_ServiceName name config) w) in *.
    assert (Htd : first_record config w = td) by reflexivity.
    exists w_next, (final_calls td (next w_next).1 (echo.response (ectx (next w_next).2))).
    cbv zeta. unfold after. rewrite Hrun, Htd. cbn [fst snd]. rewrite log_set_log.
    split; [exists started; exact Hlog|].
    split; [done|].
  split. { unfold final_calls. destruct ((next w_next).1) as [[e|]|v];
           [by rewrite last_app|by rewrite last_app|done]. }
  split. { unfold final_calls. destruct ((next w_next).1) as [[e|]|v];
           rewrite ?List.filter_app, ?end_calls_calls_of; done. }
  split.
  - intros e He. rewrite He. unfold final_calls.
    split; [done|].
    split. { by rewrite error_calls_app, error_calls_calls_of. }
    split. { unfold recorded_errors.
             by rewrite calls_on_app, calls_on_called, error_calls_app, error_calls_app,
               error_calls_calls_of. }
    rewrite span_attributes_final. cbn [foldl attributes_after]. rewrite !foldl_put_lookup.
    rewrite attribute_calls_app, attribute_calls_calls_of, app_nil_r.
    set (d := TraceData.set_StatusCode _ _).
    destruct (attributes_of_last_value d) as (_ & _ & -> & -> & _).
    split; [done|]. split; [done|].
    unfold attributes_of. subst d. cbn.
    destruct (time.IsZero (clock w (ticks w)));
      split; intros H; apply list_elem_of_In in H; simpl in H; intuition discriminate.
  - intros He. rewrite He. unfold final_calls.
    split; [done|].
    split. { by rewrite error_calls_app, error_calls_calls_of. }
    rewrite span_attributes_final. cbn [foldl attributes_after]. unfold put at 1 2 3 4 5 6.
    cbn [attribute.Key attribute.Val attribute.Int attribute.String].
    split; [|split].
    + rewrite !lookup_insert_ne by done. rewrite foldl_put_lookup.
      by destruct (attributes_of_last_value
                     (TraceData.set_StatusCode
                        (echo.Status (echo.response (ectx (next w_next).2))) td))
        as (_ & _ & -> & _).
    + rewrite lookup_insert_ne by done. apply lookup_insert_eq.
    + apply lookup_insert_eq.
Qed.

(** C10: the record the middleware applies to the request span carries the
    environment of the middleware's config, before the handler and after
    it; so with an empty environment in the config the span receives an
    empty [environment] attribute, and the default ["development"] of
    [NewTraceData] only shows when the config says so.  The span is not
    started with an [environment] attribute either. *)
Theorem environment_from_config (config : Config.t) (w0 : World) :
  exists mw,
    OtelMiddleware TraceContextKey config w0 = (Return mw, w0) /\
    forall (next : HandlerFunc) (w : World),
      let span : trace.Span := length (log w) in
      exists w_next started before after_,
        log w_next = log w ++ started :: map (trace.Called span) before /\
        log (after (mw next) w) = log (next w_next).2 ++ map (trace.Called span) after_ /\
        ("environment" ∉ map attribute.Key (start_attributes span [started])) /\
        attribute.String "environment" (Config.Environment config) ∈ attribute_calls before /\
        (forall v, attribute.String "environment" v ∈ attribute_calls (before ++ after_) ->
           v = Config.Environment config) /\
        span_attributes span (log w_next) !! "environment"
          = Some (attribute.STRING (Config.Environment config)) /\
        (Config.Environment config = "" ->
           span_attributes span (log w_next) !! "environment" = Some (attribute.STRING "") /\
           attribute.String "environment" "development" ∉ attribute_calls (before ++ after_)).
Proof.
  destruct (OtelMiddleware_run config w0) as (name & Hmw & _).
  eexists. split; [exact Hmw|]. intros next w span.
  destruct (tracedHandler_run_started (Config.set_ServiceName name config) (otel.Tracer name)
              (propagator w0) next w)
    as (w_next & started & Hlog & Hstart & Hrun).
  fold span in Hrun, Hlog, Hstart.
  set (td := first_record (Config.set_ServiceName name config) w) in *.
  exists w_next, started, (calls_of td),
    (final_calls td (next w_next).1 (echo.response (ectx (next w_next).2))).
  unfold after. rewrite Hrun. cbn [fst snd]. rewrite log_set_log.
  split; [done|]. split; [done|]. split; [done|].
  rewrite attribute_calls_app, attribute_calls_calls_of.
  assert (Hall : forall v,
    attribute.String "environment" v
      ∈ attributes_of td
        ++ attribute_calls (final_calls td (next w_next).1
                              (echo.response (ectx (next w_next).2))) ->
    v = Config.Environment config).
  { intros v [H|H]%elem_of_app; [by apply environment_of_attributes_of in H|].
    unfold final_calls in H. destruct ((next w_next).1) as [[e|]|pv].
    - rewrite attribute_calls_app, attribute_calls_calls_of, app_nil_r in H.
      by apply environment_of_attributes_of in H.
    - rewrite attribute_calls_app, attribute_calls_calls_of in H.
      apply elem_of_app in H as [H|H]; [by apply environment_of_attributes_of in H|].
      apply list_elem_of_In in H. simpl in H. intuition discriminate.
    - apply list_elem_of_In in H. simpl in H. done. }
  assert (Hattr : span_attributes span (log w_next) !! "environment"
                  = Some (attribute.STRING (Config.Environment config))).
  { rewrite Hlog. change (started :: ?l) with ([started] ++ l).
    rewrite app_assoc, span_attributes_called, attributes_after_calls_of, foldl_put_lookup.
    by destruct (attributes_of_last_value td) as (_ & -> & _). }
  split; [apply (environment_in_attributes_of td)|].
  split; [exact Hall|]. split; [exact Hattr|].
  intros Hempty. split; [by rewrite Hattr, Hempty|].
  intros H%Hall. by rewrite Hempty in H.
Qed.
End MiddlewareProperties.

(** *** The provider initializers *)

Lemma stream_name_header (auth stream : string) :
  ({[ "Authorization" := auth; "stream-name" := stream ]} : gmap string string)
    !! "stream-name" = Some stream.
Proof. rewrite lookup_insert_ne by done. apply lookup_singleton_eq. Qed.

Lemma InitTracerHTTP_run (config : Config.t) (w : World) :
  let opts :=
    [otlptrace.WithEndpoint
       (if decide (Config.Endpoint config ≠ "") then Config.Endpoint config
        else "127.0.0.1:5081");
     otlptrace.WithURLPath "/api/default/v1/traces";
     otlptrace.WithHeaders {[
       "Authorization" := "Basic " +:+ Config.BasicAuth config;
       "stream-name" := if decide (Config.StreamName config ≠ "")
                        then Config.StreamName config else "default" ]}]
    ++ (if Config.IsSecure config then [] else [otlptrace.WithInsecure]) in
  let e := {| otlptrace.transport := otlptrace.HTTP; otlptrace.options := opts |} in
  let tp :=
    {| sdktrace.sampler := sdktrace.AlwaysSample;
       sdktrace.schemaURL := semconv.SchemaURL;
       sdktrace.resource := [
         attribute.String semconv.ServiceNameKey (Config.ServiceName config);
         attribute.String semconv.ServiceVersionKey "0.0.1";
         attribute.String "environment" (Config.Environment config)];
       sdktrace.batcher := match exporterError w e with None => Some e | Some _ => None end |} in
  InitTracerHTTP config w
  = (Return tp,
     set_provider tp
       (set_stdout (fun out => out ++ "path /api/default/v1/traces"
                      :: match exporterError w e with
                         | Some err => ["Error creating HTTP OTLP exporter:  " +:+ err_text err]
                         | None => []
                         end)
          (set_propagator
             (propagation.Composite [propagation.TraceContext; propagation.Baggage]) w))).
Proof.
  intros opts e tp. subst tp e opts.
  unfold InitTracerHTTP, mbind, M_bind, mret, M_ret, otel.SetTextMapPropagator,
    otel.SetTracerProvider, fmt.Println, otlptrace_New, gets, modify.
  cbn beta iota.
  cbn [exporterError set_stdout set_propagator].
  destruct (Config.IsSecure config); cbn [negb app];
    match goal with |- context [exporterError w ?x] => destruct (exporterError w x) as [err|] end;
    cbn beta iota; (apply (f_equal2 pair); [reflexivity|]);
    apply world_ext; try reflexivity;
    cbn [stdout set_provider set_stdout set_propagator String.concat];
    rewrite <- ?app_assoc; reflexivity.
Qed.

Lemma InitTracerGRPC_run (config : Config.t) (w : World) :
  let opts :=
    [otlptrace.WithEndpoint
       (if decide (Config.Endpoint config ≠ "") then Config.Endpoint config
        else "127.0.0.1:5081");
     otlptrace.WithHeaders {[
       "Authorization" := "Basic " +:+ Config.BasicAuth config;
       "stream-name" := if decide (Config.StreamName config ≠ "")
                        then Config.StreamName config else "default" ]}]
    ++ (if Config.IsSecure config then [] else [otlptrace.WithInsecure]) in
  let e := {| otlptrace.transport := otlptrace.GRPC; otlptrace.options := opts |} in
  let tp :=
    {| sdktrace.sampler := sdktrace.AlwaysSample;
       sdktrace.schemaURL := semconv.SchemaURL;
       sdktrace.resource := [
         attribute.String semconv.ServiceNameKey (Config.ServiceName config)];
       sdktrace.batcher := match exporterError w e with None => Some e | Some _ => None end |} in
  InitTracerGRPC config w
  = (Return tp,
     set_propagator
       (propagation.Composite [propagation.TraceContext; propagation.Baggage])
       (set_provider tp
          (set_stdout (fun out => out ++
                         match exporterError w e with
                         | Some err => ["Error creating HTTP OTLP exporter:  " +:+ err_text err]
                         | None => []
                         end) w))).
Proof.
  intros opts e tp. subst tp e opts.
  unfold InitTracerGRPC, mbind, M_bind, mret, M_ret, otel.SetTextMapPropagator,
    otel.SetTracerProvider, fmt.Println, otlptrace_New, gets, modify.
  cbn beta iota.
  destruct (Config.IsSecure config); cbn [negb app];
    match goal with |- context [exporterError w ?x] => destruct (exporterError w x) as [err|] end;
    cbn beta iota; (apply (f_equal2 pair); [reflexivity|]);
    apply world_ext; try reflexivity;
    cbn [stdout set_provider set_stdout set_propagator String.concat];
    rewrite ?app_nil_r; reflexivity.
Qed.

(** C9: both initializers ask for an exporter with exactly one endpoint, the
    config's endpoint, or ["127.0.0.1:5081"] when that is empty, and exactly
    one set of headers, whose [stream-name] is the config's stream name, or
    ["default"] when that is empty.  The exporter asked for depends on the
    config alone; the provider an initializer returns and installs batches to
    that exporter (to none when the exporter could not be built). *)
Theorem initializers_default_endpoint_and_stream (config : Config.t) :
  let endpoint :=
    if decide (Config.Endpoint config = "") then "127.0.0.1:5081"
    else Config.Endpoint config in
  let stream :=
    if decide (Config.StreamName config = "") then "default"
    else Config.StreamName config in
  let asked (e : otlptrace.Exporter) (tr : otlptrace.Transport) :=
    otlptrace.transport e = tr /\
    otlptrace.WithEndpoint endpoint ∈ otlptrace.options e /\
    (forall ep, otlptrace.WithEndpoint ep ∈ otlptrace.options e -> ep = endpoint) /\
    length (List.filter (fun o => match o with otlptrace.WithEndpoint _ => true | _ => false end)
              (otlptrace.options e)) = 1%nat /\
    exists headers,
      otlptrace.WithHeaders headers ∈ otlptrace.options e /\
      (forall h, otlptrace.WithHeaders h ∈ otlptrace.options e -> h = headers) /\
      length (List.filter (fun o => match o with otlptrace.WithHeaders _ => true | _ => false end)
                (otlptrace.options e)) = 1%nat /\
      headers !! "stream-name" = Some stream in
  exists e_http e_grpc,
    asked e_http otlptrace.HTTP /\
    asked e_grpc otlptrace.GRPC /\
    forall w : World,
      let uses (e : otlptrace.Exporter) (init : M sdktrace.TracerProvider) :=
        exists tp,
          init w = (Return tp, after init w) /\
          sdktrace.batcher tp
            = match exporterError w e with None => Some e | Some _ => None end /\
          provider (after init w) = Some tp in
      uses e_http (InitTracerHTTP config) /\
      uses e_grpc (InitTracerGRPC config).
Proof.
  intros endpoint stream asked. subst asked. cbv beta.
  pose proof (InitTracerHTTP_run config) as Hhttp.
  pose proof (InitTracerGRPC_run config) as Hgrpc.
  cbv zeta in Hhttp, Hgrpc.
  match type of Hhttp with
  | context [{| otlptrace.transport := otlptrace.HTTP; otlptrace.options := ?o |}] =>
      exists {| otlptrace.transport := otlptrace.HTTP; otlptrace.options := o |}
  end.
  match type of Hgrpc with
  | context [{| otlptrace.transport := otlptrace.GRPC; otlptrace.options := ?o |}] =>
      exists {| otlptrace.transport := otlptrace.GRPC; otlptrace.options := o |}
  end.
  assert (Hendpoint : (if decide (Config.Endpoint config ≠ "") then Config.Endpoint config
                       else "127.0.0.1:5081") = endpoint).
  { subst endpoint. by repeat case_decide. }
  assert (Hstream : (if decide (Config.StreamName config ≠ "") then Config.StreamName config
                     else "default") = stream).
  { subst stream. by repeat case_decide. }
  rewrite Hendpoint, Hstream.
  assert (Hasked : forall first,
    (forall ep, In (otlptrace.WithEndpoint ep) first -> False) ->
    (forall h, In (otlptrace.WithHeaders h) first -> False) ->
    let opts :=
      (otlptrace.WithEndpoint endpoint :: first
         ++ [otlptrace.WithHeaders {[
               "Authorization" := "Basic " +:+ Config.BasicAuth config;
               "stream-name" := stream ]}])
      ++ (if Config.IsSecure config then [] else [otlptrace.WithInsecure]) in
    List.filter (fun o => match o with otlptrace.WithEndpoint _ => true | _ => false end)
      first = [] ->
    List.filter (fun o => match o with otlptrace.WithHeaders _ => true | _ => false end)
      first = [] ->
    otlptrace.WithEndpoint endpoint ∈ opts /\
    (forall ep, otlptrace.WithEndpoint ep ∈ opts -> ep = endpoint) /\
    length (List.filter
              (fun o => match o with otlptrace.WithEndpoint _ => true | _ => false end)
              opts) = 1%nat /\
    exists headers,
      otlptrace.WithHeaders headers ∈ opts /\
      (forall h, otlptrace.WithHeaders h ∈ opts -> h = headers) /\
      length (List.filter
                (fun o => match o with otlptrace.WithHeaders _ => true | _ => false end)
                opts) = 1%nat /\
      headers !! "stream-name" = Some stream).
  { intros first Hep Hh opts Hfe Hfh. subst opts.
    split.
    { apply elem_of_app. left. apply elem_of_cons. by left. }
    split.
    { intros ep Hin. apply list_elem_of_In in Hin.
      rewrite in_app_iff in Hin. cbn [In] in Hin. rewrite in_app_iff in Hin.
      cbn [In] in Hin.
      destruct Hin as [[Hin|[Hin|[Hin|[]]]]|Hin].
      - by injection Hin.
      - by apply Hep in Hin.
      - done.
      - destruct (Config.IsSecure config); cbn [In] in Hin; intuition discriminate. }
    split.
    { rewrite !List.filter_app. cbn [List.filter app]. rewrite List.filter_app, Hfe.
      by destruct (Config.IsSecure config). }
    eexists. split.
    { apply elem_of_app. left. apply elem_of_cons. right. apply elem_of_app. right.
      apply elem_of_cons. by left. }
    split.
    { intros h Hin. apply list_elem_of_In in Hin.
      rewrite in_app_iff in Hin. cbn [In] in Hin. rewrite in_app_iff in Hin.
      cbn [In] in Hin.
      destruct Hin as [[Hin|[Hin|[Hin|[]]]]|Hin].
      - done.
      - by apply Hh in Hin.
      - by injection Hin.
      - destruct (Config.IsSecure config); cbn [In] in Hin; intuition discriminate. }
    split.
    { rewrite !List.filter_app. cbn [List.filter app]. rewrite List.filter_app, Hfh.
      by destruct (Config.IsSecure config). }
    apply stream_name_header. }
  split; [|split].
  - split; [reflexivity|]. cbn [otlptrace.options].
    apply (Hasked [otlptrace.WithURLPath "/api/default/v1/traces"]); try reflexivity;
      intros ? Hin; cbn [In] in Hin; intuition discriminate.
  - split; [reflexivity|]. cbn [otlptrace.options].
    apply (Hasked []); try reflexivity; intros ? Hin; cbn [In] in Hin; done.
  - intros w uses. subst uses. cbv beta. rewrite Hendpoint, Hstream in Hhttp, Hgrpc. split.
    + eexists. unfold after. rewrite Hhttp. cbn [fst snd].
      split; [reflexivity|]. split; reflexivity.
    + eexists. unfold after. rewrite Hgrpc. cbn [fst snd].
      split; [reflexivity|]. split; reflexivity.
Qed.

(** *** The traced store operations *)

Section WrapperProperties.
Context {Any InsertOneOptions FindOneOptions FindOptions UpdateOptions DeleteOptions : Type}.
Context {InsertOneResult SingleResult Cursor UpdateResult DeleteResult : Type}.
Variable Err : SingleResult -> error.

Abbreviation Collection :=
  (@mongo.Collection Any InsertOneOptions FindOneOptions FindOptions UpdateOptions
     DeleteOptions InsertOneResult SingleResult Cursor UpdateResult DeleteResult).

(** The shape the five operations share: start the span, defer its end, call
    the driver, hand the error of its answer to [handleError], return the
    answer. *)
Lemma traced_run {A} (c : Collection) (ctx : context.Context) (op : string)
    (driver : context.Context -> M A) (err_of : A -> error)
    (body : trace.Span -> A -> M A) (w : World) :
  (forall span a w', body span a w' = (mongo.handleError span (err_of a) ;; mret a) w') ->
  let span : trace.Span := length (log w) in
  let started :=
    trace.Started span (mongo.tracer c) ctx ("MongoDB." +:+ op) [
      trace.WithAttributes [
        attribute.String "db.system" "mongodb";
        attribute.String "db.name" (mongo.DatabaseName (mongo.coll c));
        attribute.String "db.collection" (mongo.Name (mongo.coll c));
        attribute.String "db.operation" op]] in
  let r := driver (context.WithSpan span ctx) (set_log (fun l => l ++ [started]) w) in
  ('(ctx, span) ← mongo.startSpan c ctx op;
   defer (span.End_ span) (driver ctx ≫= body span)) w
  = (r.1,
     set_log (fun l => l ++ map (trace.Called span) (wrapper_calls (outcome_map err_of r.1)))
       r.2).
Proof.
  intros Hbody span started r. subst r.
  unfold mongo.startSpan, mbind, M_bind, tracer.Start, defer, span.End_, span.call, modify.
  cbn beta iota. fold span. fold started.
  destruct (driver _ _) as [[a|v] w2]; cbn [fst snd outcome_map wrapper_calls];
    [|reflexivity].
  rewrite Hbody.
  unfold mongo.handleError, mbind, M_bind, mret, M_ret, span.SetStatus, span.RecordError,
    span.call, modify.
  destruct (err_of a) as [e|]; cbn beta iota; destruct w2; unfold set_log;
    cbn [log ectx propagator provider stdout entropy drawn clock ticks exporterError];
    do 2 f_equal; rewrite <- ?app_assoc; reflexivity.
Qed.

(** What follows from that shape for the span of the operation. *)
Lemma traced_spec {A} (run : M A) (r : Outcome A * World) (err_of : A -> error)
    (span : trace.Span) (w : World) :
  run w = (r.1,
           set_log (fun l => l ++ map (trace.Called span)
                      (wrapper_calls (outcome_map err_of r.1))) r.2) ->
  exists calls,
    outcome run w = r.1 /\
    log (after run w) = log r.2 ++ map (trace.Called span) calls /\
    length (List.filter is_End calls) = 1%nat /\
    last calls = Some trace.End_ /\
    (forall a e, r.1 = Return a -> err_of a = Some e ->
       calls = [trace.SetStatus codes.Error (err_text e); trace.RecordError (Some e);
                trace.End_] /\
       span_status span (log (after run w)) = (codes.Error, err_text e) /\
       recorded_errors span (log (after run w)) = recorded_errors span (log r.2) ++ [e]) /\
    (forall a, r.1 = Return a -> err_of a = None ->
       calls = [trace.SetStatus codes.Ok ""; trace.End_] /\
       span_status span (log (after run w)) = (codes.Ok, "") /\
       recorded_errors span (log (after run w)) = recorded_errors span (log r.2)).
Proof.
  intros Hrun. exists (wrapper_calls (outcome_map err_of r.1)).
  unfold outcome, after. rewrite Hrun. cbn [fst snd]. rewrite log_set_log.
  split; [done|]. split; [done|].
  split. { by destruct r.1 as [a|v]; simpl; [destruct (err_of a)|]. }
  split. { by destruct r.1 as [a|v]; simpl; [destruct (err_of a)|]. }
  split.
  - intros a e -> He. simpl. rewrite He. split; [done|].
    rewrite span_status_called. unfold recorded_errors.
    rewrite calls_on_app, calls_on_called, error_calls_app. done.
  - intros a -> He. simpl. rewrite He. split; [done|].
    rewrite span_status_called. unfold recorded_errors.
    rewrite calls_on_app, calls_on_called, error_calls_app. simpl. by rewrite app_nil_r.
Qed.

(** C6: each of the five operations of the wrapper starts one span named
    [MongoDB.<Operation>] (with the store's attributes), calls the driver
    with the context of that span, and returns what the driver returned,
    result and error unchanged.  After the driver the wrapper makes on the
    span: for an error, [SetStatus(Error, text)], [RecordError(err)] and
    [End]; for no error, [SetStatus(Ok, "")] and [End], recording nothing;
    so the span is ended once, last, in either case (and when the driver
    panics). *)
Theorem operations_traced (c : Collection) (ctx : context.Context)
    (document filter update : Any)
    (oi : list InsertOneOptions) (o1 : list FindOneOptions) (of_ : list FindOptions)
    (ou : list UpdateOptions) (od : list DeleteOptions) (w : World) :
  let span : trace.Span := length (log w) in
  let traced (A : Type) (op : string) (run : M A) (driver : context.Context -> M A)
             (err_of : A -> error) :=
    let started :=
      trace.Started span (mongo.tracer c) ctx ("MongoDB." +:+ op) [
        trace.WithAttributes [
          attribute.String "db.system" "mongodb";
          attribute.String "db.name" (mongo.DatabaseName (mongo.coll c));
          attribute.String "db.collection" (mongo.Name (mongo.coll c));
          attribute.String "db.operation" op]] in
    let r := driver (context.WithSpan span ctx) (set_log (fun l => l ++ [started]) w) in
    exists calls,
      outcome run w = r.1 /\
      log (after run w) = log r.2 ++ map (trace.Called span) calls /\
      length (List.filter is_End calls) = 1%nat /\
      last calls = Some trace.End_ /\
      (forall a e, r.1 = Return a -> err_of a = Some e ->
         calls = [trace.SetStatus codes.Error (err_text e); trace.RecordError (Some e);
                  trace.End_] /\
         span_status span (log (after run w)) = (codes.Error, err_text e) /\
         recorded_errors span (log (after run w)) = recorded_errors span (log r.2) ++ [e]) /\
      (forall a, r.1 = Return a -> err_of a = None ->
         calls = [trace.SetStatus codes.Ok ""; trace.End_] /\
         span_status span (log (after run w)) = (codes.Ok, "") /\
         recorded_errors span (log (after run w)) = recorded_errors span (log r.2)) in
  traced _ "InsertOne" (mongo.InsertOne c ctx document oi)
    (fun ctx' => mongo.coll_InsertOne (mongo.coll c) ctx' document oi) snd /\
  traced _ "FindOne" (mongo.FindOne Err c ctx filter o1)
    (fun ctx' => mongo.coll_FindOne (mongo.coll c) ctx' filter o1) Err /\
  traced _ "Find" (mongo.Find c ctx filter of_)
    (fun ctx' => mongo.coll_Find (mongo.coll c) ctx' filter of_) snd /\
  traced _ "UpdateOne" (mongo.UpdateOne c ctx filter update ou)
    (fun ctx' => mongo.coll_UpdateOne (mongo.coll c) ctx' filter update ou) snd /\
  traced _ "DeleteOne" (mongo.DeleteOne c ctx filter od)
    (fun ctx' => mongo.coll_DeleteOne (mongo.coll c) ctx' filter od) snd.
Proof.
  intros span traced. subst traced. cbv beta zeta.
  repeat split_and; apply traced_spec.
  - apply (traced_run c ctx "InsertOne"
             (fun ctx' => mongo.coll_InsertOne (mongo.coll c) ctx' document oi) snd
             (fun span '(result, err) => mongo.handleError span err ;; mret (result, err))).
    by intros s [result err] w'.
  - apply (traced_run c ctx "FindOne"
             (fun ctx' => mongo.coll_FindOne (mongo.coll c) ctx' filter o1) Err
             (fun span result => mongo.handleError span (Err result) ;; mret result)).
    done.
  - apply (traced_run c ctx "Find"
             (fun ctx' => mongo.coll_Find (mongo.coll c) ctx' filter of_) snd
             (fun span '(cursor, err) => mongo.handleError span err ;; mret (cursor, err))).
    by intros s [cursor err] w'.
  - apply (traced_run c ctx "UpdateOne"
             (fun ctx' => mongo.coll_UpdateOne (mongo.coll c) ctx' filter update ou) snd
             (fun span '(result, err) => mongo.handleError span err ;; mret (result, err))).
    by intros s [result err] w'.
  - apply (traced_run c ctx "DeleteOne"
             (fun ctx' => mongo.coll_DeleteOne (mongo.coll c) ctx' filter od) snd
             (fun span '(result, err) => mongo.handleError span err ;; mret (result, err))).
    by intros s [result err] w'.
Qed.
End WrapperProperties.

(** *** The claims that fail, on concrete requests *)

(** C4, as stated, fails: a request arrives with [X-Request-ID: abc-123], the
    handler returns nil without writing a response, and the response has no
    [X-Request-ID] header: its headers are as empty as before.  (With the
    header absent the same request gets a generated id in the response.) *)
Lemma supplied_request_id_not_echoed :
  http.Get (echo.Header (echo.request (ectx (with_request_id "abc-123" idle)))) "X-Request-ID"
    = "abc-123" /\
  (forall key, exists mw,
     OtelMiddleware key bare_config idle = (Return mw, idle) /\
     let w' := after (mw (returning None)) (with_request_id "abc-123" idle) in
     outcome (mw (returning None)) (with_request_id "abc-123" idle) = Return None /\
     http.Get (echo.RespHeader (echo.response (ectx w'))) "X-Request-ID" = "" /\
     echo.RespHeader (echo.response (ectx w')) = ∅) /\
  (forall key, exists mw,
     OtelMiddleware key bare_config idle = (Return mw, idle) /\
     http.Get (echo.RespHeader (echo.response (ectx (after (mw (returning None)) idle))))
       "X-Request-ID"
     = "00000000-0000-4000-8000-000000000000").
Proof.
  split; [by vm_compute|].
  split; intros key; eexists; (split; [reflexivity|]); by vm_compute.
Qed.

(** C8, as stated, fails: the handler returns an error, and the request span
    ends without the attributes [http.response_content_length] and
    [http.response_content_type]; with a handler that returns nil the same
    request has both. *)
Lemma failed_request_without_response_attributes :
  (forall key, exists mw,
     OtelMiddleware key bare_config idle = (Return mw, idle) /\
     let boom := {| err_id := 1; err_text := "boom" |} in
     let w' := after (mw (returning (Some boom))) idle in
     outcome (mw (returning (Some boom))) idle = Return (Some boom) /\
     span_attributes 0%nat (log w') !! "http.response_content_length" = None /\
     span_attributes 0%nat (log w') !! "http.response_content_type" = None /\
     span_attributes 0%nat (log w') !! "error.message" = Some (attribute.STRING "boom") /\
     recorded_errors 0%nat (log w') = [boom] /\
     times_ended 0%nat (log w') = 1%nat) /\
  (forall key, exists mw,
     OtelMiddleware key bare_config idle = (Return mw, idle) /\
     let w' := after (mw (returning None)) idle in
     span_attributes 0%nat (log w') !! "http.response_content_length"
       = Some (attribute.INT64 0) /\
     span_attributes 0%nat (log w') !! "http.response_content_type"
       = Some (attribute.STRING "") /\
     times_ended 0%nat (log w') = 1%nat).
Proof.
  split; intros key; eexists; (split; [reflexivity|]); by vm_compute.
Qed.

(** *** The packages at work on concrete inputs *)

Example StartSpan_returns_the_error :
  let carrier := {| Tracer := otel.Tracer "users"; RequestCtx := context.Background |} in
  let failed := {| err_id := 3; err_text := "no rows" |} in
  StartSpan carrier "CreateUser" (fun _ span => span.RecordError span (Some failed) ;;
                                                mret (Some failed)) idle
  = (Return (Some failed),
     set_log (fun _ => [
       trace.Started 0%nat (otel.Tracer "users") context.Background "CreateUser" [];
       trace.Called 0%nat (trace.RecordError (Some failed));
       trace.Called 0%nat trace.End_]) idle).
Proof. reflexivity. Qed.

Example StartSpan_ends_the_span_of_a_panic :
  let carrier := {| Tracer := otel.Tracer "users"; RequestCtx := context.Background |} in
  StartSpan carrier "CreateUser" (fun _ _ => panic "index out of range") idle
  = (Panic "index out of range",
     set_log (fun _ => [
       trace.Started 0%nat (otel.Tracer "users") context.Background "CreateUser" [];
       trace.Called 0%nat trace.End_]) idle).
Proof. reflexivity. Qed.

Example InsertOne_on_a_failing_store :
  mongo.InsertOne failing_store context.Background "ada" [] idle
  = (Return (0%nat, Some duplicate_key),
     set_log (fun _ => [
       trace.Started 0%nat (otel.Tracer "mongodb") context.Background "MongoDB.InsertOne" [
         trace.WithAttributes [
           attribute.String "db.system" "mongodb";
           attribute.String "db.name" "userdb";
           attribute.String "db.collection" "users";
           attribute.String "db.operation" "InsertOne"]];
       trace.Called 0%nat (trace.SetStatus codes.Error "duplicate key");
       trace.Called 0%nat (trace.RecordError (Some duplicate_key));
       trace.Called 0%nat trace.End_]) idle).
Proof. reflexivity. Qed.

Example InitTracerHTTP_on_a_bare_config :
  sdktrace.batcher <$> provider (after (InitTracerHTTP bare_config) idle)
  = Some (Some {| otlptrace.transport := otlptrace.HTTP;
                  otlptrace.options := [
                    otlptrace.WithEndpoint "127.0.0.1:5081";
                    otlptrace.WithURLPath "/api/default/v1/traces";
                    otlptrace.WithHeaders {[ "Authorization" := "Basic ";
                                             "stream-name" := "default" ]};
                    otlptrace.WithInsecure] |}).
Proof. reflexivity. Qed.

Example canonical_request_id_key :
  http.CanonicalMIMEHeaderKey "X-Request-ID" = "X-Request-Id" /\
  http.Get (http.Set_ ∅ "X-Request-ID" "abc-123") "x-request-id" = "abc-123".
Proof. by vm_compute. Qed.

Example uuid_of_all_ones :
  uuid.String (uuid.NewRandom (-1)) = "ffffffff-ffff-4fff-bfff-ffffffffffff".
Proof. by vm_compute. Qed.

(** A failed request whose handler wrote no response: the status of the
    response is still 200, so the span of the request is set to Ok while it
    carries the error. *)
Example failed_request_with_unwritten_response :
  let boom := {| err_id := 1; err_text := "boom" |} in
  let h := tracedHandler "trace-context" bare_config (otel.Tracer "users") propagation.NoOp
             (returning (Some boom)) in
  span_status 0%nat (log (after h idle)) = (codes.Ok, "Success") /\
  recorded_errors 0%nat (log (after h idle)) = [boom] /\
  span_name 0%nat (log (after h idle)) = Some "/users".
Proof. by vm_compute. Qed.

(** ** Beyond the claims *)

(** *** TraceError and TraceSuccess *)

(** The record [TraceError] applies, with the end time it reads. *)
Lemma TraceError_run span err w :
  let data := TraceData.set_EndTime (clock w (ticks w))
                (TraceData.set_Error err (TraceData.set_StatusCode 400 TraceData.zero)) in
  TraceError span err w
  = match err with
    | Some e =>
        (Return tt,
         set_log (fun l => l ++ map (trace.Called span)
                    (calls_of data ++ [trace.RecordError err;
                                       trace.SetStatus codes.Error (err_text e)]))
           (set_ticks (S (ticks w)) w))
    | None =>
        (Panic "runtime error: invalid memory address or nil pointer dereference",
         set_log (fun l => l ++ map (trace.Called span)
                    (calls_of data ++ [trace.RecordError err]))
           (set_ticks (S (ticks w)) w))
    end.
Proof.
  intros data. unfold TraceError, time_Now, mbind, M_bind. cbn beta iota.
  rewrite AddTraceAttributes_run. fold data.
  unfold span.RecordError, span.SetStatus, span.call, modify, panic. cbn beta iota.
  destruct err as [e|]; destruct w; unfold set_log, set_ticks;
    cbn [log ectx propagator provider stdout entropy drawn clock ticks exporterError];
    do 2 f_equal; rewrite ?map_app, <- ?app_assoc; reflexivity.
Qed.

Lemma TraceSuccess_run span w :
  let data := TraceData.set_EndTime (clock w (ticks w))
                (TraceData.set_StatusCode 200 TraceData.zero) in
  TraceSuccess span w
  = (Return tt,
     set_log (fun l => l ++ map (trace.Called span)
                (calls_of data ++ [trace.SetStatus codes.Ok "Success"]))
       (set_ticks (S (ticks w)) w)).
Proof.
  intros data. unfold TraceSuccess, time_Now, mbind, M_bind. cbn beta iota.
  rewrite AddTraceAttributes_run. fold data.
  unfold span.SetStatus, span.call, modify. cbn beta iota.
  destruct w; unfold set_log, set_ticks;
    cbn [log ectx propagator provider stdout entropy drawn clock ticks exporterError];
    do 2 f_equal; rewrite ?map_app, <- ?app_assoc; reflexivity.
Qed.

Lemma log_set_ticks n w : log (set_ticks n w) = log w.
Proof. by destruct w. Qed.

(** The values [attributes_of] gives to its fourteen fixed keys. *)
Lemma attributes_of_fixed_last_value data :
  last_value "user.id" (attributes_of data) = Some (attribute.STRING (TraceData.UserID data)) /\
  last_value "request.id" (attributes_of data)
    = Some (attribute.STRING (TraceData.RequestID data)) /\
  last_value "service.name" (attributes_of data)
    = Some (attribute.STRING (TraceData.ServiceName data)) /\
  last_value "environment" (attributes_of data)
    = Some (attribute.STRING (TraceData.Environment data)) /\
  last_value "version" (attributes_of data) = Some (attribute.STRING (TraceData.Version data)) /\
  last_value "region" (attributes_of data) = Some (attribute.STRING (TraceData.Region data)) /\
  last_value "action" (attributes_of data) = Some (attribute.STRING (TraceData.Action data)) /\
  last_value "resource" (attributes_of data)
    = Some (attribute.STRING (TraceData.Resource data)) /\
  last_value "status.code" (attributes_of data)
    = Some (attribute.INT64 (TraceData.StatusCode data)) /\
  last_value "client.ip" (attributes_of data)
    = Some (attribute.STRING (TraceData.ClientIP data)) /\
  last_value "user.agent" (attributes_of data)
    = Some (attribute.STRING (TraceData.UserAgent data)) /\
  last_value "request.size" (attributes_of data)
    = Some (attribute.INT64 (TraceData.RequestSize data)) /\
  last_value "response.size" (attributes_of data)
    = Some (attribute.INT64 (TraceData.ResponseSize data)) /\
  last_value "duration.ms" (attributes_of data)
    = Some (attribute.FLOAT64 (TraceData.Duration data)).
Proof.
  unfold attributes_of.
  destruct (time.IsZero (TraceData.StartTime data)),
           (time.IsZero (TraceData.EndTime data)),
           (TraceData.Error data); by repeat split.
Qed.

Lemma sdk_status_after_Ok st d : sdk_status_after st (trace.SetStatus codes.Ok d) = (codes.Ok, "").
Proof. by destruct st as [[] ?]. Qed.

Lemma sdk_status_after_Error st d :
  st.1 ≠ codes.Ok -> sdk_status_after st (trace.SetStatus codes.Error d) = (codes.Error, d).
Proof. by destruct st as [[] ?]. Qed.

Lemma sdk_status_after_calls_of_400 (data : TraceData.t) st :
  TraceData.StatusCode data = 400 ->
  exists d,
    status_calls (calls_of data) = [(codes.Error, d)] /\
    foldl sdk_status_after st (calls_of data)
    = sdk_status_after st (trace.SetStatus codes.Error d) /\
    d = match TraceData.Error data with Some e => err_text e | None => "Unknown error" end.
Proof.
  intros Hcode. unfold calls_of, status_of. rewrite Hcode.
  rewrite decide_True by done. rewrite (decide_False (P := 400 = http.StatusOK)) by done.
  destruct (TraceData.Error data) as [e|]; eexists; repeat split; reflexivity.
Qed.

(** X1: [TraceError] with an error returns; it asks for the status Error with
    the text of the error twice (once through the record, once itself),
    records the error once, sets [status.code] 400 and [error.message], and
    reads the clock once.  On the span the status then is Error with that
    text, unless the span was Ok before: a span that is Ok stays Ok. *)
Theorem TraceError_marks_the_span (span : trace.Span) (e : ErrorValue) (w : World) :
  let w' := after (TraceError span (Some e)) w in
  outcome (TraceError span (Some e)) w = Return tt /\
  status_calls (calls_on span (added (TraceError span (Some e)) w))
    = [(codes.Error, err_text e); (codes.Error, err_text e)] /\
  ((sdk_span_status span (log w)).1 ≠ codes.Ok ->
     sdk_span_status span (log w') = (codes.Error, err_text e)) /\
  ((sdk_span_status span (log w)).1 = codes.Ok ->
     sdk_span_status span (log w') = sdk_span_status span (log w)) /\
  recorded_errors span (log w') = recorded_errors span (log w) ++ [e] /\
  span_attributes span (log w') !! "status.code" = Some (attribute.INT64 400) /\
  span_attributes span (log w') !! "error.message" = Some (attribute.STRING (err_text e)) /\
  ticks w' = S (ticks w).
Proof.
  intros w'. subst w'. unfold outcome, after, added, after.
  rewrite TraceError_run. cbn [fst snd]. rewrite log_set_log, log_set_ticks.
  set (data := TraceData.set_EndTime _ _).
  destruct (sdk_status_after_calls_of_400 data (sdk_span_status span (log w)) eq_refl)
    as (d & Hcalls & Hsdk & ->).
  cbn [data TraceData.Error TraceData.set_EndTime TraceData.set_Error] in Hcalls, Hsdk.
  split; [done|].
  split. { rewrite drop_app_length, calls_on_called.
           unfold status_calls in *. rewrite omap_app, Hcalls. done. }
  split. { intros Hst. rewrite sdk_span_status_called, foldl_app, Hsdk. cbn [foldl].
           rewrite (sdk_status_after_Error _ _ Hst). done. }
  split. { intros Hst. rewrite sdk_span_status_called, foldl_app, Hsdk. cbn [foldl].
           destruct (sdk_span_status span (log w)) as [code d]. cbn [fst] in Hst. subst code.
           done. }
  split. { unfold recorded_errors.
           by rewrite calls_on_app, calls_on_called, !error_calls_app, error_calls_calls_of. }
  rewrite span_attributes_called, foldl_app, attributes_after_calls_of.
  cbn [foldl attributes_after]. rewrite !foldl_put_lookup.
  destruct (attributes_of_last_value data) as (_ & _ & -> & -> & _).
  split; [done|]. split; [done|]. by destruct w.
Qed.

(** X2: [TraceError] with a nil error panics (it asks nil for its text).  By
    then it has asked once for the status Error with the text "Unknown error"
    (so the span is Error with that text unless it was Ok before, and an Ok
    span stays Ok), set [status.code] 400 and left [error.message] alone; no
    error is recorded, and its own [SetStatus] is never reached. *)
Theorem TraceError_of_nil_panics (span : trace.Span) (w : World) :
  let w' := after (TraceError span None) w in
  (exists v, outcome (TraceError span None) w = Panic v) /\
  status_calls (calls_on span (added (TraceError span None) w))
    = [(codes.Error, "Unknown error")] /\
  ((sdk_span_status span (log w)).1 ≠ codes.Ok ->
     sdk_span_status span (log w') = (codes.Error, "Unknown error")) /\
  ((sdk_span_status span (log w)).1 = codes.Ok ->
     sdk_span_status span (log w') = sdk_span_status span (log w)) /\
  span_attributes span (log w') !! "status.code" = Some (attribute.INT64 400) /\
  span_attributes span (log w') !! "error.message"
    = span_attributes span (log w) !! "error.message" /\
  recorded_errors span (log w') = recorded_errors span (log w).
Proof.
  intros w'. subst w'. unfold outcome, after, added, after.
  rewrite TraceError_run. cbn [fst snd]. rewrite log_set_log, log_set_ticks.
  set (data := TraceData.set_EndTime _ _).
  destruct (sdk_status_after_calls_of_400 data (sdk_span_status span (log w)) eq_refl)
    as (d & Hcalls & Hsdk & ->).
  cbn [data TraceData.Error TraceData.set_EndTime TraceData.set_Error] in Hcalls, Hsdk.
  split; [by eexists|].
  split. { rewrite drop_app_length, calls_on_called.
           unfold status_calls in *. rewrite omap_app, Hcalls. done. }
  split. { intros Hst. rewrite sdk_span_status_called, foldl_app, Hsdk. cbn [foldl].
           rewrite (sdk_status_after_Error _ _ Hst). done. }
  split. { intros Hst. rewrite sdk_span_status_called, foldl_app, Hsdk. cbn [foldl].
           destruct (sdk_span_status span (log w)) as [code d]. cbn [fst] in Hst. subst code.
           done. }
  rewrite span_attributes_called, foldl_app, attributes_after_calls_of.
  cbn [foldl attributes_after]. rewrite !foldl_put_lookup.
  destruct (attributes_of_last_value data) as (_ & _ & -> & -> & _).
  split; [done|]. split; [done|].
  unfold recorded_errors.
  rewrite calls_on_app, calls_on_called, !error_calls_app, error_calls_calls_of.
  simpl. by rewrite app_nil_r.
Qed.

(** X3: [TraceSuccess] returns; it asks for the status Ok with the text
    "Success" twice (once through the record, once itself), after which the
    span is Ok whatever it was before, with no description: a span keeps a
    description for Error only.  It sets [status.code] 200, records no
    error, and never sets [error.message]: one a failure left stays. *)
Theorem TraceSuccess_marks_the_span (span : trace.Span) (w : World) :
  let w' := after (TraceSuccess span) w in
  outcome (TraceSuccess span) w = Return tt /\
  status_calls (calls_on span (added (TraceSuccess span) w))
    = [(codes.Ok, "Success"); (codes.Ok, "Success")] /\
  sdk_span_status span (log w') = (codes.Ok, "") /\
  span_attributes span (log w') !! "status.code" = Some (attribute.INT64 200) /\
  span_attributes span (log w') !! "error.message"
    = span_attributes span (log w) !! "error.message" /\
  recorded_errors span (log w') = recorded_errors span (log w).
Proof.
  intros w'. subst w'. unfold outcome, after, added, after.
  rewrite TraceSuccess_run. cbn [fst snd]. rewrite log_set_log, log_set_ticks.
  set (data := TraceData.set_EndTime _ _).
  split; [done|].
  split. { rewrite drop_app_length, calls_on_called.
           unfold status_calls. rewrite omap_app. unfold calls_of, status_of. by simpl. }
  split. { rewrite sdk_span_status_called, foldl_app. cbn [foldl].
           apply sdk_status_after_Ok. }
  rewrite span_attributes_called, foldl_app, attributes_after_calls_of.
  cbn [foldl attributes_after]. rewrite !foldl_put_lookup.
  destruct (attributes_of_last_value data) as (_ & _ & -> & -> & _).
  split; [done|]. split; [done|].
  unfold recorded_errors.
  rewrite calls_on_app, calls_on_called, !error_calls_app, error_calls_calls_of.
  simpl. by rewrite app_nil_r.
Qed.


(** X4: [TraceError] and [TraceSuccess] apply a record that holds only a status
    code, an end time and the error, so they overwrite what the span carried
    under the other thirteen fixed keys: the ten texts become empty, the two
    sizes and the duration zero. *)
Theorem terminal_helpers_blank_the_enrichment (span : trace.Span) (e : ErrorValue)
    (w : World) :
  let blank (m : gmap string attribute.Value) :=
    m !! "user.id" = Some (attribute.STRING "") /\
    m !! "request.id" = Some (attribute.STRING "") /\
    m !! "service.name" = Some (attribute.STRING "") /\
    m !! "environment" = Some (attribute.STRING "") /\
    m !! "version" = Some (attribute.STRING "") /\
    m !! "region" = Some (attribute.STRING "") /\
    m !! "action" = Some (attribute.STRING "") /\
    m !! "resource" = Some (attribute.STRING "") /\
    m !! "client.ip" = Some (attribute.STRING "") /\
    m !! "user.agent" = Some (attribute.STRING "") /\
    m !! "request.size" = Some (attribute.INT64 0) /\
    m !! "response.size" = Some (attribute.INT64 0) /\
    m !! "duration.ms" = Some (attribute.FLOAT64 0) in
  blank (span_attributes span (log (after (TraceSuccess span) w))) /\
  blank (span_attributes span (log (after (TraceError span (Some e)) w))).
Proof.
  intros blank. subst blank. cbv beta. unfold after.
  rewrite TraceSuccess_run, TraceError_run. cbn [fst snd].
  rewrite !log_set_log, !log_set_ticks, !span_attributes_called, !foldl_app,
    !attributes_after_calls_of.
  cbn [foldl attributes_after].
  split.
  - set (data := TraceData.set_EndTime _ _).
    destruct (attributes_of_fixed_last_value data)
      as (H1 & H2 & H3 & H4 & H5 & H6 & H7 & H8 & _ & H10 & H11 & H12 & H13 & H14).
    repeat split; rewrite foldl_put_lookup;
      first [rewrite H1|rewrite H2|rewrite H3|rewrite H4|rewrite H5|rewrite H6|rewrite H7
            |rewrite H8|rewrite H10|rewrite H11|rewrite H12|rewrite H13|rewrite H14]; done.
  - set (data := TraceData.set_EndTime _ _).
    destruct (attributes_of_fixed_last_value data)
      as (H1 & H2 & H3 & H4 & H5 & H6 & H7 & H8 & _ & H10 & H11 & H12 & H13 & H14).
    repeat split; rewrite foldl_put_lookup;
      first [rewrite H1|rewrite H2|rewrite H3|rewrite H4|rewrite H5|rewrite H6|rewrite H7
            |rewrite H8|rewrite H10|rewrite H11|rewrite H12|rewrite H13|rewrite H14]; done.
Qed.

(** X5: a span first marked by [TraceError] and then by [TraceSuccess] ends
    with status Ok (also under the SDK's precedence of statuses), and still
    carries the [error.message] of the failure and its recorded error. *)
Theorem TraceSuccess_after_TraceError (span : trace.Span) (e : ErrorValue) (w : World) :
  let w1 := after (TraceError span (Some e)) w in
  let w2 := after (TraceSuccess span) w1 in
  outcome (TraceSuccess span) w1 = Return tt /\
  span_status span (log w2) = (codes.Ok, "Success") /\
  sdk_span_status span (log w2) = (codes.Ok, "") /\
  span_attributes span (log w2) !! "status.code" = Some (attribute.INT64 200) /\
  span_attributes span (log w2) !! "error.message" = Some (attribute.STRING (err_text e)) /\
  recorded_errors span (log w2) = recorded_errors span (log w) ++ [e].
Proof.
  intros w1 w2. subst w2 w1. unfold outcome, after.
  rewrite TraceSuccess_run. cbn [fst snd]. rewrite log_set_log, log_set_ticks.
  rewrite TraceError_run. cbn [fst snd]. rewrite log_set_log, log_set_ticks.
  set (failed := TraceData.set_EndTime _ (TraceData.set_Error _ _)).
  set (succeeded := TraceData.set_EndTime _ (TraceData.set_StatusCode 200 _)).
  split; [done|].
  split. { rewrite span_status_called, foldl_app. done. }
  split. { rewrite sdk_span_status_called, foldl_app. cbn [foldl].
           apply sdk_status_after_Ok. }
  rewrite !span_attributes_called, !foldl_app, !attributes_after_calls_of.
  cbn [foldl attributes_after]. rewrite !foldl_put_lookup.
  destruct (attributes_of_last_value succeeded) as (_ & _ & -> & -> & _).
  destruct (attributes_of_last_value failed) as (_ & _ & _ & -> & _).
  split; [done|]. split; [done|].
  unfold recorded_errors.
  rewrite !calls_on_app, !calls_on_called, !error_calls_app, !error_calls_calls_of.
  simpl. by rewrite app_nil_r.
Qed.

(** *** More of the middleware *)

Section MiddlewareBeyond.
Variable TraceContextKey : string.

Lemma OtelMiddleware_finished config w0 :
  exists mw,
    OtelMiddleware TraceContextKey config w0 = (Return mw, w0) /\
    forall (next : HandlerFunc) w,
      mw next w
      = finished (length (log w)) (first_record config w)
          (next (handed_over TraceContextKey config (service_tracer config)
                   (propagator w0) w)).
Proof.
  unfold OtelMiddleware, service_tracer.
  case_decide as Hname; eexists; (split; [reflexivity|]); intros next w;
    rewrite tracedHandler_handed_over; reflexivity.
Qed.


(** X6: the request span is named by the route: the path the router matched,
    or "HTTP <method> route not found" when it matched none.  The name is
    never empty, so the second fallback of the source, "HTTP <method>", is
    never used; the same text is the span's [http.route] and [resource]. *)
Theorem request_span_named_by_route (config : Config.t) (w0 : World) :
  exists mw,
    OtelMiddleware TraceContextKey config w0 = (Return mw, w0) /\
    forall (next : HandlerFunc) (w : World),
      let span : trace.Span := length (log w) in
      let W := handed_over TraceContextKey config (service_tracer config) (propagator w0) w in
      let mine := drop (length (log w)) (log W) in
      let route :=
        if decide (echo.path (ectx w) = "")
        then "HTTP " +:+ echo.Method (echo.request (ectx w)) +:+ " route not found"
        else echo.path (ectx w) in
      mw next w = finished span (first_record config w) (next W) /\
      span_name span mine = Some route /\
      route ≠ "" /\
      span_attributes span mine !! "http.route" = Some (attribute.STRING route) /\
      span_attributes span mine !! "resource" = Some (attribute.STRING route).
Proof.
  destruct (OtelMiddleware_finished config w0) as (mw & Hmw & Hrun).
  exists mw. split; [exact Hmw|]. intros next w span W mine route.
  split; [apply Hrun|].
  destruct (log_handed_over TraceContextKey config (service_tracer config) (propagator w0) w)
    as (ctx & opts & Hlog & Hattrs).
  fold W span in Hlog. subst mine. rewrite Hlog, drop_app_length.
  fold (route_of w) in route. subst route.
  split. { simpl. by rewrite decide_True. }
  split; [unfold route_of; by case_decide|].
  rewrite span_attributes_started, attributes_after_calls_of, !foldl_put_lookup, Hattrs.
  destruct (attributes_of_fixed_last_value (first_record config w))
    as (_ & _ & _ & _ & _ & _ & _ & Hres & _).
  rewrite Hres. split; [|done].
  assert (Hnone : last_value "http.route" (attributes_of (first_record config w)) = None).
  { unfold attributes_of. cbn.
    by destruct (time.IsZero (clock w (ticks w))). }
  rewrite Hnone. reflexivity.
Qed.

(** X7: before it calls the handler the middleware stores the carrier under
    its key: the tracer named after the service ("default" when the config
    names none) and the context of the request span, which is also the
    context the request now carries and is built on the context extracted
    from the request's headers.  Nothing else of the request or the store
    changes. *)
Theorem carrier_published (config : Config.t) (w0 : World) :
  exists mw,
    OtelMiddleware TraceContextKey config w0 = (Return mw, w0) /\
    forall (next : HandlerFunc) (w : World),
      let span : trace.Span := length (log w) in
      let W := handed_over TraceContextKey config (service_tracer config) (propagator w0) w in
      let req := echo.request (ectx w) in
      let ctx := context.WithSpan span
                   (context.Extracted (propagator w0) (echo.Header req) (echo.Ctx req)) in
      mw next w = finished span (first_record config w) (next W) /\
      echo.store (ectx W) !! TraceContextKey
        = Some (echo.OfTraceContext
                  {| Tracer := otel.Tracer (if decide (Config.ServiceName config = "")
                                            then "default" else Config.ServiceName config);
                     RequestCtx := ctx |}) /\
      echo.request (ectx W) = echo.WithContext req ctx /\
      (forall k, k ≠ TraceContextKey -> echo.store (ectx W) !! k = echo.store (ectx w) !! k).
Proof.
  destruct (OtelMiddleware_finished config w0) as (mw & Hmw & Hrun).
  exists mw. split; [exact Hmw|]. intros next w span W req ctx.
  split; [apply Hrun|]. subst W. cbn [handed_over ectx echo.store echo.request].
  split; [apply lookup_insert_eq|]. split; [done|].
  intros k Hk. by apply lookup_insert_ne.
Qed.

(** X8: when the handler panics the middleware passes the panic on, and all
    it still does is end the request span: it applies no record, sets no
    status and records no error. *)
Theorem handler_panic_passed_on (config : Config.t) (w0 : World) :
  exists mw,
    OtelMiddleware TraceContextKey config w0 = (Return mw, w0) /\
    forall (next : HandlerFunc) (w : World),
      let span : trace.Span := length (log w) in
      let W := handed_over TraceContextKey config (service_tracer config) (propagator w0) w in
      forall v, (next W).1 = Panic v ->
        mw next w
        = (Panic v, set_log (fun l => l ++ [trace.Called span trace.End_]) (next W).2) /\
        span_status span (log (after (mw next) w)) = span_status span (log (next W).2) /\
        span_attributes span (log (after (mw next) w))
          = span_attributes span (log (next W).2) /\
        recorded_errors span (log (after (mw next) w))
          = recorded_errors span (log (next W).2) /\
        times_ended span (log (after (mw next) w))
          = S (times_ended span (log (next W).2)).
Proof.
  destruct (OtelMiddleware_finished config w0) as (mw & Hmw & Hrun).
  exists mw. split; [exact Hmw|]. intros next w span W v Hv.
  unfold after. rewrite Hrun. fold W span. unfold finished. rewrite Hv.
  cbn [final_calls map snd]. split; [done|].
  rewrite log_set_log.
  change [trace.Called span trace.End_] with (map (trace.Called span) [trace.End_]).
  rewrite span_status_called, span_attributes_called.
  unfold recorded_errors, times_ended.
  rewrite calls_on_app, calls_on_called, error_calls_app, List.filter_app, length_app.
  simpl. rewrite app_nil_r. repeat split; try done. lia.
Qed.
(** X9: how the middleware marks the request span once the handler has
    returned depends on the status of the response alone.  With status 200
    the span is set to Ok "Success", also when the handler returned an error
    (a handler that fails before it writes leaves 200); with status 0 no
    status is set; with any other status the span is set to Error, with the
    text of the handler's error or "Unknown error" when it returned none. *)
Theorem request_span_status_follows_response (config : Config.t) (w0 : World) :
  exists mw,
    OtelMiddleware TraceContextKey config w0 = (Return mw, w0) /\
    forall (next : HandlerFunc) (w : World),
      let span : trace.Span := length (log w) in
      let W := handed_over TraceContextKey config (service_tracer config) (propagator w0) w in
      let code := echo.Status (echo.response (ectx (next W).2)) in
      let w' := after (mw next) w in
      let set := status_calls (calls_on span (drop (length (log (next W).2)) (log w'))) in
      forall err, (next W).1 = Return err ->
        outcome (mw next) w = Return err /\
        (code = 200 -> set = [(codes.Ok, "Success")] /\
                       span_status span (log w') = (codes.Ok, "Success")) /\
        (code = 0 -> set = [] /\
                     span_status span (log w') = span_status span (log (next W).2)) /\
        (code ≠ 200 -> code ≠ 0 ->
           let text := match err with Some e => err_text e | None => "Unknown error" end in
           set = [(codes.Error, text)] /\
           span_status span (log w') = (codes.Error, text)).
Proof.
  destruct (OtelMiddleware_finished config w0) as (mw & Hmw & Hrun).
  exists mw. split; [exact Hmw|]. intros next w span W code w' set err Herr.
  subst set w'. unfold outcome, after. rewrite Hrun. fold W span. unfold finished.
  rewrite Herr. cbn [fst snd]. rewrite log_set_log, drop_app_length, calls_on_called.
  rewrite span_status_called. fold code.
  split; [done|].
  assert (Hcalls : exists data rest,
    final_calls (first_record config w) (Return err) (echo.response (ectx (next W).2))
      = calls_of data ++ rest /\
    status_calls rest = [] /\ (forall st, foldl status_after st rest = st) /\
    TraceData.StatusCode data = code /\ TraceData.Error data = err).
  { unfold final_calls. destruct err as [e|]; eexists _, _; by repeat split. }
  destruct Hcalls as (data & rest & -> & Hrest & Hfold & Hcode & Herror).
  unfold status_calls in *. rewrite omap_app, Hrest, app_nil_r, foldl_app, Hfold.
  rewrite status_after_calls_of. unfold calls_of, status_of. rewrite Hcode, Herror.
  unfold http.StatusOK.
  repeat split; intros; repeat case_decide; try lia; try done; by destruct err.
Qed.

(** X10: when the handler has returned, the middleware applies its own
    record once more, so whatever the handler put on the request span under
    the record's fixed keys is overwritten: [service.name] is "echo-server"
    whatever the config names, [user.id], [client.ip] and [user.agent] are
    empty, the sizes and the duration are zero, and [request.id], [action],
    [resource] and [environment] are what the middleware settled before the
    handler ran. *)
Theorem finalize_overwrites_the_record_keys (config : Config.t) (w0 : World) :
  exists mw,
    OtelMiddleware TraceContextKey config w0 = (Return mw, w0) /\
    forall (next : HandlerFunc) (w : World),
      let span : trace.Span := length (log w) in
      let W := handed_over TraceContextKey config (service_tracer config) (propagator w0) w in
      let m := span_attributes span (log (after (mw next) w)) in
      forall err, (next W).1 = Return err ->
        m !! "user.id" = Some (attribute.STRING "") /\
        m !! "request.id" = Some (attribute.STRING (request_id w)) /\
        m !! "service.name" = Some (attribute.STRING "echo-server") /\
        m !! "environment" = Some (attribute.STRING (Config.Environment config)) /\
        m !! "version" = Some (attribute.STRING "1.0.0") /\
        m !! "region" = Some (attribute.STRING "local") /\
        m !! "action" = Some (attribute.STRING (echo.Method (echo.request (ectx w)))) /\
        m !! "resource" = Some (attribute.STRING (route_of w)) /\
        m !! "client.ip" = Some (attribute.STRING "") /\
        m !! "user.agent" = Some (attribute.STRING "") /\
        m !! "request.size" = Some (attribute.INT64 0) /\
        m !! "response.size" = Some (attribute.INT64 0) /\
        m !! "duration.ms" = Some (attribute.FLOAT64 0).
Proof.
  destruct (OtelMiddleware_finished config w0) as (mw & Hmw & Hrun).
  exists mw. split; [exact Hmw|]. intros next w span W m err Herr.
  subst m. unfold after. rewrite Hrun. fold W span. unfold finished.
  rewrite Herr. cbn [fst snd]. rewrite log_set_log.
  assert (Hcalls : exists data rest,
    final_calls (first_record config w) (Return err) (echo.response (ectx (next W).2))
      = calls_of data ++ rest /\
    (forall k v, last_value k (attributes_of data) = Some v ->
       forall m0, foldl attributes_after (foldl put m0 (attributes_of data)) rest !! k
                  = Some v) /\
    TraceData.UserID data = "" /\ TraceData.RequestID data = request_id w /\
    TraceData.ServiceName data = "echo-server" /\
    TraceData.Environment data = Config.Environment config /\
    TraceData.Version data = "1.0.0" /\ TraceData.Region data = "local" /\
    TraceData.Action data = echo.Method (echo.request (ectx w)) /\
    TraceData.Resource data = route_of w /\
    TraceData.ClientIP data = "" /\ TraceData.UserAgent data = "" /\
    TraceData.RequestSize data = 0 /\ TraceData.ResponseSize data = 0 /\
    TraceData.Duration data = 0).
  { unfold final_calls. destruct err as [e|]; eexists _, _;
      (split; [reflexivity|]); (split; [|by repeat split]).
    - intros k v Hk m0. cbn [foldl attributes_after]. by rewrite foldl_put_lookup, Hk.
    - intros k v Hk m0. cbn [foldl attributes_after].
      unfold put at 1 2. cbn [attribute.Key attribute.Val attribute.Int attribute.String].
      assert (k ≠ "http.response_content_length" /\ k ≠ "http.response_content_type")
        as [Hk1 Hk2].
      { destruct (attributes_of_last_value
                    (TraceData.set_StatusCode
                       (echo.Status (echo.response (ectx (next W).2)))
                       (first_record config w))) as (_ & _ & _ & _ & Hl & Ht).
        split; intros ->; congruence. }
      rewrite !lookup_insert_ne by done. by rewrite foldl_put_lookup, Hk. }
  destruct Hcalls as (data & rest & -> & Hkeep & H1 & H2 & H3 & H4 & H5 & H6 & H7 & H8
                      & H10 & H11 & H12 & H13 & H14).
  rewrite span_attributes_called, foldl_app, attributes_after_calls_of.
  destruct (attributes_of_fixed_last_value data)
    as (L1 & L2 & L3 & L4 & L5 & L6 & L7 & L8 & _ & L10 & L11 & L12 & L13 & L14).
  rewrite H1 in L1. rewrite H2 in L2. rewrite H3 in L3. rewrite H4 in L4. rewrite H5 in L5.
  rewrite H6 in L6. rewrite H7 in L7. rewrite H8 in L8. rewrite H10 in L10.
  rewrite H11 in L11. rewrite H12 in L12. rewrite H13 in L13. rewrite H14 in L14.
  repeat split; by apply Hkeep.
Qed.

(** X11: the request span starts with ten attributes read off the request,
    and no record the middleware applies carries one of their keys: once the
    handler is done, the middleware leaves each of the ten as the handler
    left it. *)
Theorem start_attributes_kept (config : Config.t) (w0 : World) :
  exists mw,
    OtelMiddleware TraceContextKey config w0 = (Return mw, w0) /\
    forall (next : HandlerFunc) (w : World),
      let span : trace.Span := length (log w) in
      let W := handed_over TraceContextKey config (service_tracer config) (propagator w0) w in
      let req := echo.request (ectx w) in
      let first := span_attributes span (drop (length (log w)) (log W)) in
      first !! "http.method" = Some (attribute.STRING (echo.Method req)) /\
      first !! "http.target" = Some (attribute.STRING (echo.URL_Path req)) /\
      first !! "http.host" = Some (attribute.STRING (echo.Host req)) /\
      first !! "http.scheme" = Some (attribute.STRING (echo.URL_Scheme req)) /\
      first !! "http.flavor" = Some (attribute.STRING (echo.Proto req)) /\
      first !! "http.client_ip" = Some (attribute.STRING (echo.realIP (ectx w))) /\
      first !! "http.user_agent"
        = Some (attribute.STRING (http.Get (echo.Header req) "User-Agent")) /\
      first !! "http.request_content_length"
        = Some (attribute.INT64 (echo.ContentLength req)) /\
      first !! "http.request_id" = Some (attribute.STRING (request_id w)) /\
      (forall k,
         k ∈ ["http.method"; "http.target"; "http.route"; "http.host"; "http.scheme";
              "http.flavor"; "http.client_ip"; "http.user_agent";
              "http.request_content_length"; "http.request_id"] ->
         span_attributes span (log (after (mw next) w)) !! k
         = span_attributes span (log (next W).2) !! k).
Proof.
  destruct (OtelMiddleware_finished config w0) as (mw & Hmw & Hrun).
  exists mw. split; [exact Hmw|]. intros next w span W req first.
  assert (Hnone : forall data k,
    k ∈ ["http.method"; "http.target"; "http.route"; "http.host"; "http.scheme";
         "http.flavor"; "http.client_ip"; "http.user_agent";
         "http.request_content_length"; "http.request_id"] ->
    last_value k (attributes_of data) = None).
  { intros data k Hk. apply last_value_None. intros Hin.
    apply list_elem_of_In in Hk. apply list_elem_of_In in Hin.
    unfold attributes_of in Hin.
    destruct (time.IsZero (TraceData.StartTime data)),
             (time.IsZero (TraceData.EndTime data)),
             (TraceData.Error data); simpl in Hk, Hin;
      intuition (subst; discriminate). }
  destruct (log_handed_over TraceContextKey config (service_tracer config) (propagator w0) w)
    as (ctx & opts & Hlog & Hattrs).
  fold W span in Hlog. subst first. rewrite Hlog, drop_app_length.
  rewrite span_attributes_started, attributes_after_calls_of, Hattrs.
  repeat split;
    try (rewrite foldl_put_lookup, Hnone by (apply list_elem_of_In; simpl; tauto); done).
  intros k Hk. unfold after. rewrite Hrun. fold W span. unfold finished.
  cbn [snd]. rewrite log_set_log, span_attributes_called.
  unfold final_calls. destruct ((next W).1) as [[e|]|v].
  - rewrite foldl_app, attributes_after_calls_of. cbn [foldl attributes_after].
    by rewrite foldl_put_lookup, Hnone.
  - rewrite foldl_app, attributes_after_calls_of. cbn [foldl attributes_after].
    unfold put at 1 2. cbn [attribute.Key attribute.Val attribute.Int attribute.String].
    apply list_elem_of_In in Hk as Hk'. simpl in Hk'.
    rewrite !lookup_insert_ne by (intros <-; intuition discriminate).
    by rewrite foldl_put_lookup, Hnone.
  - done.
Qed.
End MiddlewareBeyond.

Lemma run_bind {A B} (m : M A) (f : A -> M B) w :
  (m ≫= f) w
  = match m w with
    | (Return a, w') => f a w'
    | (Panic v, w') => (Panic v, w')
    end.
Proof. reflexivity. Qed.


(** *** The example handlers under the middleware *)

Section HandlersBeyond.
Variable TraceContextKey : string.

Lemma asTraceContext_run tc w :
  asTraceContext (Some (echo.OfTraceContext tc)) w = (Return tc, w).
Proof. reflexivity. Qed.

(** X12: a handler that takes the carrier out of the Echo context and runs
    its work with [StartSpan], as [CreateUser] does, finds the carrier when
    it runs behind the middleware: its span is started by the service's
    tracer under the context of the request span, handed to the work, and
    ended before the middleware applies its last record and ends the request
    span; the outcome of the work is the outcome of the request. *)
Theorem carrier_span_inside_request_span (config : Config.t) (w0 : World)
    (operation : string) (fn : context.Context -> trace.Span -> M error) :
  exists mw,
    OtelMiddleware TraceContextKey config w0 = (Return mw, w0) /\
    forall (w : World),
      let span : trace.Span := length (log w) in
      let W := handed_over TraceContextKey config (service_tracer config) (propagator w0) w in
      let child : trace.Span := length (log W) in
      let ctx := context.WithSpan span
                   (context.Extracted (propagator w0) (echo.Header (echo.request (ectx w)))
                      (echo.Ctx (echo.request (ectx w)))) in
      let started := trace.Started child (service_tracer config) ctx operation [] in
      let r := fn (context.WithSpan child ctx) child (set_log (fun l => l ++ [started]) W) in
      (span < child)%nat /\
      mw (inCarrierSpan TraceContextKey operation fn) w
      = (r.1,
         set_log (fun l => l ++ trace.Called child trace.End_
                    :: map (trace.Called span)
                         (final_calls (first_record config w) r.1
                            (echo.response (ectx r.2)))) r.2).
Proof.
  destruct (OtelMiddleware_finished TraceContextKey config w0) as (mw & Hmw & Hrun).
  exists mw. split; [exact Hmw|]. intros w span W child ctx started r.
  split.
  { subst child W span. cbn [handed_over log]. rewrite length_app. simpl. lia. }
  rewrite Hrun. fold W span.
  assert (Hin : inCarrierSpan TraceContextKey operation fn W
                = (r.1, set_log (fun l => l ++ [trace.Called child trace.End_]) r.2)).
  { unfold inCarrierSpan, mbind, M_bind at 1 2, c.Get, gets.
    assert (Hget : echo.store (ectx W) !! TraceContextKey
                   = Some (echo.OfTraceContext
                             {| Tracer := service_tracer config; RequestCtx := ctx |})).
    { subst W. cbn [handed_over ectx echo.store]. apply lookup_insert_eq. }
    rewrite Hget, asTraceContext_run.
    pose proof (StartSpan_run {| Tracer := service_tracer config; RequestCtx := ctx |}
                  operation fn W) as Hs.
    cbv zeta in Hs. cbn [Tracer RequestCtx] in Hs. exact Hs. }
  unfold finished. rewrite Hin. cbn [fst snd].
  f_equal. apply world_ext; rewrite ?log_set_log, ?ectx_set_log;
    try (by destruct r.2). by rewrite <- app_assoc.
Qed.

(** X13: the same handler without the middleware in front (nothing is
    stored under the key) panics at its type assertion before it starts a
    span: the world is left as it was. *)
Theorem carrier_missing_panics (operation : string)
    (fn : context.Context -> trace.Span -> M error) (w : World) :
  echo.store (ectx w) !! TraceContextKey = None ->
  after (inCarrierSpan TraceContextKey operation fn) w = w /\
  exists v, outcome (inCarrierSpan TraceContextKey operation fn) w = Panic v.
Proof.
  intros Hnone. unfold after, outcome, inCarrierSpan, mbind, M_bind, c.Get, gets.
  rewrite Hnone. cbn. split; [done|]. by eexists.
Qed.
End HandlersBeyond.

Lemma carrier_missing_panics_witness :
  echo.store (ectx idle) !! "trace-context" = None /\
  after (inCarrierSpan "trace-context" "CreateUser" (fun _ _ => mret None)) idle = idle /\
  exists v, outcome (inCarrierSpan "trace-context" "CreateUser" (fun _ _ => mret None)) idle
            = Panic v.
Proof.
  split; [reflexivity|].
  apply (carrier_missing_panics "trace-context" "CreateUser" (fun _ _ => mret None) idle).
  reflexivity.
Defined.


(** *** ListUsers *)

Section ListUsersProperties.
Variable TraceContextKey : string.
Context {Any InsertOneOptions FindOneOptions FindOptions UpdateOptions DeleteOptions : Type}.
Context {InsertOneResult SingleResult Cursor UpdateResult DeleteResult : Type}.
Context {User : Type}.
Variable bsonM_empty : Any.
Variable cursor_Close : Cursor -> context.Context -> M error.
Variable cursor_All : Cursor -> context.Context -> M (list User * error).
Variable NewHTTPError : Z -> string -> ErrorValue.
Variable JSON : Z -> list User -> M error.

Abbreviation Handler :=
  (@UserHandler Any InsertOneOptions FindOneOptions FindOptions UpdateOptions
     DeleteOptions InsertOneResult SingleResult Cursor UpdateResult DeleteResult).
Abbreviation listUsers :=
  (ListUsers bsonM_empty cursor_Close cursor_All NewHTTPError JSON).

Lemma ListUsers_after_Find (h : Handler) (w : World) :
  listUsers h w
  = match mongo.Find (collection h) (echo.Ctx (echo.request (ectx w))) bsonM_empty [] w with
    | (Return (cursor, Some e), w2) => (Return (Some (NewHTTPError 500 (err_text e))), w2)
    | (Return (cursor, None), w2) =>
        defer (cursor_Close cursor (echo.Ctx (echo.request (ectx w2))) ;; mret tt)
          (req ← c.Request;
           '(users, err) ← cursor_All cursor (echo.Ctx req);
           match err with
           | Some e => mret (Some (NewHTTPError 500 (err_text e)))
           | None => JSON 200 users
           end) w2
    | (Panic v, w2) => (Panic v, w2)
    end.
Proof.
  unfold ListUsers. rewrite run_bind. cbn [c.Request gets]. rewrite run_bind.
  destruct (mongo.Find _ _ _ _ _) as [[[cursor [e|]]|v] w2]; try reflexivity.
Qed.

(** X14: when the traced [Find] fails, [ListUsers] returns the HTTP error
    500 with the text of the store's error and does nothing more: the world
    is as the wrapper left it, the cursor is neither read nor closed and no
    response is written.  A panic of [Find] is passed on likewise. *)
Theorem ListUsers_find_failure (h : Handler) (w : World) :
  let r := mongo.Find (collection h) (echo.Ctx (echo.request (ectx w))) bsonM_empty [] w in
  (forall cursor e, r.1 = Return (cursor, Some e) ->
     listUsers h w = (Return (Some (NewHTTPError 500 (err_text e))), r.2)) /\
  (forall v, r.1 = Panic v -> listUsers h w = (Panic v, r.2)).
Proof.
  intros r. rewrite ListUsers_after_Find. fold r.
  split.
  - intros cursor e Hr. destruct r as [o w2]. simpl in Hr. by subst o.
  - intros v Hr. destruct r as [o w2]. simpl in Hr. by subst o.
Qed.

(** X15: once [Find] has given a cursor, [ListUsers] closes it on every
    path: after [All] failed, after the response was written, and when one
    of the two panicked.  The cursor is read and closed under the context the
    request carried when [Find] returned; the error of [Close] is dropped,
    and only a panic of [Close] changes the outcome. *)
Theorem ListUsers_closes_the_cursor (h : Handler) (w : World) :
  let r := mongo.Find (collection h) (echo.Ctx (echo.request (ectx w))) bsonM_empty [] w in
  forall cursor, r.1 = Return (cursor, None) ->
    let ctx := echo.Ctx (echo.request (ectx r.2)) in
    let a := cursor_All cursor ctx r.2 in
    let body :=
      match a.1 with
      | Return (users, None) => JSON 200 users a.2
      | Return (_, Some e) => (Return (Some (NewHTTPError 500 (err_text e))), a.2)
      | Panic v => (Panic v, a.2)
      end in
    let closed := cursor_Close cursor ctx body.2 in
    listUsers h w
    = (match closed.1 with Return _ => body.1 | Panic v => Panic v end, closed.2).
Proof.
  intros r cursor Hr ctx a body closed.
  rewrite ListUsers_after_Find. fold r.
  destruct r as [o w2] eqn:Er. simpl in Hr. subst o. cbn [snd] in ctx, a.
  cbv beta iota. unfold defer. rewrite run_bind. cbn [c.Request gets]. fold ctx.
  rewrite run_bind. fold a. subst closed body.
  destruct a as [[[users [e|]]|v] w3]; cbn [fst snd].
  - unfold mret, M_ret. rewrite run_bind. by destruct (cursor_Close _ _ _) as [[?|?] ?].
  - destruct (JSON 200 users w3) as [oj wj]. cbn [fst snd].
    rewrite run_bind. by destruct (cursor_Close _ _ _) as [[?|?] ?].
  - rewrite run_bind. by destruct (cursor_Close _ _ _) as [[?|?] ?].
Qed.

(** X16: behind the middleware [ListUsers] hands [Find] the context of the
    request span, so the span of the store operation is started under the
    request span.  When the driver's [Find] fails, the wrapper marks and ends
    its span, [ListUsers] answers with the HTTP error 500 that carries the
    driver's text, and the middleware applies its last record, records that
    HTTP error on the request span, ends the span and returns the error. *)
Theorem ListUsers_behind_the_middleware (config : Config.t) (w0 : World) (h : Handler) :
  exists mw,
    OtelMiddleware TraceContextKey config w0 = (Return mw, w0) /\
    forall (w : World),
      let span : trace.Span := length (log w) in
      let W := handed_over TraceContextKey config (service_tracer config) (propagator w0) w in
      let ctx := context.WithSpan span
                   (context.Extracted (propagator w0) (echo.Header (echo.request (ectx w)))
                      (echo.Ctx (echo.request (ectx w)))) in
      let find : trace.Span := length (log W) in
      let started :=
        trace.Started find (mongo.tracer (collection h)) ctx "MongoDB.Find" [
          trace.WithAttributes [
            attribute.String "db.system" "mongodb";
            attribute.String "db.name" (mongo.DatabaseName (mongo.coll (collection h)));
            attribute.String "db.collection" (mongo.Name (mongo.coll (collection h)));
            attribute.String "db.operation" "Find"]] in
      let d := mongo.coll_Find (mongo.coll (collection h)) (context.WithSpan find ctx)
                 bsonM_empty [] (set_log (fun l => l ++ [started]) W) in
      forall cursor e, d.1 = Return (cursor, Some e) ->
        let failed := NewHTTPError 500 (err_text e) in
        mw (listUsers h) w
        = (Return (Some failed),
           set_log (fun l => l
              ++ map (trace.Called find) [
                   trace.SetStatus codes.Error (err_text e);
                   trace.RecordError (Some e);
                   trace.End_]
              ++ map (trace.Called span)
                   (calls_of (TraceData.set_StatusCode
                                (echo.Status (echo.response (ectx d.2)))
                                (TraceData.set_Error (Some failed) (first_record config w)))
                    ++ [trace.RecordError (Some failed); trace.End_])) d.2).
Proof.
  destruct (OtelMiddleware_finished TraceContextKey config w0) as (mw & Hmw & Hrun).
  exists mw. split; [exact Hmw|]. intros w span W ctx find started d cursor e Hd failed.
  rewrite Hrun. fold W span.
  assert (Hfind : mongo.Find (collection h) ctx bsonM_empty [] W
                  = (d.1, set_log (fun l => l ++ map (trace.Called find)
                                     (wrapper_calls (outcome_map snd d.1))) d.2)).
  { apply (traced_run (A := Cursor * error) (collection h) ctx "Find"
             (fun ctx' => mongo.coll_Find (mongo.coll (collection h)) ctx' bsonM_empty [])
             snd
             (fun span '(cursor, err) => mongo.handleError span err ;; mret (cursor, err))).
    by intros s [c0 e0] w'. }
  rewrite Hd in Hfind.
  cbn [outcome_map snd wrapper_calls] in Hfind.
  assert (Hlist : listUsers h W
                  = (Return (Some failed),
                     set_log (fun l => l ++ map (trace.Called find) [
                        trace.SetStatus codes.Error (err_text e);
                        trace.RecordError (Some e);
                        trace.End_]) d.2)).
  { rewrite ListUsers_after_Find.
    change (echo.Ctx (echo.request (ectx W))) with ctx.
    rewrite Hfind. reflexivity. }
  unfold finished. rewrite Hlist. cbn [fst snd final_calls].
  f_equal. rewrite ectx_set_log.
  apply world_ext; rewrite ?log_set_log, ?ectx_set_log; try (by destruct d.2).
  by rewrite <- app_assoc.
Qed.
End ListUsersProperties.

Lemma ListUsers_closes_the_cursor_witness :
  (mongo.Find listing_store (echo.Ctx (echo.request (ectx idle))) "" [] idle).1
  = Return (0%nat, None) /\
  (ListUsers "" (fun _ _ => mret None) (fun _ _ => mret ([5%nat], None))
     (fun code text => {| err_id := 0; err_text := text |}) (fun _ _ => mret None)
     {| collection := listing_store |} idle).1
  = Return None.
Proof.
  split; [reflexivity|].
  rewrite (ListUsers_closes_the_cursor "" (fun _ _ => mret None)
             (fun _ _ => mret ([5%nat], None))
             (fun code text => {| err_id := 0; err_text := text |}) (fun _ _ => mret None)
             {| collection := listing_store |} idle 0%nat eq_refl).
  reflexivity.
Defined.

(** *** The command monitor of the MongoDB client *)

Section MonitorProperties.
Variable remote : propagation.TextMapPropagator -> http.Header -> bool.
Variable newErrorId : string -> nat.
Context {Any InsertOneOptions FindOneOptions FindOptions UpdateOptions DeleteOptions : Type}.
Context {InsertOneResult SingleResult Cursor UpdateResult DeleteResult : Type}.

Abbreviation monitor := (mongo.commandMonitor remote newErrorId).
Abbreviation StoreCollection :=
  (@mongo.Collection Any InsertOneOptions FindOneOptions FindOptions UpdateOptions
     DeleteOptions InsertOneResult SingleResult Cursor UpdateResult DeleteResult).

Lemma on_span_run span call w :
  mongo.on (Some span) call w = (Return tt, set_log (fun l => l ++ [trace.Called span call]) w).
Proof. reflexivity. Qed.

Lemma set_log_set_log f g w : set_log f (set_log g w) = set_log (fun l => f (g l)) w.
Proof. reflexivity. Qed.



(** X18: the monitor reports the duration of a succeeded command in whole
    milliseconds, rounded towards zero: a command that took [n] nanoseconds,
    with [ms] full milliseconds in them, leaves [db.duration_ms = ms] on the
    span its context carries (0 for everything under a millisecond). *)
Theorem succeeded_command_whole_milliseconds (ctx : context.Context) (span : trace.Span)
    (n ms : Z) (w : World) :
  mongo.SpanFromContext remote ctx = Some span ->
  (0 <= n)%Z ->
  (1000000 * ms <= n < 1000000 * (ms + 1))%Z ->
  let run := mongo.event.Succeeded monitor ctx {| mongo.event.DurationNanos := n |} in
  outcome run w = Return tt /\
  span_attributes span (log (after run w)) !! "db.duration_ms"
  = Some (attribute.INT64 ms) /\
  (forall key, key ≠ "db.duration_ms" ->
     span_attributes span (log (after run w)) !! key = span_attributes span (log w) !! key) /\
  span_status span (log (after run w)) = span_status span (log w).
Proof.
  intros Hspan Hn Hms run. subst run.
  unfold outcome, after. cbn [mongo.commandMonitor mongo.event.Succeeded].
  rewrite Hspan, on_span_run. cbn [fst snd]. rewrite log_set_log.
  change [trace.Called span ?c] with (map (trace.Called span) [c]).
  rewrite span_attributes_called, span_status_called.
  cbn [foldl attributes_after status_after]. unfold put.
  cbn [attribute.Int64 attribute.Key attribute.Val mongo.event.DurationNanos].
  assert (n ÷ 1000000 = ms)%Z as ->.
  { symmetry. apply (Z.quot_unique n 1000000 ms (n - 1000000 * ms)); lia. }
  split; [done|]. split; [apply lookup_insert_eq|]. split; [|done].
  intros key Hkey. by rewrite lookup_insert_ne.
Qed.

(** X19: under a context that carries no recording span (none at all, or
    only the span of a remote parent) the three hooks of the monitor change
    nothing: no call on any span, nothing printed. *)
Theorem monitor_without_span (ctx : context.Context)
    (started : mongo.event.CommandStartedEvent)
    (succeeded : mongo.event.CommandSucceededEvent)
    (failed : mongo.event.CommandFailedEvent) (w : World) :
  mongo.SpanFromContext remote ctx = None ->
  mongo.event.Started monitor ctx started w = (Return tt, w) /\
  mongo.event.Succeeded monitor ctx succeeded w = (Return tt, w) /\
  mongo.event.Failed monitor ctx failed w = (Return tt, w).
Proof.
  intros Hspan. cbn [mongo.commandMonitor mongo.event.Started mongo.event.Succeeded
    mongo.event.Failed]. rewrite Hspan. done.
Qed.
End MonitorProperties.

(** *** The wrappers when the driver panics *)

Section WrapperBeyond.
Context {Any InsertOneOptions FindOneOptions FindOptions UpdateOptions DeleteOptions : Type}.
Context {InsertOneResult SingleResult Cursor UpdateResult DeleteResult : Type}.
Variable Err : SingleResult -> error.

Abbreviation WrappedCollection :=
  (@mongo.Collection Any InsertOneOptions FindOneOptions FindOptions UpdateOptions
     DeleteOptions InsertOneResult SingleResult Cursor UpdateResult DeleteResult).

(** X20: when the driver panics, each of the five operations passes the
    panic on; its deferred [End] is the only call it makes on its span, so
    the span is ended with the status it had: the wrapper sets none and
    records no error. *)
Theorem driver_panic_only_ends_the_span (c : WrappedCollection) (ctx : context.Context)
    (document filter update : Any)
    (oi : list InsertOneOptions) (o1 : list FindOneOptions) (of_ : list FindOptions)
    (ou : list UpdateOptions) (od : list DeleteOptions) (w : World) :
  let span : trace.Span := length (log w) in
  let passes (A : Type) (op : string) (run : M A) (driver : context.Context -> M A) :=
    let started :=
      trace.Started span (mongo.tracer c) ctx ("MongoDB." +:+ op) [
        trace.WithAttributes [
          attribute.String "db.system" "mongodb";
          attribute.String "db.name" (mongo.DatabaseName (mongo.coll c));
          attribute.String "db.collection" (mongo.Name (mongo.coll c));
          attribute.String "db.operation" op]] in
    let d := driver (context.WithSpan span ctx) (set_log (fun l => l ++ [started]) w) in
    forall v, d.1 = Panic v ->
      run w = (Panic v, set_log (fun l => l ++ [trace.Called span trace.End_]) d.2) /\
      span_status span (log (after run w)) = span_status span (log d.2) /\
      recorded_errors span (log (after run w)) = recorded_errors span (log d.2) in
  passes _ "InsertOne" (mongo.InsertOne c ctx document oi)
    (fun ctx' => mongo.coll_InsertOne (mongo.coll c) ctx' document oi) /\
  passes _ "FindOne" (mongo.FindOne Err c ctx filter o1)
    (fun ctx' => mongo.coll_FindOne (mongo.coll c) ctx' filter o1) /\
  passes _ "Find" (mongo.Find c ctx filter of_)
    (fun ctx' => mongo.coll_Find (mongo.coll c) ctx' filter of_) /\
  passes _ "UpdateOne" (mongo.UpdateOne c ctx filter update ou)
    (fun ctx' => mongo.coll_UpdateOne (mongo.coll c) ctx' filter update ou) /\
  passes _ "DeleteOne" (mongo.DeleteOne c ctx filter od)
    (fun ctx' => mongo.coll_DeleteOne (mongo.coll c) ctx' filter od).
Proof.
  intros span passes. subst passes. cbv beta zeta.
  assert (Hpanic : forall (A : Type) (run : M A) (r : Outcome A * World) (err_of : A -> error),
    run w = (r.1, set_log (fun l => l ++ map (trace.Called span)
                             (wrapper_calls (outcome_map err_of r.1))) r.2) ->
    forall v, r.1 = Panic v ->
      run w = (Panic v, set_log (fun l => l ++ [trace.Called span trace.End_]) r.2) /\
      span_status span (log (after run w)) = span_status span (log r.2) /\
      recorded_errors span (log (after run w)) = recorded_errors span (log r.2)).
  { intros A run r err_of Hrun v Hv. unfold after. rewrite Hrun, Hv.
    cbn [fst snd outcome_map wrapper_calls map]. rewrite log_set_log.
    split; [done|].
    change [trace.Called span trace.End_] with (map (trace.Called span) [trace.End_]).
    rewrite span_status_called. unfold recorded_errors.
    rewrite calls_on_app, calls_on_called, error_calls_app. cbn. by rewrite app_nil_r. }
  repeat split_and.
  - apply (Hpanic _ _ _ snd).
    apply (traced_run c ctx "InsertOne"
             (fun ctx' => mongo.coll_InsertOne (mongo.coll c) ctx' document oi) snd
             (fun span '(result, err) => mongo.handleError span err ;; mret (result, err))).
    by intros s [result err] w'.
  - apply (Hpanic _ _ _ Err).
    apply (traced_run c ctx "FindOne"
             (fun ctx' => mongo.coll_FindOne (mongo.coll c) ctx' filter o1) Err
             (fun span result => mongo.handleError span (Err result) ;; mret result)).
    done.
  - apply (Hpanic _ _ _ snd).
    apply (traced_run c ctx "Find"
             (fun ctx' => mongo.coll_Find (mongo.coll c) ctx' filter of_) snd
             (fun span '(cursor, err) => mongo.handleError span err ;; mret (cursor, err))).
    by intros s [cursor err] w'.
  - apply (Hpanic _ _ _ snd).
    apply (traced_run c ctx "UpdateOne"
             (fun ctx' => mongo.coll_UpdateOne (mongo.coll c) ctx' filter update ou) snd
             (fun span '(result, err) => mongo.handleError span err ;; mret (result, err))).
    by intros s [result err] w'.
  - apply (Hpanic _ _ _ snd).
    apply (traced_run c ctx "DeleteOne"
             (fun ctx' => mongo.coll_DeleteOne (mongo.coll c) ctx' filter od) snd
             (fun span '(result, err) => mongo.handleError span err ;; mret (result, err))).
    by intros s [result err] w'.
Qed.
End WrapperBeyond.

(** *** The MongoDB client *)

Section ClientProperties.
Variable remote : propagation.TextMapPropagator -> http.Header -> bool.
Variable newErrorId : string -> nat.
Context {DriverClient : Type}.

Abbreviation newClient := (mongo.NewClient remote newErrorId).

(** X21: [NewClient] starts by connecting, under its context and the
    config's timeout, with options that carry the config's URI, pool sizes
    and idle time; the credentials only when the username and the password are
    both non-empty (one without the other is dropped without an error); the
    command monitor and the pool monitor each when its switch is on. *)
Theorem NewClient_connects_with (ctx : context.Context) (cfg : mongo.Config.t) :
  exists opts : mongo.options.ClientOptions,
    mongo.options.URI opts = Some (mongo.Config.URI cfg) /\
    mongo.options.MinPoolSize opts = Some (mongo.Config.MinPoolSize cfg) /\
    mongo.options.MaxPoolSize opts = Some (mongo.Config.MaxPoolSize cfg) /\
    mongo.options.MaxConnIdleTime opts = Some (mongo.Config.MaxConnIdleTime cfg) /\
    mongo.options.Auth opts
    = (if decide (mongo.Config.Username cfg = "" \/ mongo.Config.Password cfg = "")
       then None
       else Some {| mongo.options.Username := mongo.Config.Username cfg;
                    mongo.options.Password := mongo.Config.Password cfg |}) /\
    mongo.options.Monitor opts
    = (if mongo.APMConfig.EnableCommandMonitor (mongo.Config.APMConfig cfg)
       then Some (mongo.commandMonitor remote newErrorId) else None) /\
    mongo.options.PoolMonitor opts
    = (if mongo.APMConfig.EnablePoolMonitor (mongo.Config.APMConfig cfg)
       then Some mongo.poolMonitor else None) /\
    forall Ping : DriverClient -> context.Context -> Z -> M error,
    exists rest,
      forall (Connect : context.Context -> Z -> mongo.options.ClientOptions ->
                        M (option DriverClient * error)) (w : World),
        newClient Connect Ping ctx cfg w
        = (Connect ctx (mongo.Config.Timeout cfg) opts ≫= rest) w.
Proof.
  eexists. repeat split_and; cycle 7.
  - intros Ping. eexists. intros Connect w. unfold mongo.NewClient. reflexivity.
  - by destruct (decide (_ /\ _)), (mongo.APMConfig.EnableCommandMonitor _),
      (mongo.APMConfig.EnablePoolMonitor _).
  - by destruct (decide (_ /\ _)), (mongo.APMConfig.EnableCommandMonitor _),
      (mongo.APMConfig.EnablePoolMonitor _).
  - by destruct (decide (_ /\ _)), (mongo.APMConfig.EnableCommandMonitor _),
      (mongo.APMConfig.EnablePoolMonitor _).
  - by destruct (decide (_ /\ _)), (mongo.APMConfig.EnableCommandMonitor _),
      (mongo.APMConfig.EnablePoolMonitor _).
  - destruct (decide (_ /\ _)) as [[Hu Hp]|Hno],
      (mongo.APMConfig.EnableCommandMonitor _), (mongo.APMConfig.EnablePoolMonitor _);
      cbn; case_decide; first [done | tauto].
  - by destruct (decide (_ /\ _)), (mongo.APMConfig.EnableCommandMonitor _),
      (mongo.APMConfig.EnablePoolMonitor _).
  - by destruct (decide (_ /\ _)), (mongo.APMConfig.EnableCommandMonitor _),
      (mongo.APMConfig.EnablePoolMonitor _).
Qed.

Section Connected.
Variable Connect : context.Context -> Z -> mongo.options.ClientOptions ->
                   M (option DriverClient * error).
Variable Ping : DriverClient -> context.Context -> Z -> M error.
Variable Disconnect : DriverClient -> context.Context -> M error.



End Connected.
End ClientProperties.

(** *** The initializers, beyond the endpoint and the stream *)


(** X25: both initializers leave the composite of the W3C trace context and
    the baggage propagators as the process's propagator, and a middleware
    built afterwards extracts the parent of every request with it: the request
    span is started under, and the handler's request carries, the context that
    this propagator extracted from the request's headers. *)
Theorem middleware_built_after_initializer (key : string) (config served : Config.t)
    (w : World) :
  let composite :=
    propagation.Composite [propagation.TraceContext; propagation.Baggage] in
  let built_after (init : M sdktrace.TracerProvider) :=
    propagator (after init w) = composite /\
    exists mw,
      OtelMiddleware key served (after init w) = (Return mw, after init w) /\
      forall (next : HandlerFunc) (w' : World),
        let span : trace.Span := length (log w') in
        let req := echo.request (ectx w') in
        let handed := handed_over key served (service_tracer served) composite w' in
        mw next w' = finished span (first_record served w') (next handed) /\
        echo.Ctx (echo.request (ectx handed))
        = context.WithSpan span
            (context.Extracted composite (echo.Header req) (echo.Ctx req)) in
  built_after (InitTracerHTTP config) /\ built_after (InitTracerGRPC config).
Proof.
  intros composite built_after. subst built_after. cbv beta.
  assert (Hhttp : propagator (after (InitTracerHTTP config) w) = composite).
  { unfold after. by rewrite InitTracerHTTP_run. }
  assert (Hgrpc : propagator (after (InitTracerGRPC config) w) = composite).
  { unfold after. by rewrite InitTracerGRPC_run. }
  split.
  - split; [exact Hhttp|].
    destruct (OtelMiddleware_finished key served (after (InitTracerHTTP config) w))
      as (mw & Hmw & Hrun).
    exists mw. split; [exact Hmw|]. intros next w' span req handed.
    rewrite Hrun, Hhttp. done.
  - split; [exact Hgrpc|].
    destruct (OtelMiddleware_finished key served (after (InitTracerGRPC config) w))
      as (mw & Hmw & Hrun).
    exists mw. split; [exact Hmw|]. intros next w' span req handed.
    rewrite Hrun, Hgrpc. done.
Qed.

(** X26: a failure to build the exporter is not fatal.  Either initializer
    then prints one line, ["Error creating HTTP OTLP exporter: "] (the gRPC
    one says HTTP too), a space and the error's text, and still returns and
    installs a provider, one that batches to no exporter.  Apart from that
    line the HTTP initializer always prints the line
    ["path /api/default/v1/traces"], the gRPC one nothing; neither makes a
    call on a span. *)
Theorem exporter_failure_is_not_fatal (config : Config.t) :
  exists e_http e_grpc,
    otlptrace.transport e_http = otlptrace.HTTP /\
    otlptrace.transport e_grpc = otlptrace.GRPC /\
    forall w : World,
      let reports (e : otlptrace.Exporter) (init : M sdktrace.TracerProvider)
          (always : list string) :=
        exists tp,
          init w = (Return tp, after init w) /\
          provider (after init w) = Some tp /\
          log (after init w) = log w /\
          (forall err, exporterError w e = Some err ->
             sdktrace.batcher tp = None /\
             stdout (after init w)
             = stdout w ++ always
               ++ ["Error creating HTTP OTLP exporter:  " +:+ err_text err]) /\
          (exporterError w e = None ->
             sdktrace.batcher tp = Some e /\
             stdout (after init w) = stdout w ++ always) in
      reports e_http (InitTracerHTTP config) ["path /api/default/v1/traces"] /\
      reports e_grpc (InitTracerGRPC config) [].
Proof.
  pose proof (InitTracerHTTP_run config) as Hhttp.
  pose proof (InitTracerGRPC_run config) as Hgrpc.
  cbv zeta in Hhttp, Hgrpc.
  match type of Hhttp with
  | context [{| otlptrace.transport := otlptrace.HTTP; otlptrace.options := ?o |}] =>
      exists {| otlptrace.transport := otlptrace.HTTP; otlptrace.options := o |}
  end.
  match type of Hgrpc with
  | context [{| otlptrace.transport := otlptrace.GRPC; otlptrace.options := ?o |}] =>
      exists {| otlptrace.transport := otlptrace.GRPC; otlptrace.options := o |}
  end.
  split; [reflexivity|]. split; [reflexivity|].
  - intros w reports. subst reports. cbv beta. split.
    + eexists. unfold after. rewrite Hhttp. cbn [fst snd].
      split; [reflexivity|]. split; [reflexivity|]. split; [reflexivity|].
      cbn [stdout set_provider set_stdout set_propagator sdktrace.batcher].
      split.
      * intros err Herr. rewrite Herr. done.
      * intros Hnone. rewrite Hnone. done.
    + eexists. unfold after. rewrite Hgrpc. cbn [fst snd].
      split; [reflexivity|]. split; [reflexivity|]. split; [reflexivity|].
      cbn [stdout set_provider set_stdout set_propagator sdktrace.batcher].
      split.
      * intros err Herr. rewrite Herr. done.
      * intros Hnone. rewrite Hnone. by rewrite app_nil_r.
Qed.

(** X27: what the initializers ask of the exporter beyond the endpoint and
    the stream.  The connection is insecure exactly when the config's
    [IsSecure] is off; the one set of headers carries [Authorization] with
    ["Basic "] before the config's [BasicAuth] (also when that is empty) and
    no header besides it and [stream-name]; the HTTP exporter gets the URL
    path ["/api/default/v1/traces"] whatever the stream, the gRPC exporter no
    path. *)
Theorem exporter_options (config : Config.t) :
  exists e_http e_grpc,
    (forall w tp, outcome (InitTracerHTTP config) w = Return tp ->
       sdktrace.batcher tp
       = match exporterError w e_http with None => Some e_http | Some _ => None end) /\
    (forall w tp, outcome (InitTracerGRPC config) w = Return tp ->
       sdktrace.batcher tp
       = match exporterError w e_grpc with None => Some e_grpc | Some _ => None end) /\
    let asks (e : otlptrace.Exporter) (tr : otlptrace.Transport) (path : option string) :=
      otlptrace.transport e = tr /\
      (otlptrace.WithInsecure ∈ otlptrace.options e <-> Config.IsSecure config = false) /\
      (exists headers,
         (forall h, otlptrace.WithHeaders h ∈ otlptrace.options e <-> h = headers) /\
         headers !! "Authorization" = Some ("Basic " +:+ Config.BasicAuth config) /\
         forall key, is_Some (headers !! key) ->
           key = "Authorization" \/ key = "stream-name") /\
      (forall p, otlptrace.WithURLPath p ∈ otlptrace.options e <-> path = Some p) in
    asks e_http otlptrace.HTTP (Some "/api/default/v1/traces") /\
    asks e_grpc otlptrace.GRPC None.
Proof.
  pose proof (InitTracerHTTP_run config) as Hhttp.
  pose proof (InitTracerGRPC_run config) as Hgrpc.
  cbv zeta in Hhttp, Hgrpc.
  match type of Hhttp with
  | context [{| otlptrace.transport := otlptrace.HTTP; otlptrace.options := ?o |}] =>
      exists {| otlptrace.transport := otlptrace.HTTP; otlptrace.options := o |}
  end.
  match type of Hgrpc with
  | context [{| otlptrace.transport := otlptrace.GRPC; otlptrace.options := ?o |}] =>
      exists {| otlptrace.transport := otlptrace.GRPC; otlptrace.options := o |}
  end.
  split; [|split]; cycle 2.
  - cbv zeta beta. split.
    + split; [reflexivity|]. cbn [otlptrace.options]. split; [|split].
      * destruct (Config.IsSecure config); cbn [app]; split; try done.
        -- intros Hin. repeat (apply elem_of_cons in Hin as [Hin|Hin]; [done|]).
           by apply elem_of_nil in Hin.
        -- intros _. set_solver.
      * eexists. split; [|split].
        -- intros h. split.
           ++ intros Hin.
              apply elem_of_app in Hin as [Hin|Hin].
              ** apply elem_of_cons in Hin as [Hin|Hin]; [done|].
                 apply elem_of_cons in Hin as [Hin|Hin]; [done|].
                 apply elem_of_cons in Hin as [Hin|Hin]; [|by apply elem_of_nil in Hin].
                 injection Hin as ->. reflexivity.
              ** destruct (Config.IsSecure config); [by apply elem_of_nil in Hin|].
                 apply elem_of_cons in Hin as [Hin|Hin]; [done|by apply elem_of_nil in Hin].
           ++ intros ->. set_solver.
        -- rewrite lookup_insert_eq. done.
        -- intros key [v Hv].
           destruct (decide (key = "Authorization")) as [|Hk1]; [by left|].
           rewrite lookup_insert_ne in Hv by done.
           destruct (decide (key = "stream-name")) as [|Hk2]; [by right|].
           rewrite lookup_singleton_ne in Hv by done. done.
      * intros p. split.
        -- intros Hin. apply elem_of_app in Hin as [Hin|Hin].
           ++ apply elem_of_cons in Hin as [Hin|Hin]; [done|].
              apply elem_of_cons in Hin as [Hin|Hin]; [by injection Hin as ->|].
              apply elem_of_cons in Hin as [Hin|Hin]; [done|by apply elem_of_nil in Hin].
           ++ destruct (Config.IsSecure config); [by apply elem_of_nil in Hin|].
              apply elem_of_cons in Hin as [Hin|Hin]; [done|by apply elem_of_nil in Hin].
        -- intros [= <-]. set_solver.
    + split; [reflexivity|]. cbn [otlptrace.options]. split; [|split].
      * destruct (Config.IsSecure config); cbn [app]; split; try done.
        -- intros Hin. repeat (apply elem_of_cons in Hin as [Hin|Hin]; [done|]).
           by apply elem_of_nil in Hin.
        -- intros _. set_solver.
      * eexists. split; [|split].
        -- intros h. split.
           ++ intros Hin.
              apply elem_of_app in Hin as [Hin|Hin].
              ** apply elem_of_cons in Hin as [Hin|Hin]; [done|].
                 apply elem_of_cons in Hin as [Hin|Hin]; [|by apply elem_of_nil in Hin].
                 injection Hin as ->. reflexivity.
              ** destruct (Config.IsSecure config); [by apply elem_of_nil in Hin|].
                 apply elem_of_cons in Hin as [Hin|Hin]; [done|by apply elem_of_nil in Hin].
           ++ intros ->. set_solver.
        -- rewrite lookup_insert_eq. done.
        -- intros key [v Hv].
           destruct (decide (key = "Authorization")) as [|Hk1]; [by left|].
           rewrite lookup_insert_ne in Hv by done.
           destruct (decide (key = "stream-name")) as [|Hk2]; [by right|].
           rewrite lookup_singleton_ne in Hv by done. done.
      * intros p. split; [|done].
        intros Hin. apply elem_of_app in Hin as [Hin|Hin].
        -- apply elem_of_cons in Hin as [Hin|Hin]; [done|].
           apply elem_of_cons in Hin as [Hin|Hin]; [done|by apply elem_of_nil in Hin].
        -- destruct (Config.IsSecure config); [by apply elem_of_nil in Hin|].
           apply elem_of_cons in Hin as [Hin|Hin]; [done|by apply elem_of_nil in Hin].
  - intros w tp. unfold outcome. rewrite Hhttp. cbn [fst].
    intros [= <-]. reflexivity.
  - intros w tp. unfold outcome. rewrite Hgrpc. cbn [fst].
    intros [= <-]. reflexivity.
Qed.

(** X28: the resource of the provider.  The HTTP initializer describes the
    service by its name, the version ["0.0.1"] and the config's environment;
    the gRPC initializer by its name only, so the config's environment does
    not reach the resource.  Neither gives the name a default: with an empty
    service name the resource carries an empty [service.name] while the
    middleware's tracer is named ["default"].  Both sample every span. *)
Theorem provider_resource (config : Config.t) (w : World) :
  exists tp_http tp_grpc,
    outcome (InitTracerHTTP config) w = Return tp_http /\
    outcome (InitTracerGRPC config) w = Return tp_grpc /\
    sdktrace.resource tp_http = [
      attribute.String "service.name" (Config.ServiceName config);
      attribute.String "service.version" "0.0.1";
      attribute.String "environment" (Config.Environment config)] /\
    sdktrace.resource tp_grpc = [
      attribute.String "service.name" (Config.ServiceName config)] /\
    sdktrace.sampler tp_http = sdktrace.AlwaysSample /\
    sdktrace.sampler tp_grpc = sdktrace.AlwaysSample /\
    (Config.ServiceName config = "" ->
       attribute.String "service.name" "" ∈ sdktrace.resource tp_http /\
       attribute.String "service.name" "" ∈ sdktrace.resource tp_grpc /\
       service_tracer config = otel.Tracer "default").
Proof.
  eexists. eexists. unfold outcome. rewrite InitTracerHTTP_run, InitTracerGRPC_run.
  cbn [fst sdktrace.resource sdktrace.sampler].
  repeat split_and; try reflexivity.
  intros Hname. rewrite Hname. unfold service_tracer. rewrite Hname.
  repeat split_and; [set_solver|set_solver|by case_decide].
Qed.

(** *** The properties above, on concrete stores and clients *)


Lemma succeeded_command_whole_milliseconds_witness :
  mongo.SpanFromContext (fun _ _ => false) (context.WithSpan 0%nat context.Background)
  = Some 0%nat /\
  (0 <= 1500000)%Z /\
  (1000000 * 1 <= 1500000 < 1000000 * (1 + 1))%Z /\
  span_attributes 0%nat
    (log (after (mongo.event.Succeeded (mongo.commandMonitor (fun _ _ => false) String.length)
                   (context.WithSpan 0%nat context.Background)
                   {| mongo.event.DurationNanos := 1500000 |}) idle))
    !! "db.duration_ms"
  = Some (attribute.INT64 1).
Proof.
  split; [reflexivity|]. split; [lia|]. split; [lia|].
  apply (succeeded_command_whole_milliseconds (fun _ _ => false) String.length
           (context.WithSpan 0%nat context.Background) 0%nat 1500000 1 idle eq_refl
           ltac:(lia) ltac:(lia)).
Defined.

Lemma monitor_without_span_witness :
  mongo.SpanFromContext (fun _ _ => false) context.Background = None /\
  mongo.event.Failed (mongo.commandMonitor (fun _ _ => false) String.length)
    context.Background {| mongo.event.Failure := "connection reset" |} idle
  = (Return tt, idle).
Proof.
  split; [reflexivity|].
  apply (monitor_without_span (fun _ _ => false) String.length context.Background
           {| mongo.event.CommandName := "find"; mongo.event.Command := "{find: users}";
              mongo.event.ConnectionID := "localhost:27017[-3]" |}
           {| mongo.event.DurationNanos := 0 |}
           {| mongo.event.Failure := "connection reset" |} idle eq_refl).
Defined.



